(** * Verification of the VCF helper functions of
      [cryptosporidium_host_adaptation/core.py]

    The development embeds the variant-table pipeline of [core.py]
    ([read_vcf], [find_index], [expand_multiallelic_variants],
    [compute_frequencies], [extract_first_ann], [add_ann_info_to_df]) as
    executable Rocq functions and proves the properties of the
    specification against them.

    Layout: the Python builtins the code relies on ([Py]), the pandas
    objects it manipulates ([Pandas]), the functions of [core.py], and then
    the lemmas and theorems. *)

From Stdlib Require Import String Ascii List ZArith Lia Bool QArith.
Import ListNotations.

Close Scope Q_scope.
Open Scope string_scope.
Open Scope list_scope.
Open Scope nat_scope.

(** ** Exceptions and fallible computations *)

(** The Python exceptions the modelled code can raise. *)
Inductive exn : Type :=
| KeyError
| IndexError
| ValueError
| AttributeError
| TypeError
| UnboundLocalError.

(** A computation either returns a value or raises. *)
Inductive result (A : Type) : Type :=
| Ok (a : A)
| Raise (e : exn).

Arguments Ok {A} a.
Arguments Raise {A} e.

Definition bind {A B : Type} (m : result A) (k : A -> result B) : result B :=
  match m with
  | Ok a => k a
  | Raise e => Raise e
  end.

Notation "x <- m ;; k" := (bind m (fun x => k))
  (at level 61, m at next level, right associativity).

Definition is_ok {A : Type} (m : result A) : bool :=
  match m with Ok _ => true | Raise _ => false end.

(** [xs[i]] on a Python list with a non-negative index. *)
Definition list_item {A : Type} (xs : list A) (i : nat) : result A :=
  match nth_error xs i with
  | Some x => Ok x
  | None => Raise IndexError
  end.

(** ** Python builtins on [str] and [int] *)

Module Py.

(** [s.startswith(p)] *)
Fixpoint startswith (s p : string) {struct p} : bool :=
  match p with
  | EmptyString => true
  | String a p' =>
      match s with
      | EmptyString => false
      | String b s' => Ascii.eqb a b && startswith s' p'
      end
  end.

(** Position of the first occurrence of [sub] in [s], if any. *)
Fixpoint find_from (s sub : string) {struct s} : option nat :=
  if startswith s sub then Some O
  else match s with
       | EmptyString => None
       | String _ s' => option_map S (find_from s' sub)
       end.

(** [s.find(sub)]: the lowest index of [sub] in [s], or [-1]. *)
Definition find (s sub : string) : Z :=
  match find_from s sub with
  | Some k => Z.of_nat k
  | None => (-1)%Z
  end.

(** [sub in s] *)
Definition contains (sub s : string) : bool :=
  match find_from s sub with
  | Some _ => true
  | None => false
  end.

Fixpoint drop (n : nat) (s : string) : string :=
  match n, s with
  | O, _ => s
  | S n', String _ s' => drop n' s'
  | S _, EmptyString => EmptyString
  end.

Fixpoint take (n : nat) (s : string) : string :=
  match n, s with
  | O, _ => EmptyString
  | S n', String c s' => String c (take n' s')
  | S _, EmptyString => EmptyString
  end.

(** [s[k:]]; a negative [k] counts from the end of [s]. *)
Definition slice_from (s : string) (k : Z) : string :=
  if (k <? 0)%Z
  then drop (Z.to_nat (Z.max 0 (Z.of_nat (String.length s) + k))) s
  else drop (Z.to_nat k) s.

(** [s.split(sep)] for a non-empty [sep]: the pieces between the
    non-overlapping occurrences of [sep], scanned left to right.  [skip]
    counts the characters of a matched separator still to be passed. *)
Fixpoint split_go (sep s : string) (skip : nat) {struct s} : list string :=
  match s with
  | EmptyString => [EmptyString]
  | String c s' =>
      match skip with
      | S k => split_go sep s' k
      | O =>
          if startswith s sep
          then EmptyString :: split_go sep s' (String.length sep - 1)
          else match split_go sep s' O with
               | piece :: pieces => String c piece :: pieces
               | [] => [String c EmptyString]
               end
      end
  end.

Definition split (s sep : string) : list string := split_go sep s O.

(** [s.replace(old, new)] for a non-empty [old]. *)
Fixpoint replace_go (old new s : string) (skip : nat) {struct s} : string :=
  match s with
  | EmptyString => EmptyString
  | String c s' =>
      match skip with
      | S k => replace_go old new s' k
      | O =>
          if startswith s old
          then new ++ replace_go old new s' (String.length old - 1)
          else String c (replace_go old new s' O)
      end
  end.

Definition replace (s old new : string) : string := replace_go old new s O.

(** ASCII white space as [str.isspace] sees it. *)
Definition isspace (c : ascii) : bool :=
  let n := nat_of_ascii c in
  ((9 <=? n) && (n <=? 13)) || ((28 <=? n) && (n <=? 32)).

Fixpoint lstrip (s : string) : string :=
  match s with
  | EmptyString => EmptyString
  | String c s' => if isspace c then lstrip s' else s
  end.

Fixpoint rstrip (s : string) : string :=
  match s with
  | EmptyString => EmptyString
  | String c s' =>
      match rstrip s' with
      | EmptyString => if isspace c then EmptyString else String c EmptyString
      | r => String c r
      end
  end.

(** [s.strip()] *)
Definition strip (s : string) : string := rstrip (lstrip s).

Definition digit_of (c : ascii) : option Z :=
  let n := nat_of_ascii c in
  if (48 <=? n) && (n <=? 57) then Some (Z.of_nat (n - 48)) else None.

Definition isdigit (c : ascii) : bool :=
  match digit_of c with Some _ => true | None => false end.

(** CPython's default limit on the digits of a decimal literal given to
    [int] ([sys.get_int_max_str_digits()]). *)
Definition int_max_str_digits : nat := 4300.

(** The digits of a decimal literal: a single underscore may separate two
    digits.  Returns the value and the number of digits read. *)
Fixpoint int_digits (s : string) (acc : Z) (ndig : nat) : option (Z * nat) :=
  match s with
  | EmptyString => Some (acc, ndig)
  | String c s' =>
      match digit_of c with
      | Some d => int_digits s' (10 * acc + d)%Z (S ndig)
      | None =>
          if Ascii.eqb c "_"
          then match s' with
               | String c' _ => if isdigit c' then int_digits s' acc ndig else None
               | EmptyString => None
               end
          else None
      end
  end.

Definition int_unsigned (s : string) : option Z :=
  match s with
  | String c _ =>
      if isdigit c
      then match int_digits s 0%Z O with
           | Some (v, n) => if n <=? int_max_str_digits then Some v else None
           | None => None
           end
      else None
  | EmptyString => None
  end.

(** [int(s)] on a [str] of ASCII characters, base 10: surrounding white
    space is dropped, one sign is allowed; anything else raises
    [ValueError]. *)
Definition int (s : string) : result Z :=
  let body := strip s in
  let parsed :=
    match body with
    | String c rest =>
        if Ascii.eqb c "-" then option_map Z.opp (int_unsigned rest)
        else if Ascii.eqb c "+" then int_unsigned rest
        else int_unsigned body
    | EmptyString => None
    end in
  match parsed with
  | Some v => Ok v
  | None => Raise ValueError
  end.

(** [xs.index(x)] where [x in xs]; [None] when [x] is not in [xs]. *)
Fixpoint index_of (xs : list string) (x : string) : option nat :=
  match xs with
  | [] => None
  | y :: ys => if String.eqb y x then Some O else option_map S (index_of ys x)
  end.

End Py.

(** ** The pandas objects of the pipeline *)

Module Pandas.

(** A [float64] as the frequency table holds it: a finite value, kept as
    the rational quotient it is rounded from, or one of the IEEE special
    values. *)
Inductive float : Type :=
| Finite (q : Q)
| Inf (negative : bool)
| NaN.


(** numpy's true division of two [int64] values: a zero divisor gives
    [nan] or a signed [inf], and raises nothing. *)
Definition truediv (a b : Z) : float :=
  if (b =? 0)%Z
  then if (a =? 0)%Z then NaN else Inf (a <? 0)%Z
  else Finite (Qmake (Z.sgn b * a) (Z.to_pos (Z.abs b))).

(** The value of one cell of a table. *)
Inductive cell : Type :=
| CStr (s : string)
| CInt (z : Z)
| CFloat (x : float)
| CNone.

(** A row as [iterrows] yields it: the column labels and the row's values. *)
Record Series : Type := mkSeries {
  s_index : list string;
  s_values : list cell
}.

(** A table: column labels, and the rows with their index label.  A frame
    is rectangular (one cell per column in every row) and its column
    labels are distinct, as [pd.read_csv(names=...)] enforces. *)
Record DataFrame : Type := mkDataFrame {
  columns : list string;
  rows : list (Z * list cell)
}.

(** A Python [dict] with [str] keys, in insertion order. *)
Definition dict : Type := list (string * cell).

Fixpoint dict_get (d : dict) (k : string) : option cell :=
  match d with
  | [] => None
  | (k', v) :: d' => if String.eqb k' k then Some v else dict_get d' k
  end.

(** [d[k] = v] *)
Fixpoint dict_set (d : dict) (k : string) (v : cell) : dict :=
  match d with
  | [] => [(k, v)]
  | (k', v') :: d' =>
      if String.eqb k' k then (k', v) :: d' else (k', v') :: dict_set d' k v
  end.

Definition keys (d : dict) : list string := map fst d.

Definition mem (k : string) (ks : list string) : bool :=
  existsb (String.eqb k) ks.

(** [row[name]] *)
Definition series_get (row : Series) (name : string) : result cell :=
  match Py.index_of (s_index row) name with
  | Some p =>
      match nth_error (s_values row) p with
      | Some c => Ok c
      | None => Raise KeyError
      end
  | None => Raise KeyError
  end.

(** [df.iterrows()] *)
Definition iterrows (df : DataFrame) : list (Z * Series) :=
  map (fun r => (fst r, mkSeries (columns df) (snd r))) (rows df).

(** [df[name]], the values of one column. *)
Definition get_column (df : DataFrame) (name : string) : result (list cell) :=
  match Py.index_of (columns df) name with
  | Some p => Ok (map (fun r => nth p (snd r) CNone) (rows df))
  | None => Raise KeyError
  end.

Fixpoint set_nth (p : nat) (v : cell) (cs : list cell) : list cell :=
  match cs, p with
  | [], _ => []
  | _ :: cs', O => v :: cs'
  | c :: cs', S p' => c :: set_nth p' v cs'
  end.

(** [df[name] = values]: an existing column is overwritten in place, a new
    one is appended. *)
Definition set_column (df : DataFrame) (name : string) (values : list cell)
  : DataFrame :=
  match Py.index_of (columns df) name with
  | Some p =>
      mkDataFrame (columns df)
        (map (fun rv => (fst (fst rv), set_nth p (snd rv) (snd (fst rv))))
             (combine (rows df) values))
  | None =>
      mkDataFrame (columns df ++ [name])
        (map (fun rv => (fst (fst rv), snd (fst rv) ++ [snd rv]))
             (combine (rows df) values))
  end.

(** [df[name] = v] for a scalar [v]. *)
Definition set_column_const (df : DataFrame) (name : string) (v : cell)
  : DataFrame :=
  set_column df name (repeat v (List.length (rows df))).

(** [df.loc[idx, name] = v] for an existing column [name]: every row
    labelled [idx] is written. *)
Definition loc_set (df : DataFrame) (idx : Z) (name : string) (v : cell)
  : DataFrame :=
  match Py.index_of (columns df) name with
  | Some p =>
      mkDataFrame (columns df)
        (map (fun r => if (fst r =? idx)%Z then (fst r, set_nth p v (snd r)) else r)
             (rows df))
  | None => df
  end.

(** [df[names].copy()] *)
Fixpoint select_columns (df : DataFrame) (names : list string)
  : result DataFrame :=
  match names with
  | [] => Ok (mkDataFrame [] (map (fun r => (fst r, [])) (rows df)))
  | n :: ns =>
      col <- get_column df n;;
      rest <- select_columns df ns;;
      Ok (mkDataFrame (n :: columns rest)
            (map (fun cr => (fst (snd cr), fst cr :: snd (snd cr)))
                 (combine col (rows rest))))
  end.

(** The labels of the records, in order of first appearance. *)
Fixpoint union_keys (seen : list string) (records : list dict) : list string :=
  match records with
  | [] => seen
  | d :: ds =>
      union_keys
        (fold_left (fun acc k => if mem k acc then acc else acc ++ [k])
                   (keys d) seen)
        ds
  end.

Fixpoint number_from (i : Z) (records : list (list cell))
  : list (Z * list cell) :=
  match records with
  | [] => []
  | r :: rs => (i, r) :: number_from (i + 1)%Z rs
  end.

(** [pd.DataFrame(records)] for a list of dictionaries: one row per
    dictionary, labelled [0, 1, ...]; a label a dictionary lacks is
    missing in its row. *)
Definition from_records (records : list dict) : DataFrame :=
  let cols := union_keys [] records in
  mkDataFrame cols
    (number_from 0%Z
       (map (fun d => map (fun k => match dict_get d k with
                                    | Some c => c
                                    | None => CFloat NaN
                                    end) cols)
            records)).

(** [a / b] on two columns of integers, element by element. *)
Fixpoint series_truediv (a b : list cell) : result (list cell) :=
  match a, b with
  | CInt x :: a', CInt y :: b' =>
      rest <- series_truediv a' b';;
      Ok (CFloat (truediv x y) :: rest)
  | [], _ => Ok []
  | _, [] => Ok []
  | _, _ => Raise TypeError
  end.

End Pandas.

Import Pandas.

(** ** The functions of [core.py] *)

Definition tab : string := String (ascii_of_nat 9) EmptyString.

(** [str] methods are only defined on a [str] value. *)
Definition as_str (c : cell) : result string :=
  match c with
  | CStr s => Ok s
  | _ => Raise AttributeError
  end.

Section Loader.

(** [pd.read_csv(vcf_file, sep="\t", comment="#", header=None, names=header)]
    is the library's: the file's lines and the column names come in, a
    table or an exception comes out. *)
Variable read_csv : list string -> list string -> result DataFrame.

(** The [for line in f] loop of [read_vcf]: the column names of the first
    line that starts with ["#CHROM"]; [None] when the loop ends without
    binding [header]. *)
Fixpoint find_header (lines : list string) : option (list string) :=
  match lines with
  | [] => None
  | line :: rest =>
      if Py.startswith line "#CHROM"
      then Some (Py.split (Py.strip line) tab)
      else find_header rest
  end.

(** [core.py], [read_vcf]; the file is given by its lines.  Reading the
    unbound local [header] raises [UnboundLocalError]. *)
Definition read_vcf (vcf_file : list string) : result DataFrame :=
  match find_header vcf_file with
  | Some header => read_csv vcf_file header
  | None => Raise UnboundLocalError
  end.

End Loader.

(** [core.py], [find_index]. *)
Definition find_index (format_value field : string) : option nat :=
  let item_list := Py.split format_value ":" in
  Py.index_of item_list field.

(** [int(tok) if tok != '.' else 0] *)
Definition count_of (tok : string) : result Z :=
  if String.eqb tok "." then Ok 0%Z else Py.int tok.

(** [int(ao_values[i]) if i < len(ao_values) and ao_values[i] != '.' else 0] *)
Definition ao_count_of (ao_values : list string) (i : nat) : result Z :=
  match nth_error ao_values i with
  | Some tok => count_of tok
  | None => Ok 0%Z
  end.

(** The body of the [for sample in sample_names] loop for one sample:
    the three entries it stores in [new_row]. *)
Definition sample_entries (ro_index ao_index dp_index i : nat)
    (row : Series) (sample : string) (new_row : dict) : result dict :=
  c <- series_get row sample;;
  v <- as_str c;;
  let sample_values := Py.split v ":" in
  ro_tok <- list_item sample_values ro_index;;
  ro <- count_of ro_tok;;
  let new_row := dict_set new_row ("RO_" ++ sample)%string (CInt ro) in
  dp_tok <- list_item sample_values dp_index;;
  dp <- count_of dp_tok;;
  let new_row := dict_set new_row ("DP_" ++ sample)%string (CInt dp) in
  ao_tok <- list_item sample_values ao_index;;
  let ao_values := Py.split ao_tok "," in
  ao <- ao_count_of ao_values i;;
  Ok (dict_set new_row ("AO_" ++ sample)%string (CInt ao)).

Fixpoint samples_loop (ro_index ao_index dp_index i : nat) (row : Series)
    (sample_names : list string) (new_row : dict) : result dict :=
  match sample_names with
  | [] => Ok new_row
  | sample :: rest =>
      new_row <- sample_entries ro_index ao_index dp_index i row sample new_row;;
      samples_loop ro_index ao_index dp_index i row rest new_row
  end.

(** The body of the loop over [enumerate(zip(alt_alleles, info_type))]. *)
Definition allele_row (ro_index ao_index dp_index : nat) (row : Series)
    (sample_names : list string) (i : nat) (alt inty : string) : result dict :=
  chrom <- series_get row "#CHROM";;
  pos <- series_get row "POS";;
  ref <- series_get row "REF";;
  let new_row := [("#CHROM", chrom); ("POS", pos); ("REF", ref);
                  ("ALT", CStr alt); ("INFO_TYPE", CStr inty)] in
  samples_loop ro_index ao_index dp_index i row sample_names new_row.

Fixpoint alleles_loop (ro_index ao_index dp_index : nat) (row : Series)
    (sample_names : list string) (i : nat) (pairs : list (string * string))
  : result (list dict) :=
  match pairs with
  | [] => Ok []
  | (alt, inty) :: rest =>
      new_row <- allele_row ro_index ao_index dp_index row sample_names i alt inty;;
      more <- alleles_loop ro_index ao_index dp_index row sample_names (S i) rest;;
      Ok (new_row :: more)
  end.

(** [row['ALT'].split(',')] *)
Definition alt_alleles_of (row : Series) : result (list string) :=
  c <- series_get row "ALT";;
  s <- as_str c;;
  Ok (Py.split s ",").

(** [row['INFO'].split('TYPE=')[1].split(';')[0].split(',')] *)
Definition info_type_of (row : Series) : result (list string) :=
  c <- series_get row "INFO";;
  s <- as_str c;;
  after <- list_item (Py.split s "TYPE=") 1;;
  Ok (Py.split (nth 0 (Py.split after ";") EmptyString) ",").

(** The body of the loop over [df_vcf.iterrows()]: the rows one input row
    expands to. *)
Definition expand_row (ro_index ao_index dp_index : nat)
    (sample_names : list string) (row : Series) : result (list dict) :=
  alt_alleles <- alt_alleles_of row;;
  info_type <- info_type_of row;;
  alleles_loop ro_index ao_index dp_index row sample_names 0
    (combine alt_alleles info_type).

Fixpoint rows_loop (ro_index ao_index dp_index : nat)
    (sample_names : list string) (its : list (Z * Series))
  : result (list dict) :=
  match its with
  | [] => Ok []
  | (_, row) :: rest =>
      new_rows <- expand_row ro_index ao_index dp_index sample_names row;;
      more <- rows_loop ro_index ao_index dp_index sample_names rest;;
      Ok (new_rows ++ more)
  end.

(** [df_vcf['FORMAT'].values[0]] *)
Definition format_example_of (df_vcf : DataFrame) : result cell :=
  col <- get_column df_vcf "FORMAT";;
  list_item col 0.

(** The list [expanded_rows] at the end of [expand_multiallelic_variants]. *)
Definition expanded_rows (df_vcf : DataFrame) : result (list dict) :=
  let sample_names := skipn 9 (columns df_vcf) in
  c <- format_example_of df_vcf;;
  format_example <- as_str c;;
  let ro_index := find_index format_example "RO" in
  let ao_index := find_index format_example "AO" in
  let dp_index := find_index format_example "DP" in
  match ro_index, ao_index, dp_index with
  | Some ro, Some ao, Some dp =>
      rows_loop ro ao dp sample_names (iterrows df_vcf)
  | _, _, _ => Raise ValueError
  end.

(** [core.py], [expand_multiallelic_variants]. *)
Definition expand_multiallelic_variants (df_vcf : DataFrame)
  : result DataFrame :=
  records <- expanded_rows df_vcf;;
  Ok (from_records records).

(** The [for sample in sample_names] loop of [compute_frequencies]. *)
Fixpoint frequencies_loop (df_counts : DataFrame) (sample_names : list string)
    (df_af : DataFrame) : result DataFrame :=
  match sample_names with
  | [] => Ok df_af
  | sample :: rest =>
      let ao_col := ("AO_" ++ sample)%string in
      let dp_col := ("DP_" ++ sample)%string in
      let af_col := ("AF_" ++ sample)%string in
      ao <- get_column df_counts ao_col;;
      dp <- get_column df_counts dp_col;;
      af <- series_truediv ao dp;;
      frequencies_loop df_counts rest (set_column df_af af_col af)
  end.

(** [core.py], [compute_frequencies]. *)
Definition compute_frequencies (df_counts : DataFrame) : result DataFrame :=
  let sample_names :=
    map (fun col => Py.replace col "AO_" "")
        (filter (fun col => Py.startswith col "AO_") (columns df_counts)) in
  df_af <- select_columns df_counts ["#CHROM"; "POS"; "REF"; "ALT"];;
  frequencies_loop df_counts sample_names df_af.

(** The dictionary [extract_first_ann] returns; the field [type] is the
    dictionary's key ['type']. *)
Record Ann : Type := mkAnn {
  allele : string;
  type : string;
  impact : string;
  gene_id : string
}.

(** [core.py], [extract_first_ann]. *)
Definition extract_first_ann (info_field : string) : option Ann :=
  if negb (Py.contains "ANN=" info_field) then None
  else
    let ann_start := Py.find info_field "ANN=" in
    let ann_content := Py.slice_from info_field (ann_start + 4) in
    let ann_content :=
      if Py.contains ";" ann_content
      then nth 0 (Py.split ann_content ";") EmptyString
      else ann_content in
    let annotations := Py.split ann_content "," in
    let first_ann := nth 0 annotations EmptyString in
    let ann_fields := Py.split first_ann "|" in
    if 4 <=? List.length ann_fields
    then Some {| allele := nth 0 ann_fields EmptyString;
                 type := nth 1 ann_fields EmptyString;
                 impact := nth 2 ann_fields EmptyString;
                 gene_id := nth 3 ann_fields EmptyString |}
    else None.

(** [extract_first_ann] on a cell: [in] is only defined on a [str]. *)
Definition extract_first_ann_cell (info : cell) : result (option Ann) :=
  match info with
  | CStr s => Ok (extract_first_ann s)
  | _ => Raise TypeError
  end.

(** The four [df.loc[idx, ...] = ...] assignments. *)
Definition store_ann (df : DataFrame) (idx : Z) (ann_data : Ann) : DataFrame :=
  let df := loc_set df idx "variant_type" (CStr (type ann_data)) in
  let df := loc_set df idx "impact" (CStr (impact ann_data)) in
  let df := loc_set df idx "gene_id" (CStr (gene_id ann_data)) in
  loc_set df idx "allele" (CStr (allele ann_data)).

(** The [for idx, row in df.iterrows()] loop of [add_ann_info_to_df]; the
    rows iterated are those of the table when the loop starts. *)
Fixpoint ann_loop (info_column : string) (its : list (Z * Series))
    (df : DataFrame) : result DataFrame :=
  match its with
  | [] => Ok df
  | (idx, row) :: rest =>
      info <- series_get row info_column;;
      ann_data <- extract_first_ann_cell info;;
      let df := match ann_data with
                | Some a => store_ann df idx a
                | None => df
                end in
      ann_loop info_column rest df
  end.

(** [core.py], [add_ann_info_to_df]. *)
Definition add_ann_info_to_df (df : DataFrame) (info_column : string)
  : result DataFrame :=
  let df := set_column_const df "variant_type" CNone in
  let df := set_column_const df "impact" CNone in
  let df := set_column_const df "gene_id" CNone in
  let df := set_column_const df "allele" CNone in
  ann_loop info_column (iterrows df) df.

(** * Notions used by the statements *)

(** ** The annotation extractor *)

(** The part of [s] before the first occurrence of the character [c]
    (all of [s] when [c] does not occur). *)
Fixpoint up_to (c : ascii) (s : string) : string :=
  match s with
  | EmptyString => EmptyString
  | String a s' => if Ascii.eqb c a then EmptyString else String a (up_to c s')
  end.

(** The text that follows the first occurrence of [marker] in [s]. *)
Definition after_first (marker s : string) : string :=
  match Py.find_from s marker with
  | Some k => Py.drop (k + String.length marker) s
  | None => EmptyString
  end.

(** The first annotation entry of an attribute bag: what follows the
    marker, up to the next semicolon and then up to the next comma. *)
Definition first_entry (info : string) : string :=
  up_to "," (up_to ";" (after_first "ANN=" info)).

(** The record made of the first four sub-fields, if there are four. *)
Definition ann_of_fields (fields : list string) : option Ann :=
  match fields with
  | f0 :: f1 :: f2 :: f3 :: _ => Some (mkAnn f0 f1 f2 f3)
  | _ => None
  end.

(** ** The loader *)

(** The exception [expand_multiallelic_variants] raises for a malformed
    table is the data-format error of the pipeline. *)
Definition is_data_format_error (e : exn) : bool :=
  match e with ValueError => true | _ => false end.

(** A file with a meta-information line and a data line, and no header. *)
Definition headerless_file : list string :=
  ["##fileformat=VCFv4.2"; ("CM000429" ++ tab ++ "100" ++ tab ++ ".")%string].

(** ** Variant-call tables *)

(** The nine fixed columns of a variant-call table. *)
Definition vcf_columns : list string :=
  ["#CHROM"; "POS"; "ID"; "REF"; "ALT"; "QUAL"; "FILTER"; "INFO"; "FORMAT"].

(** One variant-call row with a single sample column. *)
Definition vcf_row (pos : Z) (alt info format sample : string) : list cell :=
  [CStr "CM000429"; CInt pos; CStr "."; CStr "G"; CStr alt; CStr "50";
   CStr "."; CStr info; CStr format; CStr sample].

(** The rows [rs] with [f] applied to the cells of the [k]-th. *)
Fixpoint update_row (k : nat) (f : list cell -> list cell)
    (rs : list (Z * list cell)) : list (Z * list cell) :=
  match rs, k with
  | [], _ => []
  | (l, cells) :: rs', O => (l, f cells) :: rs'
  | r :: rs', S k' => r :: update_row k' f rs'
  end.

(** The table [df] with, in its [k]-th row, the cell of column [name]
    replaced by [v]. *)
Definition with_cell (df : DataFrame) (k : nat) (name : string) (v : cell)
  : DataFrame :=
  match Py.index_of (columns df) name with
  | Some p => mkDataFrame (columns df) (update_row k (set_nth p v) (rows df))
  | None => df
  end.

(** Two rows that hold the same value under every label but [name]. *)
Definition agree_except (name : string) (row1 row2 : Series) : Prop :=
  forall other : string,
    other <> name -> series_get row1 other = series_get row2 other.

(** ** The format-descriptor and the [TYPE=] key *)



(** A row without [TYPE=] in a table whose descriptor lacks [DP]. *)
Definition untyped_without_dp : DataFrame :=
  mkDataFrame (vcf_columns ++ ["S1"])
    [(0%Z, vcf_row 100 "A" "DP=10" "GT:RO:AO" "0/1:5:3")].

(** A well-formed row followed by a row without [TYPE=]. *)
Definition untyped_second_row : DataFrame :=
  mkDataFrame (vcf_columns ++ ["S1"])
    [(0%Z, vcf_row 100 "A,T" "DP=10;TYPE=snp,ins" "RO:AO:DP" "5:3,2:10");
     (1%Z, vcf_row 200 "C" "DP=10" "RO:AO:DP" "5:3:10")].

(** ** Counts *)

(** The counts [ro], [dp] and [ao] are those of [sample] in the input
    row [row] for the alternate of index [i]: the sample value is a
    string, it has a sub-field at each of the three positions, and the
    counts are what [count_of] and [ao_count_of] make of them. *)
Definition sample_counts_of (ro_index ao_index dp_index i : nat) (row : Series)
    (sample : string) (ro dp ao : Z) : Prop :=
  exists v ro_tok dp_tok ao_tok : string,
    series_get row sample = Ok (CStr v) /\
    nth_error (Py.split v ":") ro_index = Some ro_tok /\
    count_of ro_tok = Ok ro /\
    nth_error (Py.split v ":") dp_index = Some dp_tok /\
    count_of dp_tok = Ok dp /\
    nth_error (Py.split v ":") ao_index = Some ao_tok /\
    ao_count_of (Py.split ao_tok ",") i = Ok ao.

(** The expanded row [d] holds, as integers, the counts of [sample]. *)
Definition record_counts (ro_index ao_index dp_index i : nat) (row : Series)
    (d : dict) (sample : string) : Prop :=
  exists ro dp ao : Z,
    sample_counts_of ro_index ao_index dp_index i row sample ro dp ao /\
    dict_get d ("RO_" ++ sample) = Some (CInt ro) /\
    dict_get d ("DP_" ++ sample) = Some (CInt dp) /\
    dict_get d ("AO_" ++ sample) = Some (CInt ao).

(** The row [r] of the expanded table [out] comes from an input row and
    an alternate index, and holds for every sample the counts read at the
    positions the first row's format-descriptor gives. *)
Definition table_counts (df_vcf out : DataFrame) (r : Z * list cell) : Prop :=
  exists (format_value : string) (ro_index ao_index dp_index : nat)
         (l : Z) (row : Series) (i : nat),
    format_example_of df_vcf = Ok (CStr format_value) /\
    find_index format_value "RO" = Some ro_index /\
    find_index format_value "AO" = Some ao_index /\
    find_index format_value "DP" = Some dp_index /\
    In (l, row) (iterrows df_vcf) /\
    forall sample : string,
      In sample (skipn 9 (columns df_vcf)) ->
      exists ro dp ao : Z,
        sample_counts_of ro_index ao_index dp_index i row sample ro dp ao /\
        series_get (mkSeries (columns out) (snd r)) ("RO_" ++ sample)
        = Ok (CInt ro) /\
        series_get (mkSeries (columns out) (snd r)) ("DP_" ++ sample)
        = Ok (CInt dp) /\
        series_get (mkSeries (columns out) (snd r)) ("AO_" ++ sample)
        = Ok (CInt ao).

(** A sample whose reference count is written with a minus sign. *)
Definition negative_count : DataFrame :=
  mkDataFrame (vcf_columns ++ ["S1"])
    [(0%Z, vcf_row 100 "A" "TYPE=snp" "RO:AO:DP" "-5:3:10")].

(** Missing tokens and a short alternate-count list. *)
Definition missing_counts : DataFrame :=
  mkDataFrame (vcf_columns ++ ["S1"; "S2"])
    [(0%Z, vcf_row 100 "A,T" "TYPE=snp,ins" "RO:AO:DP" ".:3:." ++ [CStr "7:.,.:9"])].

(** A table with one sample, named ["CAO_1"]. *)
Definition sample_named_CAO_1 : DataFrame :=
  mkDataFrame (vcf_columns ++ ["CAO_1"])
    [(0%Z, vcf_row 100 "A,T" "TYPE=snp,ins" "RO:AO:DP" "5:3,2:10")].

(** ** Valid tables *)

(** The number of alternate alleles of a row, [len(row['ALT'].split(','))]
    ([0] when the row has no [ALT] string). *)
Definition alt_count (row : Series) : nat :=
  match alt_alleles_of row with
  | Ok alt_alleles => List.length alt_alleles
  | Raise _ => 0
  end.




(** Three variant records, with one, two and three alternates. *)
Definition six_alternates : DataFrame :=
  mkDataFrame (vcf_columns ++ ["M4"; "C1"])
    [(0%Z, vcf_row 100 "A" "DP=20;TYPE=snp" "GT:DP:RO:AO" "0/1:10:5:5"
             ++ [CStr ".:.:.:."]);
     (1%Z, vcf_row 200 "A,T" "TYPE=snp,ins;DP=9" "GT:DP:RO:AO" "1/2:10:5:3,2"
             ++ [CStr "0/0:7:7:0"]);
     (2%Z, vcf_row 300 "C,CT,CTT" "TYPE=snp,ins,ins" "GT:DP:RO:AO" "1/2:10:1:3,2,4"
             ++ [CStr "0/0:7:7:0,0,0"])].

(** ** The batch annotator *)

(** The columns [add_ann_info_to_df] adds, in the order it adds them. *)
Definition ann_columns : list string :=
  ["variant_type"; "impact"; "gene_id"; "allele"].

(** A block of four cells, one per new column. *)
Definition cells4 (q : cell * cell * cell * cell) : list cell :=
  match q with (a, b, c, d) => [a; b; c; d] end.

(** The block of absent markers, and the block of an annotation. *)
Definition none4 : cell * cell * cell * cell := (CNone, CNone, CNone, CNone).

Definition ann4 (a : Ann) : cell * cell * cell * cell :=
  (CStr (type a), CStr (impact a), CStr (gene_id a), CStr (allele a)).

(** The block [q] with its [j]-th cell replaced by [v]. *)
Definition set4 (j : nat) (v : cell) (q : cell * cell * cell * cell)
  : cell * cell * cell * cell :=
  match q, j with
  | (a, b, c, d), 0 => (v, b, c, d)
  | (a, b, c, d), 1 => (a, v, c, d)
  | (a, b, c, d), 2 => (a, b, v, d)
  | (a, b, c, d), 3 => (a, b, c, v)
  | _, _ => q
  end.

(** The values of the four new columns for a row with annotation [a]:
    the explicit absent marker when there is none. *)
Definition ann_cells (a : option Ann) : list cell :=
  match a with
  | Some a => cells4 (ann4 a)
  | None => cells4 none4
  end.

(** The annotation of a row as it is iterated: that of the string its
    [info_column] holds. *)
Definition entry_annotation (info_column : string) (row : Series) : option Ann :=
  match series_get row info_column with
  | Ok (CStr s) => extract_first_ann s
  | _ => None
  end.

(** The same, for the cells of a row of [df]. *)
Definition row_annotation (df : DataFrame) (info_column : string)
    (cells : list cell) : option Ann :=
  entry_annotation info_column (mkSeries (columns df) cells).

(** Every row has one cell per column. *)
Definition rectangular (df : DataFrame) : bool :=
  forallb (fun r => List.length (snd r) =? List.length (columns df)) (rows df).

(** No label occurs twice. *)
Fixpoint distinct (labels : list Z) : bool :=
  match labels with
  | [] => true
  | l :: rest => negb (existsb (Z.eqb l) rest) && distinct rest
  end.

(** The tables the frame property is stated for: rectangular, with
    distinct row labels, without a column named like one of the four new
    ones, and with a string in the [info_column] of every row. *)
Definition annotable (df : DataFrame) (info_column : string) : bool :=
  rectangular df &&
  distinct (map fst (rows df)) &&
  forallb (fun name => negb (mem name (columns df))) ann_columns &&
  forallb (fun r => match series_get (mkSeries (columns df) (snd r)) info_column with
                    | Ok (CStr _) => true
                    | _ => false
                    end) (rows df).

(** The four-cell block each row label carries while the loop runs. *)
Definition set_label (q : Z -> cell * cell * cell * cell) (idx : Z)
    (v : cell * cell * cell * cell) : Z -> cell * cell * cell * cell :=
  fun l => if (l =? idx)%Z then v else q l.

(** One iteration of the loop, on the blocks. *)
Definition ann_step (info_column : string)
    (q : Z -> cell * cell * cell * cell) (it : Z * Series)
  : Z -> cell * cell * cell * cell :=
  match entry_annotation info_column (snd it) with
  | Some a => set_label q (fst it) (ann4 a)
  | None => q
  end.

(** The table with columns [cols] and the four new ones, where the row
    labelled [l] carries the block [q l]. *)
Definition annotated (cols : list string) (orig : list (Z * list cell))
    (q : Z -> cell * cell * cell * cell) : DataFrame :=
  mkDataFrame (cols ++ ann_columns)
    (map (fun r => (fst r, snd r ++ cells4 (q (fst r)))) orig).

(** A table that already has a column named [impact]. *)
Definition with_impact_column : DataFrame :=
  mkDataFrame ["INFO"; "impact"]
    [(0%Z, [CStr "DP=5;ANN=A|missense_variant|MODERATE|geneX"; CStr "curated"]);
     (1%Z, [CStr "DP=7"; CStr "curated"])].

(** A table whose two rows carry the same label. *)
Definition duplicate_labels : DataFrame :=
  mkDataFrame ["INFO"]
    [(0%Z, [CStr "DP=5;ANN=A|missense_variant|MODERATE|geneX"]);
     (0%Z, [CStr "DP=7"])].

(** Two annotated rows around a row without annotation. *)
Definition partly_annotated : DataFrame :=
  mkDataFrame ["POS"; "INFO"]
    [(0%Z, [CInt 100; CStr "DP=5;ANN=A|missense_variant|MODERATE|geneX|x"]);
     (1%Z, [CInt 200; CStr "DP=7"]);
     (2%Z, [CInt 300; CStr "ANN=T|stop_gained|HIGH|geneY,T|z|LOW|geneZ;DP=1"])].

(** ** Further notions: the expander *)

(** The number of types of a row,
    [len(row['INFO'].split('TYPE=')[1].split(';')[0].split(','))]
    ([0] when they cannot be read). *)
Definition type_count (row : Series) : nat :=
  match info_type_of row with
  | Ok info_type => List.length info_type
  | Raise _ => 0
  end.

(** A table without rows, and tables with and without a [FORMAT] column. *)
Definition no_rows : DataFrame := mkDataFrame (vcf_columns ++ ["S1"]) [].

Definition no_format_column : DataFrame :=
  mkDataFrame ["#CHROM"; "POS"; "REF"; "ALT"; "INFO"]
    [(0%Z, [CStr "CM000429"; CInt 100; CStr "G"; CStr "A"; CStr "TYPE=snp"])].

(** Records whose types are fewer, and more, than their alternates. *)
Definition misaligned_types : DataFrame :=
  mkDataFrame (vcf_columns ++ ["S1"])
    [(7%Z, vcf_row 100 "A,T,C" "TYPE=snp,ins" "RO:AO:DP" "5:3,2,1:11");
     (9%Z, vcf_row 200 "G" "TYPE=snp,del,mnp;DP=4" "RO:AO:DP" "5:3:8")].

(** The columns of an expanded table, for the given sample names. *)
Definition expanded_columns (sample_names : list string) : list string :=
  ["#CHROM"; "POS"; "REF"; "ALT"; "INFO_TYPE"] ++
  flat_map (fun s => [("RO_" ++ s)%string; ("DP_" ++ s)%string;
                      ("AO_" ++ s)%string])
           sample_names.

(** A table one of whose samples was not called in the second row. *)
Definition uncalled_sample : DataFrame :=
  mkDataFrame (vcf_columns ++ ["M4"; "C1"])
    [(0%Z, vcf_row 100 "A" "TYPE=snp" "GT:DP:RO:AO" "0/1:10:5:5"
             ++ [CStr "0/0:7:7:0"]);
     (1%Z, vcf_row 200 "T" "TYPE=snp" "GT:DP:RO:AO" "0/1:10:5:5"
             ++ [CStr "."])].

(** The pairs [zip(alt_alleles, info_type)] of a row (none when the
    alternates or the types cannot be read). *)
Definition allele_pairs (row : Series) : list (string * string) :=
  match alt_alleles_of row, info_type_of row with
  | Ok alt_alleles, Ok info_type => combine alt_alleles info_type
  | _, _ => []
  end.

(** The row [r] of the expanded table [out] is the row of the pair of
    index [i] of an input row: it carries the chromosome, position and
    reference of that row, the alternate and the type of the pair, and for
    every sample the counts read for the alternate of index [i]. *)
Definition expanded_from (df_vcf out : DataFrame) (r : Z * list cell) : Prop :=
  exists (format_value : string) (ro_index ao_index dp_index : nat)
         (l : Z) (row : Series) (i : nat) (alt inty : string)
         (chrom pos ref : cell),
    format_example_of df_vcf = Ok (CStr format_value) /\
    find_index format_value "RO" = Some ro_index /\
    find_index format_value "AO" = Some ao_index /\
    find_index format_value "DP" = Some dp_index /\
    In (l, row) (iterrows df_vcf) /\
    nth_error (allele_pairs row) i = Some (alt, inty) /\
    series_get row "#CHROM" = Ok chrom /\
    series_get row "POS" = Ok pos /\
    series_get row "REF" = Ok ref /\
    series_get (mkSeries (columns out) (snd r)) "#CHROM" = Ok chrom /\
    series_get (mkSeries (columns out) (snd r)) "POS" = Ok pos /\
    series_get (mkSeries (columns out) (snd r)) "REF" = Ok ref /\
    series_get (mkSeries (columns out) (snd r)) "ALT" = Ok (CStr alt) /\
    series_get (mkSeries (columns out) (snd r)) "INFO_TYPE" = Ok (CStr inty) /\
    forall sample : string,
      In sample (skipn 9 (columns df_vcf)) ->
      exists ro dp ao : Z,
        sample_counts_of ro_index ao_index dp_index i row sample ro dp ao /\
        series_get (mkSeries (columns out) (snd r)) ("RO_" ++ sample)
        = Ok (CInt ro) /\
        series_get (mkSeries (columns out) (snd r)) ("DP_" ++ sample)
        = Ok (CInt dp) /\
        series_get (mkSeries (columns out) (snd r)) ("AO_" ++ sample)
        = Ok (CInt ao).

(** ** Further notions: the loader *)

Definition newline : string := String (ascii_of_nat 10) EmptyString.

(** A file with two lines that start with ["#CHROM"]. *)
Definition two_headers : list string :=
  [("##fileformat=VCFv4.2" ++ newline)%string;
   ("#CHROM" ++ tab ++ "POS" ++ tab ++ "S1" ++ newline)%string;
   ("CM000429" ++ tab ++ "100" ++ tab ++ "0/1:5" ++ newline)%string;
   ("#CHROM" ++ tab ++ "OTHER" ++ newline)%string].

(** ** Further notions: the annotation extractor *)

(** A sub-field of an annotation: free of the three separators. *)
Definition plain (s : string) : bool :=
  negb (Py.contains "|" s) && negb (Py.contains "," s) &&
  negb (Py.contains ";" s).

(** The text of the first four sub-fields of an annotation entry. *)
Definition ann_text (a : Ann) : string :=
  (allele a ++ "|" ++ type a ++ "|" ++ impact a ++ "|" ++ gene_id a)%string.

(** What may follow the fourth sub-field: nothing, or a separator. *)
Definition ends_field (tail : string) : bool :=
  match tail with
  | EmptyString => true
  | String c _ => Ascii.eqb c "|" || Ascii.eqb c "," || Ascii.eqb c ";"
  end.

(** ** Further notions: the batch annotator *)

(** The cell holds a [str]. *)
Definition is_str (c : cell) : bool :=
  match c with CStr _ => true | _ => false end.

(** A table without rows, a table without attribute column, and a table
    with a missing value in its attribute column. *)
Definition no_variants : DataFrame := mkDataFrame ["POS"] [].

Definition no_info_column : DataFrame :=
  mkDataFrame ["POS"] [(0%Z, [CInt 100])].

Definition missing_info : DataFrame :=
  mkDataFrame ["POS"; "INFO"]
    [(0%Z, [CInt 100; CStr "ANN=A|missense_variant|MODERATE|geneX"]);
     (1%Z, [CInt 200; CFloat NaN])].

(** ** Further notions: the frequency calculator *)

(** The list [sample_names] of [compute_frequencies]. *)
Definition frequency_samples (df_counts : DataFrame) : list string :=
  map (fun col => Py.replace col "AO_" "")
      (filter (fun col => Py.startswith col "AO_") (columns df_counts)).

(** The four columns the frequency table starts with. *)
Definition site_columns : list string := ["#CHROM"; "POS"; "REF"; "ALT"].

(** A counts table with two samples; the second has no read in the
    second row. *)
Definition two_sample_counts : DataFrame :=
  mkDataFrame ["#CHROM"; "POS"; "REF"; "ALT"; "INFO_TYPE";
               "RO_M4"; "DP_M4"; "AO_M4"; "RO_C1"; "DP_C1"; "AO_C1"]
    [(0%Z, [CStr "CM000429"; CInt 100; CStr "G"; CStr "A"; CStr "snp";
            CInt 5; CInt 10; CInt 5; CInt 7; CInt 8; CInt 1]);
     (1%Z, [CStr "CM000429"; CInt 200; CStr "G"; CStr "T"; CStr "ins";
            CInt 5; CInt 10; CInt 3; CInt 0; CInt 0; CInt 0])].

(** A table whose rows carry the labels of [df], one cell per column. *)
Definition framed (df df_af : DataFrame) : Prop :=
  map fst (rows df_af) = map fst (rows df) /\
  forall r, In r (rows df_af) -> List.length (snd r) = List.length (columns df_af).





(** ** Further notions: the [TYPE=] key *)

(** The part of [s] before the first occurrence of [marker] (all of [s]
    when [marker] does not occur). *)
Definition up_to_str (marker s : string) : string :=
  match Py.find_from s marker with
  | Some j => Py.take j s
  | None => s
  end.

(** A record of a structural variant: its [INFO] has a key that ends in
    ["TYPE="] before the key ["TYPE="]. *)
Definition structural_variant : Series :=
  mkSeries (vcf_columns ++ ["S1"])
    (vcf_row 100 "A" "SVTYPE=DEL;TYPE=snp" "RO:AO:DP" "5:3:10").

(** The tables the batch annotator accepts, whatever their row labels:
    rectangular, without a column named like one of the four new ones, and
    with a string in the [info_column] of every row. *)
Definition annotable_rows (df : DataFrame) (info_column : string) : bool :=
  rectangular df &&
  forallb (fun name => negb (mem name (columns df))) ann_columns &&
  forallb (fun r => match series_get (mkSeries (columns df) (snd r)) info_column with
                    | Ok (CStr _) => true
                    | _ => false
                    end) (rows df).

(** The annotation the rows labelled [l] end with: that of the last row
    of [rs] labelled [l] that has one. *)
Fixpoint last_annotation (df : DataFrame) (info_column : string)
    (rs : list (Z * list cell)) (l : Z) : option Ann :=
  match rs with
  | [] => None
  | r :: rest =>
      match last_annotation df info_column rest l with
      | Some a => Some a
      | None =>
          if (fst r =? l)%Z then row_annotation df info_column (snd r) else None
      end
  end.

(** * Lemmas *)

(** ** Strings *)

Lemma startswith_drop (s p : string) :
  Py.startswith s p = true -> s = (p ++ Py.drop (String.length p) s)%string.
Proof.
  revert s; induction p as [|a p IH]; intros s H; simpl in *.
  - reflexivity.
  - destruct s as [|b s]; [discriminate|].
    apply andb_true_iff in H as [Hab Hp].
    apply Ascii.eqb_eq in Hab; subst b.
    simpl. f_equal. now apply IH.
Qed.

Lemma length_take (k : nat) (s : string) :
  k <= String.length s -> String.length (Py.take k s) = k.
Proof.
  revert s; induction k as [|k IH]; intros [|c s] H; simpl in *; try lia.
  rewrite IH; lia.
Qed.

(** [find_from] returns a position at which [sub] occurs. *)
Lemma find_from_Some (s sub : string) (k : nat) :
  Py.find_from s sub = Some k ->
  k <= String.length s /\
  s = (Py.take k s ++ sub ++ Py.drop (k + String.length sub) s)%string.
Proof.
  revert k; induction s as [|c s IH]; intros k H.
  - simpl in H. destruct (Py.startswith "" sub) eqn:E; [|discriminate].
    injection H as <-. split; [simpl; lia|].
    simpl. now apply startswith_drop in E.
  - cbn [Py.find_from] in H.
    destruct (Py.startswith (String c s) sub) eqn:E.
    + injection H as <-. split; [simpl; lia|].
      cbn [Py.take Nat.add append]. now apply startswith_drop.
    + destruct (Py.find_from s sub) as [j|] eqn:F; [|discriminate].
      injection H as <-. destruct (IH j eq_refl) as [Hj Hs].
      split; [simpl; lia|].
      cbn [Py.take Py.drop Nat.add append]. now f_equal.
Qed.

Lemma slice_from_nonneg (s : string) (k : nat) :
  Py.slice_from s (Z.of_nat k) = Py.drop k s.
Proof.
  unfold Py.slice_from.
  destruct (Z.ltb_spec (Z.of_nat k) 0); [lia|].
  now rewrite Nat2Z.id.
Qed.

Lemma split_go_nonempty (sep s : string) (skip : nat) :
  Py.split_go sep s skip <> [].
Proof.
  revert skip; induction s as [|c s IH]; intros skip; simpl; [discriminate|].
  destruct skip; [|apply IH].
  destruct (Py.startswith (String c s) sep); [discriminate|].
  destruct (Py.split_go sep s 0); discriminate.
Qed.

(** The first piece of a split on one character is the text before the
    first occurrence of that character. *)
Lemma split_char_first (c : ascii) (s : string) :
  nth 0 (Py.split s (String c EmptyString)) EmptyString = up_to c s.
Proof.
  unfold Py.split. induction s as [|a s IH]; simpl; [reflexivity|].
  destruct (Ascii.eqb c a); simpl; [reflexivity|].
  destruct (Py.split_go (String c "") s 0) eqn:E.
  - now apply split_go_nonempty in E.
  - simpl in *. now rewrite IH.
Qed.

Lemma contains_char_false (c : ascii) (s : string) :
  Py.contains (String c EmptyString) s = false -> up_to c s = s.
Proof.
  unfold Py.contains. induction s as [|a s IH]; simpl; [reflexivity|].
  destruct (Ascii.eqb c a); simpl; [discriminate|].
  destruct (Py.find_from s (String c "")); simpl; [discriminate|].
  intros _. now rewrite IH.
Qed.

(** Without an occurrence of the separator the split is the whole string. *)
Lemma split_without_sep (sep s : string) :
  Py.contains sep s = false -> Py.split s sep = [s].
Proof.
  unfold Py.contains, Py.split. induction s as [|c s IH]; [reflexivity|].
  cbn [Py.find_from Py.split_go].
  destruct (Py.startswith (String c s) sep); [discriminate|].
  destruct (Py.find_from s sep); simpl; [discriminate|].
  intros _. now rewrite IH.
Qed.

(** With an occurrence of the (non-empty) separator the split has a
    second piece. *)
Lemma split_with_sep (a : ascii) (p s : string) :
  Py.contains (String a p) s = true ->
  2 <= List.length (Py.split s (String a p)).
Proof.
  unfold Py.contains, Py.split. induction s as [|c s IH].
  - simpl. discriminate.
  - cbn [Py.find_from Py.split_go].
    destruct (Py.startswith (String c s) (String a p)).
    + intros _. cbn [List.length].
      match goal with
      | |- context [Py.split_go ?x ?y ?z] =>
          destruct (Py.split_go x y z) eqn:E;
          [now apply split_go_nonempty in E | simpl; lia]
      end.
    + destruct (Py.find_from s (String a p)); simpl; [|discriminate].
      intros _. specialize (IH eq_refl).
      destruct (Py.split_go (String a p) s 0); simpl in *; lia.
Qed.

(** ** The annotation extractor *)

Lemma ann_of_fields_nth (fields : list string) :
  (if 4 <=? List.length fields
   then Some {| allele := nth 0 fields EmptyString;
                type := nth 1 fields EmptyString;
                impact := nth 2 fields EmptyString;
                gene_id := nth 3 fields EmptyString |}
   else None) = ann_of_fields fields.
Proof.
  destruct fields as [|f0 [|f1 [|f2 [|f3 rest]]]]; reflexivity.
Qed.

(** With the marker present, the extractor is the record of the first
    entry's sub-fields. *)
Lemma extract_first_ann_entry (info : string) :
  Py.contains "ANN=" info = true ->
  extract_first_ann info = ann_of_fields (Py.split (first_entry info) "|").
Proof.
  intros H. unfold extract_first_ann. rewrite H. cbn [negb].
  unfold first_entry, after_first, Py.find.
  unfold Py.contains in H.
  destruct (Py.find_from info "ANN=") as [k|] eqn:F; [|discriminate].
  replace (Z.of_nat k + 4)%Z with (Z.of_nat (k + 4)) by lia.
  rewrite slice_from_nonneg.
  change (String.length "ANN=") with 4.
  set (content := Py.drop (k + 4) info).
  assert (E : (if Py.contains ";" content
               then nth 0 (Py.split content ";") EmptyString
               else content) = up_to ";" content).
  { destruct (Py.contains ";" content) eqn:C.
    - apply split_char_first.
    - symmetry. now apply contains_char_false. }
  rewrite E, split_char_first.
  apply ann_of_fields_nth.
Qed.

(** C5. [extract_first_ann] returns [None] for an attribute string without
    the marker ["ANN="]; with the marker, it looks at the first entry (the
    text after the first marker, up to the next semicolon and comma) split
    on the pipe: fewer than four sub-fields give [None], four or more give
    exactly the record of sub-fields 0 to 3, whatever follows them. *)
Theorem extract_first_ann_contract (info : string) :
  (Py.contains "ANN=" info = false -> extract_first_ann info = None) /\
  (Py.contains "ANN=" info = true ->
   let fields := Py.split (first_entry info) "|" in
   (List.length fields < 4 -> extract_first_ann info = None) /\
   (4 <= List.length fields ->
    extract_first_ann info =
      Some {| allele := nth 0 fields EmptyString;
              type := nth 1 fields EmptyString;
              impact := nth 2 fields EmptyString;
              gene_id := nth 3 fields EmptyString |})).
Proof.
  split.
  - intros H. unfold extract_first_ann. now rewrite H.
  - intros H fields. rewrite (extract_first_ann_entry info H).
    fold fields. rewrite <- ann_of_fields_nth.
    split; intros L.
    + destruct (Nat.leb_spec 4 (List.length fields)); [lia|reflexivity].
    + destruct (Nat.leb_spec 4 (List.length fields)); [reflexivity|lia].
Qed.

(** The contract at three attribute strings: no marker, a short entry, and
    a full entry followed by more sub-fields and more entries. *)
Lemma extract_first_ann_contract_witness :
  extract_first_ann "DP=50" = None /\
  extract_first_ann "DP=50;ANN=A|missense_variant|MODERATE" = None /\
  extract_first_ann "ANN=A|missense_variant|MODERATE|geneX|x|y,T|z|LOW|g2;DP=3"
  = Some (mkAnn "A" "missense_variant" "MODERATE" "geneX").
Proof.
  split; [|split].
  - apply (proj1 (extract_first_ann_contract "DP=50")). reflexivity.
  - apply (proj2 (extract_first_ann_contract
                    "DP=50;ANN=A|missense_variant|MODERATE") eq_refl).
    vm_compute. lia.
  - apply (proj2 (extract_first_ann_contract
       "ANN=A|missense_variant|MODERATE|geneX|x|y,T|z|LOW|g2;DP=3") eq_refl).
    vm_compute. lia.
Defined.

(** C10. The marker is found by substring search: whenever ["ANN="]
    occurs in the attribute string, wherever it does (also as the end of a
    longer key), the string splits at the first occurrence into [pre],
    the marker and [post], and the result is the record (or [None], for
    fewer than four sub-fields) read from [post]. *)
Theorem extract_first_ann_substring_search (info : string) :
  Py.contains "ANN=" info = true ->
  exists pre post : string,
    info = (pre ++ "ANN=" ++ post)%string /\
    Py.find_from info "ANN=" = Some (String.length pre) /\
    extract_first_ann info =
      ann_of_fields (Py.split (up_to "," (up_to ";" post)) "|").
Proof.
  intros H. rewrite (extract_first_ann_entry info H).
  unfold first_entry, after_first. unfold Py.contains in H.
  destruct (Py.find_from info "ANN=") as [k|] eqn:F; [|discriminate].
  destruct (find_from_Some info "ANN=" k F) as [Hk Hs].
  exists (Py.take k info), (Py.drop (k + 4) info).
  rewrite (length_take k info Hk).
  split; [exact Hs|]. split; reflexivity.
Qed.

(** The key ["MEANN"] is not the key ["ANN"], yet its value is read as the
    annotation. *)
Lemma extract_first_ann_substring_search_witness :
  Py.contains "ANN=" "DP=5;MEANN=T|stop|HIGH|g7|x;Q=1" = true /\
  (exists pre post : string,
     "DP=5;MEANN=T|stop|HIGH|g7|x;Q=1" = (pre ++ "ANN=" ++ post)%string /\
     Py.find_from "DP=5;MEANN=T|stop|HIGH|g7|x;Q=1" "ANN="
       = Some (String.length pre) /\
     extract_first_ann "DP=5;MEANN=T|stop|HIGH|g7|x;Q=1" =
       ann_of_fields (Py.split (up_to "," (up_to ";" post)) "|")).
Proof.
  split; [reflexivity|].
  apply (extract_first_ann_substring_search
           "DP=5;MEANN=T|stop|HIGH|g7|x;Q=1").
  reflexivity.
Defined.

(** ** The loader *)

Lemma find_header_none (lines : list string) :
  forallb (fun line => negb (Py.startswith line "#CHROM")) lines = true ->
  find_header lines = None.
Proof.
  induction lines as [|line rest IH]; [reflexivity|].
  cbn [forallb find_header]. intros H.
  apply andb_true_iff in H as [H1 H2].
  destruct (Py.startswith line "#CHROM"); [discriminate|]. now apply IH.
Qed.

(** C7, as the code has it.  On a file none of whose lines starts with
    ["#CHROM"], [read_vcf] fails before [pd.read_csv] is called, whatever
    that function would do, so no column identity is guessed; the
    exception is the [UnboundLocalError] of the unbound [header], which is
    not the data-format error. *)
Theorem read_vcf_without_header
    (read_csv : list string -> list string -> result DataFrame)
    (vcf_file : list string) :
  forallb (fun line => negb (Py.startswith line "#CHROM")) vcf_file = true ->
  read_vcf read_csv vcf_file = Raise UnboundLocalError.
Proof.
  intros H. unfold read_vcf. now rewrite (find_header_none _ H).
Qed.

Lemma read_vcf_without_header_witness :
  read_vcf (fun _ names => Ok (mkDataFrame names [])) headerless_file
  = Raise UnboundLocalError.
Proof.
  apply read_vcf_without_header. reflexivity.
Defined.

(** C7 as stated fails: on a file without header the call raises, but the
    exception is not a data-format error. *)
Lemma read_vcf_without_header_counterexample :
  forallb (fun line => negb (Py.startswith line "#CHROM")) headerless_file
  = true /\
  read_vcf (fun _ names => Ok (mkDataFrame names [])) headerless_file
  = Raise UnboundLocalError /\
  is_data_format_error UnboundLocalError = false.
Proof.
  split; [reflexivity|]. split; reflexivity.
Qed.

(** ** The expander: the format-descriptor *)

Lemma index_of_None (xs : list string) (x : string) :
  Py.index_of xs x = None <-> mem x xs = false.
Proof.
  unfold mem. induction xs as [|y ys IH]; simpl; [tauto|].
  rewrite (String.eqb_sym x y).
  destruct (String.eqb y x); simpl.
  - split; discriminate.
  - rewrite <- IH. destruct (Py.index_of ys x); simpl; split; congruence.
Qed.




(** ** The expander: where the field positions come from *)

Lemma index_of_Some (xs : list string) (x : string) (q : nat) :
  Py.index_of xs x = Some q -> nth_error xs q = Some x.
Proof.
  revert q; induction xs as [|y ys IH]; intros q; simpl; [discriminate|].
  destruct (String.eqb_spec y x) as [->|N].
  - now intros [= <-].
  - destruct (Py.index_of ys x) as [j|]; simpl; [|discriminate].
    intros [= <-]. now apply IH.
Qed.

Lemma nth_error_set_nth_other (p q : nat) (v : cell) (cs : list cell) :
  q <> p -> nth_error (set_nth p v cs) q = nth_error cs q.
Proof.
  revert p q; induction cs as [|c cs IH]; intros p q N; [now destruct p|].
  destruct p, q; simpl; try reflexivity; [lia|].
  apply IH. lia.
Qed.

Lemma series_get_set_nth (cols : list string) (cells : list cell)
    (name : string) (p : nat) (v : cell) :
  Py.index_of cols name = Some p ->
  agree_except name (mkSeries cols (set_nth p v cells)) (mkSeries cols cells).
Proof.
  intros P other N. unfold series_get. cbn [s_index s_values].
  destruct (Py.index_of cols other) as [q|] eqn:Q; [|reflexivity].
  rewrite nth_error_set_nth_other; [reflexivity|].
  intros ->. apply index_of_Some in P. apply index_of_Some in Q. congruence.
Qed.

Lemma sample_entries_agree (name : string) (row1 row2 : Series)
    (ro ao dp i : nat) (sample : string) (new_row : dict) :
  agree_except name row1 row2 -> sample <> name ->
  sample_entries ro ao dp i row1 sample new_row
  = sample_entries ro ao dp i row2 sample new_row.
Proof.
  intros A N. unfold sample_entries. now rewrite (A sample N).
Qed.

Lemma samples_loop_agree (name : string) (row1 row2 : Series)
    (ro ao dp i : nat) (sample_names : list string) (new_row : dict) :
  agree_except name row1 row2 -> mem name sample_names = false ->
  samples_loop ro ao dp i row1 sample_names new_row
  = samples_loop ro ao dp i row2 sample_names new_row.
Proof.
  intros A. revert new_row.
  induction sample_names as [|sample rest IH]; intros new_row M; [reflexivity|].
  unfold mem in M. cbn [existsb] in M. apply orb_false_iff in M as [M1 M2].
  cbn [samples_loop].
  rewrite (sample_entries_agree name row1 row2); [|exact A|].
  - destruct (sample_entries ro ao dp i row2 sample new_row); [|reflexivity].
    cbn [bind]. now apply IH.
  - intros ->. now rewrite String.eqb_refl in M1.
Qed.







(** ** The expander: the [TYPE=] key *)

Lemma info_type_of_without_type (row : Series) (s : string) :
  series_get row "INFO" = Ok (CStr s) ->
  Py.contains "TYPE=" s = false ->
  info_type_of row = Raise IndexError.
Proof.
  intros I C. unfold info_type_of. rewrite I. cbn [bind as_str].
  now rewrite (split_without_sep _ _ C).
Qed.

Lemma split_type_in_bounds (s : string) :
  Py.contains "TYPE=" s = true ->
  exists after : string, list_item (Py.split s "TYPE=") 1 = Ok after.
Proof.
  intros C. apply split_with_sep in C. unfold list_item.
  destruct (Py.split s "TYPE=") as [|x [|y l]]; simpl in C; try lia.
  now exists y.
Qed.

Lemma expand_row_without_type (ro ao dp : nat) (sample_names : list string)
    (row : Series) (s : string) :
  series_get row "INFO" = Ok (CStr s) ->
  Py.contains "TYPE=" s = false ->
  is_ok (expand_row ro ao dp sample_names row) = false /\
  (is_ok (alt_alleles_of row) = true ->
   expand_row ro ao dp sample_names row = Raise IndexError).
Proof.
  intros I C. unfold expand_row.
  rewrite (info_type_of_without_type row s I C).
  destruct (alt_alleles_of row); cbn [bind is_ok]; split; try reflexivity.
  discriminate.
Qed.

Lemma rows_loop_app_raise (ro ao dp : nat) (sample_names : list string)
    (pre post : list (Z * Series)) (l : Z) (row : Series) (e : exn) :
  is_ok (rows_loop ro ao dp sample_names pre) = true ->
  expand_row ro ao dp sample_names row = Raise e ->
  rows_loop ro ao dp sample_names (pre ++ (l, row) :: post) = Raise e.
Proof.
  intros P E. induction pre as [|[l' row'] pre IH]; cbn [app rows_loop].
  - now rewrite E.
  - cbn [rows_loop] in P.
    destruct (expand_row ro ao dp sample_names row'); [|discriminate].
    cbn [bind] in *.
    destruct (rows_loop ro ao dp sample_names pre); [|discriminate].
    now rewrite IH.
Qed.

Lemma rows_loop_ok_all (ro ao dp : nat) (sample_names : list string)
    (its : list (Z * Series)) (l : Z) (row : Series) :
  In (l, row) its ->
  is_ok (expand_row ro ao dp sample_names row) = false ->
  is_ok (rows_loop ro ao dp sample_names its) = false.
Proof.
  intros I E. induction its as [|[l' row'] its IH]; [destruct I|].
  cbn [rows_loop]. destruct I as [[= -> ->]|I].
  - destruct (expand_row ro ao dp sample_names row); [discriminate|reflexivity].
  - destruct (expand_row ro ao dp sample_names row'); [|reflexivity].
    cbn [bind]. specialize (IH I).
    destruct (rows_loop ro ao dp sample_names its); [discriminate|reflexivity].
Qed.

(** C9, as the code has it.  The index [1] on [split('TYPE=')] is in
    bounds exactly under the presupposition that [INFO] contains
    ["TYPE="].  A table with a row whose [INFO] lacks it never yields an
    expanded table; the exception is the [IndexError] of that row when the
    format check, the rows before it and its own [ALT] raise nothing
    first. *)
Theorem expand_requires_type_key :
  (forall s : string,
     Py.contains "TYPE=" s = true ->
     exists after : string, list_item (Py.split s "TYPE=") 1 = Ok after) /\
  (forall (df_vcf : DataFrame) (l : Z) (row : Series) (s : string),
     In (l, row) (iterrows df_vcf) ->
     series_get row "INFO" = Ok (CStr s) ->
     Py.contains "TYPE=" s = false ->
     is_ok (expand_multiallelic_variants df_vcf) = false) /\
  (forall (df_vcf : DataFrame) (pre post : list (Z * Series)) (l : Z)
          (row : Series) (s format_value : string) (ro ao dp : nat),
     iterrows df_vcf = pre ++ (l, row) :: post ->
     series_get row "INFO" = Ok (CStr s) ->
     Py.contains "TYPE=" s = false ->
     format_example_of df_vcf = Ok (CStr format_value) ->
     find_index format_value "RO" = Some ro ->
     find_index format_value "AO" = Some ao ->
     find_index format_value "DP" = Some dp ->
     is_ok (rows_loop ro ao dp (skipn 9 (columns df_vcf)) pre) = true ->
     is_ok (alt_alleles_of row) = true ->
     expand_multiallelic_variants df_vcf = Raise IndexError).
Proof.
  split; [exact split_type_in_bounds|]. split.
  - intros df l row s I G C.
    unfold expand_multiallelic_variants, expanded_rows.
    destruct (format_example_of df) as [c|]; [|reflexivity].
    cbn [bind]. destruct (as_str c) as [fmt|]; [|reflexivity]. cbn [bind].
    destruct (find_index fmt "RO") as [ro|]; [|reflexivity].
    destruct (find_index fmt "AO") as [ao|]; [|reflexivity].
    destruct (find_index fmt "DP") as [dp|]; [|reflexivity].
    pose proof (rows_loop_ok_all ro ao dp (skipn 9 (columns df)) _ l row I
                  (proj1 (expand_row_without_type ro ao dp _ row s G C))) as R.
    destruct (rows_loop ro ao dp (skipn 9 (columns df)) (iterrows df));
      [discriminate|reflexivity].
  - intros df pre post l row s fmt ro ao dp I G C F RO AO DP P A.
    unfold expand_multiallelic_variants, expanded_rows.
    rewrite F. cbn [bind as_str]. rewrite RO, AO, DP, I.
    rewrite (rows_loop_app_raise ro ao dp _ pre post l row IndexError P);
      [reflexivity|].
    now apply (proj2 (expand_row_without_type ro ao dp _ row s G C)).
Qed.

(** The three parts at concrete inputs: an attribute bag with the key,
    and the table whose second row lacks it. *)
Lemma expand_requires_type_key_witness :
  (exists after : string,
     list_item (Py.split "DP=10;TYPE=snp,ins" "TYPE=") 1 = Ok after) /\
  is_ok (expand_multiallelic_variants untyped_second_row) = false /\
  expand_multiallelic_variants untyped_second_row = Raise IndexError.
Proof.
  destruct expand_requires_type_key as [A [B C]].
  split; [|split].
  - apply A. reflexivity.
  - apply (B untyped_second_row 1%Z
             (mkSeries (vcf_columns ++ ["S1"])
                (vcf_row 200 "C" "DP=10" "RO:AO:DP" "5:3:10")) "DP=10").
    + right. left. reflexivity.
    + reflexivity.
    + reflexivity.
  - apply (C untyped_second_row
             [(0%Z, mkSeries (vcf_columns ++ ["S1"])
                (vcf_row 100 "A,T" "DP=10;TYPE=snp,ins" "RO:AO:DP" "5:3,2:10"))]
             [] 1%Z
             (mkSeries (vcf_columns ++ ["S1"])
                (vcf_row 200 "C" "DP=10" "RO:AO:DP" "5:3:10"))
             "DP=10" "RO:AO:DP" 0 1 2); reflexivity.
Defined.

(** C9 as stated fails: a row without ["TYPE="] in a table whose
    descriptor lacks [DP] makes the call raise the [ValueError] of the
    format check, not an [IndexError]. *)
Lemma expand_requires_type_key_counterexample :
  (r <- list_item (iterrows untyped_without_dp) 0;;
   c <- series_get (snd r) "INFO";;
   s <- as_str c;;
   Ok (Py.contains "TYPE=" s)) = Ok false /\
  expand_multiallelic_variants untyped_without_dp = Raise ValueError.
Proof.
  split; reflexivity.
Qed.

(** ** The expander: the counts *)

Lemma dict_get_set_same (d : dict) (k : string) (v : cell) :
  dict_get (dict_set d k v) k = Some v.
Proof.
  induction d as [|[k' v'] d IH]; simpl.
  - now rewrite String.eqb_refl.
  - destruct (String.eqb k' k) eqn:E; simpl; rewrite E; [reflexivity|exact IH].
Qed.

Lemma dict_get_set_other (d : dict) (k k' : string) (v : cell) :
  k' <> k -> dict_get (dict_set d k' v) k = dict_get d k.
Proof.
  intros N. induction d as [|[k0 v0] d IH]; simpl.
  - destruct (String.eqb_spec k' k); [contradiction|reflexivity].
  - destruct (String.eqb_spec k0 k') as [->|N0]; simpl.
    + destruct (String.eqb_spec k' k); [contradiction|reflexivity].
    + now rewrite IH.
Qed.

(** What one pass of the sample loop does to the row. *)
Lemma sample_entries_inv (ro_index ao_index dp_index i : nat) (row : Series)
    (sample : string) (d d' : dict) :
  sample_entries ro_index ao_index dp_index i row sample d = Ok d' ->
  exists ro dp ao : Z,
    sample_counts_of ro_index ao_index dp_index i row sample ro dp ao /\
    d' = dict_set
           (dict_set (dict_set d ("RO_" ++ sample) (CInt ro))
                     ("DP_" ++ sample) (CInt dp))
           ("AO_" ++ sample) (CInt ao).
Proof.
  unfold sample_entries, list_item.
  destruct (series_get row sample) as [[v| | |]|] eqn:G; try discriminate.
  cbn [bind as_str].
  destruct (nth_error (Py.split v ":") ro_index) as [rt|] eqn:R; [|discriminate].
  cbn [bind].
  destruct (count_of rt) as [zr|] eqn:CR; [|discriminate]. cbn [bind].
  destruct (nth_error (Py.split v ":") dp_index) as [dt|] eqn:D; [|discriminate].
  cbn [bind].
  destruct (count_of dt) as [zd|] eqn:CD; [|discriminate]. cbn [bind].
  destruct (nth_error (Py.split v ":") ao_index) as [at_|] eqn:A; [|discriminate].
  cbn [bind].
  destruct (ao_count_of (Py.split at_ ",") i) as [za|] eqn:CA; [|discriminate].
  cbn [bind]. intros [= <-].
  exists zr, zd, za. split; [|reflexivity].
  exists v, rt, dt, at_. repeat split; assumption.
Qed.

(** The entries of two samples live under different keys. *)
Lemma sample_keys_apart (s s' : string) :
  s' <> s ->
  ("RO_" ++ s')%string <> ("RO_" ++ s)%string /\
  ("DP_" ++ s')%string <> ("DP_" ++ s)%string /\
  ("AO_" ++ s')%string <> ("AO_" ++ s)%string.
Proof.
  intros N. repeat split; intros E; injection E as E; contradiction.
Qed.

Lemma sample_entries_counts (ro_index ao_index dp_index i : nat) (row : Series)
    (sample : string) (d d' : dict) :
  sample_entries ro_index ao_index dp_index i row sample d = Ok d' ->
  record_counts ro_index ao_index dp_index i row d' sample /\
  (forall s, record_counts ro_index ao_index dp_index i row d s ->
             record_counts ro_index ao_index dp_index i row d' s).
Proof.
  intros E. apply sample_entries_inv in E as [ro [dp [ao [C ->]]]].
  assert (SAME : record_counts ro_index ao_index dp_index i row
                   (dict_set
                      (dict_set (dict_set d ("RO_" ++ sample) (CInt ro))
                                ("DP_" ++ sample) (CInt dp))
                      ("AO_" ++ sample) (CInt ao)) sample).
  { exists ro, dp, ao. split; [exact C|]. split; [|split].
    - rewrite !dict_get_set_other by discriminate. apply dict_get_set_same.
    - rewrite dict_get_set_other by discriminate. apply dict_get_set_same.
    - apply dict_get_set_same. }
  split; [exact SAME|].
  intros s K. destruct (string_dec sample s) as [<-|N]; [exact SAME|].
  destruct K as [ro' [dp' [ao' [C' [Gr [Gd Ga]]]]]].
  destruct (sample_keys_apart s sample N) as [Nr [Nd Na]].
  exists ro', dp', ao'. split; [exact C'|]. split; [|split].
  - now rewrite !dict_get_set_other by (discriminate || exact Nr).
  - now rewrite !dict_get_set_other by (discriminate || exact Nd).
  - now rewrite !dict_get_set_other by (discriminate || exact Na).
Qed.

Lemma samples_loop_counts (ro_index ao_index dp_index i : nat) (row : Series)
    (sample_names : list string) (d d' : dict) :
  samples_loop ro_index ao_index dp_index i row sample_names d = Ok d' ->
  (forall s, record_counts ro_index ao_index dp_index i row d s ->
             record_counts ro_index ao_index dp_index i row d' s) /\
  (forall sample, In sample sample_names ->
                  record_counts ro_index ao_index dp_index i row d' sample).
Proof.
  revert d; induction sample_names as [|s rest IH]; intros d; cbn [samples_loop].
  - intros [= <-]. split; [auto|intros ? []].
  - destruct (sample_entries ro_index ao_index dp_index i row s d) as [d1|] eqn:E;
      [|discriminate].
    cbn [bind]. intros L.
    destruct (sample_entries_counts _ _ _ _ _ _ _ _ E) as [S K].
    destruct (IH d1 L) as [K1 S1].
    split; [auto|].
    intros sample [<-|I]; [now apply K1|now apply S1].
Qed.

Lemma alleles_loop_counts (ro_index ao_index dp_index : nat) (row : Series)
    (sample_names : list string) (i : nat) (pairs : list (string * string))
    (records : list dict) :
  alleles_loop ro_index ao_index dp_index row sample_names i pairs = Ok records ->
  forall d, In d records ->
    exists j : nat,
      forall sample, In sample sample_names ->
                     record_counts ro_index ao_index dp_index j row d sample.
Proof.
  revert i records; induction pairs as [|[alt inty] rest IH]; intros i records;
    cbn [alleles_loop].
  - intros [= <-] ? [].
  - destruct (allele_row ro_index ao_index dp_index row sample_names i alt inty)
      as [d0|] eqn:E; [|discriminate]. cbn [bind].
    destruct (alleles_loop ro_index ao_index dp_index row sample_names (S i) rest)
      as [more|] eqn:M; [|discriminate].
    cbn [bind]. intros [= <-] d [<-|I].
    + exists i. unfold allele_row in E.
      destruct (series_get row "#CHROM"); [|discriminate].
      destruct (series_get row "POS"); [|discriminate].
      destruct (series_get row "REF"); [|discriminate].
      cbn [bind] in E. exact (proj2 (samples_loop_counts _ _ _ _ _ _ _ _ E)).
    + now apply (IH _ _ M).
Qed.

Lemma rows_loop_counts (ro_index ao_index dp_index : nat)
    (sample_names : list string) (its : list (Z * Series))
    (records : list dict) :
  rows_loop ro_index ao_index dp_index sample_names its = Ok records ->
  forall d, In d records ->
    exists (l : Z) (row : Series) (i : nat),
      In (l, row) its /\
      forall sample, In sample sample_names ->
                     record_counts ro_index ao_index dp_index i row d sample.
Proof.
  revert records; induction its as [|[l row] its IH]; intros records;
    cbn [rows_loop].
  - intros [= <-] ? [].
  - destruct (expand_row ro_index ao_index dp_index sample_names row)
      as [new_rows|] eqn:E; [|discriminate]. cbn [bind].
    destruct (rows_loop ro_index ao_index dp_index sample_names its)
      as [more|] eqn:M; [|discriminate].
    cbn [bind]. intros [= <-] d I.
    apply in_app_or in I as [I|I].
    + unfold expand_row in E.
      destruct (alt_alleles_of row); [|discriminate].
      destruct (info_type_of row); [|discriminate].
      cbn [bind] in E.
      destruct (alleles_loop_counts _ _ _ _ _ _ _ _ E d I) as [i K].
      exists l, row, i. split; [now left|exact K].
    + destruct (IH _ eq_refl d I) as [l' [row' [i [I' K]]]].
      exists l', row', i. split; [now right|exact K].
Qed.

(** ** The table built from the expanded rows *)

Lemma add_key_acc (ks acc : list string) (k : string) :
  In k acc ->
  In k (fold_left (fun acc k => if mem k acc then acc else acc ++ [k]) ks acc).
Proof.
  revert acc; induction ks as [|k0 ks IH]; intros acc I; [exact I|].
  cbn [fold_left]. apply IH.
  destruct (mem k0 acc); [exact I|]. apply in_or_app. now left.
Qed.

Lemma mem_In (k : string) (ks : list string) : mem k ks = true <-> In k ks.
Proof.
  unfold mem. rewrite existsb_exists. split.
  - intros [x [I E]]. apply String.eqb_eq in E. now subst.
  - intros I. exists k. split; [exact I|apply String.eqb_refl].
Qed.

Lemma add_key_ks (ks acc : list string) (k : string) :
  In k ks ->
  In k (fold_left (fun acc k => if mem k acc then acc else acc ++ [k]) ks acc).
Proof.
  revert acc; induction ks as [|k0 ks IH]; intros acc I; [destruct I|].
  cbn [fold_left]. destruct I as [->|I]; [|now apply IH].
  apply add_key_acc.
  destruct (mem k acc) eqn:M; [now apply mem_In|].
  apply in_or_app. right. now left.
Qed.

Lemma union_keys_seen (records : list dict) (seen : list string) (k : string) :
  In k seen -> In k (union_keys seen records).
Proof.
  revert seen; induction records as [|d ds IH]; intros seen I; [exact I|].
  cbn [union_keys]. apply IH. now apply add_key_acc.
Qed.

Lemma union_keys_record (records : list dict) (seen : list string)
    (d : dict) (k : string) :
  In d records -> In k (keys d) -> In k (union_keys seen records).
Proof.
  revert seen; induction records as [|d0 ds IH]; intros seen I K; [destruct I|].
  cbn [union_keys]. destruct I as [->|I]; [|now apply IH].
  apply union_keys_seen. now apply add_key_ks.
Qed.

Lemma dict_get_keys (d : dict) (k : string) (c : cell) :
  dict_get d k = Some c -> In k (keys d).
Proof.
  induction d as [|[k' v] d IH]; simpl; [discriminate|].
  destruct (String.eqb_spec k' k); [now left|]. intros H. right. now apply IH.
Qed.

Lemma index_of_In (xs : list string) (x : string) :
  In x xs -> exists p : nat, Py.index_of xs x = Some p.
Proof.
  intros I. destruct (Py.index_of xs x) as [p|] eqn:E; [now exists p|].
  apply index_of_None in E. apply mem_In in I. congruence.
Qed.

Lemma number_from_In (i : Z) (l : list (list cell)) (r : Z * list cell) :
  In r (number_from i l) -> In (snd r) l.
Proof.
  revert i; induction l as [|x l IH]; intros i; cbn [number_from]; [easy|].
  intros [<-|I]; [now left|]. right. now apply (IH (i + 1)%Z).
Qed.

Lemma length_number_from (i : Z) (l : list (list cell)) :
  List.length (number_from i l) = List.length l.
Proof.
  revert i; induction l as [|x l IH]; intros i; simpl; [reflexivity|].
  now rewrite IH.
Qed.

Lemma length_from_records (records : list dict) :
  List.length (rows (from_records records)) = List.length records.
Proof.
  unfold from_records. cbn [rows]. now rewrite length_number_from, length_map.
Qed.

(** A row of the table holds, under every label of its record, the
    record's value. *)
Lemma from_records_row (records : list dict) (r : Z * list cell) :
  In r (rows (from_records records)) ->
  exists d : dict,
    In d records /\
    forall k c,
      dict_get d k = Some c ->
      series_get (mkSeries (columns (from_records records)) (snd r)) k = Ok c.
Proof.
  unfold from_records. cbn [rows columns]. intros I.
  apply number_from_In in I. apply in_map_iff in I as [d [E I]].
  exists d. split; [exact I|]. intros k c G.
  unfold series_get. cbn [s_index s_values].
  destruct (index_of_In (union_keys [] records) k) as [p P].
  { apply (union_keys_record records [] d k I). now apply dict_get_keys in G. }
  rewrite P, <- E. apply index_of_Some in P.
  erewrite map_nth_error by exact P. now rewrite G.
Qed.

(** ** Integers read from text *)

Lemma int_digits_nonneg (s : string) (acc : Z) (n : nat) (v : Z) (m : nat) :
  (0 <= acc)%Z -> Py.int_digits s acc n = Some (v, m) -> (0 <= v)%Z.
Proof.
  revert acc n; induction s as [|c s IH]; intros acc n A; cbn [Py.int_digits].
  - intros [= <- <-]. exact A.
  - destruct (Py.digit_of c) as [d|] eqn:D.
    + apply IH. unfold Py.digit_of in D.
      destruct (_ && _); [|discriminate]. injection D as <-. lia.
    + destruct (Ascii.eqb c "_"); [|discriminate].
      destruct s as [|c' s']; [discriminate|].
      destruct (Py.isdigit c'); [|discriminate]. now apply IH.
Qed.

Lemma int_unsigned_nonneg (s : string) (v : Z) :
  Py.int_unsigned s = Some v -> (0 <= v)%Z.
Proof.
  unfold Py.int_unsigned. destruct s as [|c s]; [discriminate|].
  destruct (Py.isdigit c); [|discriminate].
  destruct (Py.int_digits (String c s) 0 0) as [[v' n]|] eqn:E; [|discriminate].
  destruct (n <=? Py.int_max_str_digits); [|discriminate].
  intros [= <-]. apply (int_digits_nonneg (String c s) 0%Z 0 v' n); [lia|exact E].
Qed.

(** [int] gives a negative value only to text written with a minus sign. *)
Lemma int_negative (tok : string) (z : Z) :
  Py.int tok = Ok z -> (z < 0)%Z -> Py.startswith (Py.strip tok) "-" = true.
Proof.
  unfold Py.int. destruct (Py.strip tok) as [|c rest]; [discriminate|].
  cbn [Py.startswith]. rewrite (Ascii.eqb_sym "-" c).
  destruct (Ascii.eqb c "-"); [reflexivity|].
  intros H Z. exfalso.
  destruct (Ascii.eqb c "+").
  - destruct (Py.int_unsigned rest) as [v|] eqn:E; [|discriminate].
    injection H as <-. apply int_unsigned_nonneg in E. lia.
  - destruct (Py.int_unsigned (String c rest)) as [v|] eqn:E; [|discriminate].
    injection H as <-. apply int_unsigned_nonneg in E. lia.
Qed.

Lemma count_of_negative (tok : string) (z : Z) :
  count_of tok = Ok z -> (z < 0)%Z -> Py.startswith (Py.strip tok) "-" = true.
Proof.
  unfold count_of. destruct (String.eqb tok ".").
  - intros [= <-]. lia.
  - apply int_negative.
Qed.

Lemma ao_count_of_negative (ao_values : list string) (i : nat) (z : Z) :
  ao_count_of ao_values i = Ok z -> (z < 0)%Z ->
  exists tok : string,
    nth_error ao_values i = Some tok /\ Py.startswith (Py.strip tok) "-" = true.
Proof.
  unfold ao_count_of. destruct (nth_error ao_values i) as [tok|].
  - intros C N. exists tok. split; [reflexivity|].
    now apply (count_of_negative tok z).
  - intros [= <-]. lia.
Qed.

(** C4, as the code has it.  Every row of the expanded table comes from
    an input row and an alternate index, and holds for every sample three
    integers: what [count_of] makes of the reference-count and depth
    sub-fields and [ao_count_of] of the alternate-count sub-field.  The
    missing token ["."] gives [0]; an alternate-count index past the end
    of the comma-split list gives [0] and raises nothing; otherwise the
    count is the value of [int], which is negative only for a sub-field
    written with a minus sign. *)
Theorem expanded_counts_normalised :
  count_of "." = Ok 0%Z /\
  (forall (ao_values : list string) (i : nat),
     List.length ao_values <= i -> ao_count_of ao_values i = Ok 0%Z) /\
  (forall (ao_values : list string) (i : nat),
     nth_error ao_values i = Some "." -> ao_count_of ao_values i = Ok 0%Z) /\
  (forall (tok : string) (z : Z),
     count_of tok = Ok z -> (z < 0)%Z ->
     Py.startswith (Py.strip tok) "-" = true) /\
  (forall (ao_values : list string) (i : nat) (z : Z),
     ao_count_of ao_values i = Ok z -> (z < 0)%Z ->
     exists tok : string,
       nth_error ao_values i = Some tok /\
       Py.startswith (Py.strip tok) "-" = true) /\
  (forall (df_vcf out : DataFrame) (r : Z * list cell),
     expand_multiallelic_variants df_vcf = Ok out ->
     In r (rows out) ->
     table_counts df_vcf out r).
Proof.
  split; [reflexivity|]. split; [|split; [|split; [|split]]].
  - intros vals i L. unfold ao_count_of.
    now rewrite (proj2 (nth_error_None vals i) L).
  - intros vals i H. unfold ao_count_of. now rewrite H.
  - exact count_of_negative.
  - exact ao_count_of_negative.
  - intros df out r E I.
    unfold expand_multiallelic_variants in E.
    destruct (expanded_rows df) as [records|] eqn:R; [|discriminate].
    cbn [bind] in E. injection E as <-.
    destruct (from_records_row records r I) as [d [D G]].
    unfold expanded_rows in R.
    destruct (format_example_of df) as [[fmt| | |]|] eqn:F; try discriminate.
    cbn [bind as_str] in R.
    destruct (find_index fmt "RO") as [ro_index|] eqn:RO; [|discriminate].
    destruct (find_index fmt "AO") as [ao_index|] eqn:AO; [|discriminate].
    destruct (find_index fmt "DP") as [dp_index|] eqn:DP; [|discriminate].
    destruct (rows_loop_counts _ _ _ _ _ _ R d D) as [l [row [i [Irow K]]]].
    exists fmt, ro_index, ao_index, dp_index, l, row, i.
    repeat (split; [assumption || reflexivity|]).
    intros sample S.
    destruct (K sample S) as [ro [dp [ao [C [Gr [Gd Ga]]]]]].
    exists ro, dp, ao. repeat split; auto.
Qed.

(** The parts at concrete inputs: a table with missing tokens and an
    alternate-count list shorter than the list of alternates. *)
Lemma expanded_counts_normalised_witness :
  ao_count_of ["3"] 1 = Ok 0%Z /\
  ao_count_of ["3"; "."] 1 = Ok 0%Z /\
  Py.startswith (Py.strip " -5") "-" = true /\
  (exists tok : string,
     nth_error ["3"; "-2"] 1 = Some tok /\
     Py.startswith (Py.strip tok) "-" = true) /\
  (forall out : DataFrame,
     expand_multiallelic_variants missing_counts = Ok out ->
     table_counts missing_counts out
       (1%Z, [CStr "CM000429"; CInt 100; CStr "G"; CStr "T"; CStr "ins";
              CInt 0; CInt 0; CInt 0; CInt 7; CInt 9; CInt 0])).
Proof.
  destruct expanded_counts_normalised as [_ [A [B [C [D E]]]]].
  split; [|split; [|split; [|split]]].
  - apply A. simpl. lia.
  - apply B. reflexivity.
  - apply (C " -5" (-5)%Z); [reflexivity|lia].
  - apply (D ["3"; "-2"] 1 (-2)%Z); [reflexivity|lia].
  - intros out H. apply (E missing_counts out _ H).
    vm_compute in H. injection H as <-. right. left. reflexivity.
Defined.

(** C4 as stated fails: a reference count written ["-5"] is stored as the
    negative integer [-5]. *)
Lemma expanded_counts_counterexample :
  (df <- expand_multiallelic_variants negative_count;; get_column df "RO_S1")
  = Ok [CInt (-5)].
Proof. reflexivity. Qed.

(** ** The frequency calculator *)



(** The example of the specification: frequencies [3/10] and [2/10]; a
    missing depth gives a non-finite frequency. *)
Example compute_frequencies_example :
  (df <- expand_multiallelic_variants
           (mkDataFrame (vcf_columns ++ ["S1"; "S2"])
              [(0%Z, vcf_row 100 "A,T" "TYPE=snp,ins" "RO:AO:DP" "5:3,2:10"
                       ++ [CStr "4:1,0:."])]);;
   compute_frequencies df)
  = Ok (mkDataFrame ["#CHROM"; "POS"; "REF"; "ALT"; "AF_S1"; "AF_S2"]
          [(0%Z, [CStr "CM000429"; CInt 100; CStr "G"; CStr "A";
                  CFloat (Finite (Qmake 3 10)); CFloat (Inf false)]);
           (1%Z, [CStr "CM000429"; CInt 100; CStr "G"; CStr "T";
                  CFloat (Finite (Qmake 2 10)); CFloat NaN])]).
Proof. reflexivity. Qed.

(** C3 fails on the code for a sample whose name contains ["AO_"]: the
    sample name is recovered with [replace], which deletes every
    occurrence of ["AO_"] and not only the prefix, so the column looked up
    next does not exist and the call raises [KeyError]. *)
Theorem compute_frequencies_sample_name :
  Py.replace "AO_CAO_1" "AO_" "" = "C1" /\
  (df <- expand_multiallelic_variants sample_named_CAO_1;; Ok (columns df))
  = Ok ["#CHROM"; "POS"; "REF"; "ALT"; "INFO_TYPE";
        "RO_CAO_1"; "DP_CAO_1"; "AO_CAO_1"] /\
  (df <- expand_multiallelic_variants sample_named_CAO_1;;
   compute_frequencies df) = Raise KeyError.
Proof. repeat split; reflexivity. Qed.

(** ** The expander: row-count conservation *)








(** Row-count conservation needs the alignment of the data model: with
    fewer types than alternates the loop over [zip] stops at the shorter
    list. *)
Example expand_zip_shortest :
  (df <- expand_multiallelic_variants
           (mkDataFrame (vcf_columns ++ ["S1"])
              [(0%Z, vcf_row 100 "A,T" "TYPE=snp" "RO:AO:DP" "5:3,2:10")]);;
   Ok (List.length (rows df))) = Ok 1.
Proof. reflexivity. Qed.

(** ** The batch annotator *)

Lemma map_combine_repeat {A B C : Type} (g : A -> B -> C) (l : list A) (v : B) :
  map (fun rv => g (fst rv) (snd rv)) (combine l (repeat v (List.length l)))
  = map (fun r => g r v) l.
Proof.
  induction l as [|x l IH]; simpl; [reflexivity|]. now rewrite IH.
Qed.

(** Assigning a scalar to a label the table does not have appends a
    column. *)
Lemma set_column_const_new (df : DataFrame) (name : string) (v : cell) :
  Py.index_of (columns df) name = None ->
  set_column_const df name v
  = mkDataFrame (columns df ++ [name])
      (map (fun r => (fst r, snd r ++ [v])) (rows df)).
Proof.
  intros N. unfold set_column_const, set_column. rewrite N. f_equal.
  apply (map_combine_repeat (fun r v => (fst r, snd r ++ [v]))).
Qed.

Lemma index_of_app_l (xs ys : list string) (x : string) (p : nat) :
  Py.index_of xs x = Some p -> Py.index_of (xs ++ ys) x = Some p.
Proof.
  revert p; induction xs as [|y xs IH]; intros p; simpl; [discriminate|].
  destruct (String.eqb y x); [auto|].
  destruct (Py.index_of xs x) as [j|]; simpl; [|discriminate].
  intros [= <-]. now rewrite (IH j eq_refl).
Qed.

Lemma index_of_app_r (xs ys : list string) (x : string) :
  Py.index_of xs x = None ->
  Py.index_of (xs ++ ys) x
  = option_map (Nat.add (List.length xs)) (Py.index_of ys x).
Proof.
  induction xs as [|y xs IH]; simpl.
  - intros _. now destruct (Py.index_of ys x).
  - destruct (String.eqb y x); [discriminate|].
    destruct (Py.index_of xs x) eqn:E; simpl; [discriminate|].
    intros _. rewrite IH by reflexivity. now destruct (Py.index_of ys x).
Qed.

Lemma annotated_ext (cols : list string) (orig : list (Z * list cell))
    (q1 q2 : Z -> cell * cell * cell * cell) :
  (forall l, q1 l = q2 l) -> annotated cols orig q1 = annotated cols orig q2.
Proof.
  intros E. unfold annotated. f_equal. apply map_ext. intros r. now rewrite E.
Qed.

(** The four assignments of [None] turn the table into one where every
    row carries the block of absent markers. *)
Lemma new_columns_annotated (df : DataFrame) :
  forallb (fun name => negb (mem name (columns df))) ann_columns = true ->
  set_column_const
    (set_column_const
       (set_column_const (set_column_const df "variant_type" CNone)
          "impact" CNone)
       "gene_id" CNone)
    "allele" CNone
  = annotated (columns df) (rows df) (fun _ => none4).
Proof.
  cbn [forallb ann_columns]. intros H.
  repeat (apply andb_true_iff in H as [? H]). clear H.
  repeat match goal with
         | H : negb (mem _ _) = true |- _ =>
             apply negb_true_iff in H; apply index_of_None in H
         end.
  rewrite (set_column_const_new df "variant_type") by assumption.
  rewrite (set_column_const_new _ "impact")
    by (cbn [columns]; rewrite index_of_app_r by assumption; reflexivity).
  cbn [columns rows].
  rewrite (set_column_const_new _ "gene_id")
    by (cbn [columns]; rewrite <- app_assoc;
        rewrite index_of_app_r by assumption; reflexivity).
  cbn [columns rows].
  rewrite (set_column_const_new _ "allele")
    by (cbn [columns]; rewrite <- !app_assoc;
        rewrite index_of_app_r by assumption; reflexivity).
  cbn [columns rows]. unfold annotated. rewrite <- !app_assoc. f_equal.
  rewrite !map_map. apply map_ext. intros r. cbn [fst snd].
  now rewrite <- !app_assoc.
Qed.

Lemma set_nth_nil (p : nat) (v : cell) : set_nth p v [] = [].
Proof. now destruct p. Qed.

Lemma set_nth_app_r (xs ys : list cell) (j : nat) (v : cell) :
  set_nth (List.length xs + j) v (xs ++ ys) = xs ++ set_nth j v ys.
Proof.
  induction xs as [|x xs IH]; simpl; [reflexivity|]. now rewrite IH.
Qed.

Lemma cells4_set4 (j : nat) (v : cell) (q : cell * cell * cell * cell) :
  set_nth j v (cells4 q) = cells4 (set4 j v q).
Proof.
  destruct q as [[[a b] c] d].
  destruct j as [|[|[|[|j]]]]; try reflexivity.
  cbn. now rewrite set_nth_nil.
Qed.

(** One [df.loc[idx, name] = v] on a new column writes the block of the
    rows labelled [idx]. *)
Lemma loc_set_annotated (cols : list string) (orig : list (Z * list cell))
    (q : Z -> cell * cell * cell * cell) (idx : Z) (name : string) (j : nat)
    (v : cell) :
  forallb (fun r => List.length (snd r) =? List.length cols) orig = true ->
  Py.index_of cols name = None ->
  Py.index_of ann_columns name = Some j ->
  loc_set (annotated cols orig q) idx name v
  = annotated cols orig (fun l => if (l =? idx)%Z then set4 j v (q l) else q l).
Proof.
  intros R N J. unfold loc_set, annotated. cbn [columns rows].
  rewrite (index_of_app_r cols ann_columns name N), J. cbn [option_map].
  f_equal. rewrite map_map. apply map_ext_in. intros r I. cbn [fst snd].
  rewrite forallb_forall in R. specialize (R r I). apply Nat.eqb_eq in R.
  destruct (fst r =? idx)%Z; [|reflexivity].
  now rewrite <- R, set_nth_app_r, cells4_set4.
Qed.

Lemma store_ann_annotated (cols : list string) (orig : list (Z * list cell))
    (q : Z -> cell * cell * cell * cell) (idx : Z) (a : Ann) :
  forallb (fun r => List.length (snd r) =? List.length cols) orig = true ->
  forallb (fun name => negb (mem name cols)) ann_columns = true ->
  store_ann (annotated cols orig q) idx a
  = annotated cols orig (set_label q idx (ann4 a)).
Proof.
  intros R H. cbn [forallb ann_columns] in H.
  repeat (apply andb_true_iff in H as [? H]). clear H.
  repeat match goal with
         | H : negb (mem _ _) = true |- _ =>
             apply negb_true_iff in H; apply index_of_None in H
         end.
  unfold store_ann.
  rewrite (loc_set_annotated cols orig q idx "variant_type" 0) by easy.
  rewrite (loc_set_annotated cols orig _ idx "impact" 1) by easy.
  rewrite (loc_set_annotated cols orig _ idx "gene_id" 2) by easy.
  rewrite (loc_set_annotated cols orig _ idx "allele" 3) by easy.
  apply annotated_ext. intros l. unfold set_label.
  destruct (l =? idx)%Z; [|reflexivity].
  now destruct (q l) as [[[? ?] ?] ?].
Qed.

(** The loop, on rows whose [info_column] holds a string. *)
Lemma ann_loop_annotated (info_column : string) (cols : list string)
    (orig : list (Z * list cell)) (its : list (Z * Series))
    (q : Z -> cell * cell * cell * cell) :
  forallb (fun r => List.length (snd r) =? List.length cols) orig = true ->
  forallb (fun name => negb (mem name cols)) ann_columns = true ->
  (forall it, In it its ->
     exists s : string, series_get (snd it) info_column = Ok (CStr s)) ->
  ann_loop info_column its (annotated cols orig q)
  = Ok (annotated cols orig (fold_left (ann_step info_column) its q)).
Proof.
  intros R H. revert q.
  induction its as [|[idx row] its IH]; intros q S; [reflexivity|].
  cbn [ann_loop fold_left].
  destruct (S (idx, row) (or_introl eq_refl)) as [s G]. cbn [snd] in G.
  rewrite G. cbn [bind extract_first_ann_cell].
  unfold ann_step at 2, entry_annotation. cbn [fst snd]. rewrite G.
  destruct (extract_first_ann s) as [a|].
  - rewrite store_ann_annotated by assumption.
    apply IH. intros it I. apply S. now right.
  - apply IH. intros it I. apply S. now right.
Qed.

Lemma fold_ann_step_other (info_column : string) (its : list (Z * Series))
    (q : Z -> cell * cell * cell * cell) (l : Z) :
  ~ In l (map fst its) -> fold_left (ann_step info_column) its q l = q l.
Proof.
  revert q; induction its as [|[idx row] its IH]; intros q N; [reflexivity|].
  cbn [fold_left]. rewrite IH by (intros I; apply N; now right).
  unfold ann_step, set_label. cbn [fst snd].
  destruct (entry_annotation info_column row); [|reflexivity].
  destruct (Z.eqb_spec l idx) as [->|]; [|reflexivity].
  exfalso. apply N. now left.
Qed.

(** With distinct labels, the block a label ends with is decided by the
    one row that carries the label. *)
Lemma fold_ann_step_label (info_column : string) (its : list (Z * Series))
    (q : Z -> cell * cell * cell * cell) (l : Z) (row : Series) :
  NoDup (map fst its) -> In (l, row) its ->
  fold_left (ann_step info_column) its q l
  = match entry_annotation info_column row with
    | Some a => ann4 a
    | None => q l
    end.
Proof.
  revert q; induction its as [|[idx row'] its IH]; intros q D I; [destruct I|].
  cbn [map fst] in D. inversion D as [|? ? N D']; subst.
  cbn [fold_left]. destruct I as [[= -> ->]|I].
  - rewrite fold_ann_step_other by exact N.
    unfold ann_step, set_label. cbn [fst snd].
    destruct (entry_annotation info_column row); [|reflexivity].
    now rewrite Z.eqb_refl.
  - rewrite (IH _ D' I).
    destruct (entry_annotation info_column row); [reflexivity|].
    unfold ann_step, set_label. cbn [fst snd].
    destruct (entry_annotation info_column row'); [|reflexivity].
    destruct (Z.eqb_spec l idx) as [->|]; [|reflexivity].
    exfalso. apply N. apply in_map_iff. now exists (idx, row).
Qed.

Lemma distinct_NoDup (labels : list Z) : distinct labels = true -> NoDup labels.
Proof.
  induction labels as [|l rest IH]; cbn [distinct]; [constructor|].
  intros H. apply andb_true_iff in H as [N D].
  constructor; [|now apply IH].
  intros I. apply negb_true_iff in N.
  enough (existsb (Z.eqb l) rest = true) by congruence.
  apply existsb_exists. exists l. split; [exact I|apply Z.eqb_refl].
Qed.

Lemma series_get_app (cols xs : list string) (cells ys : list cell)
    (name : string) (c : cell) :
  series_get (mkSeries cols cells) name = Ok c ->
  series_get (mkSeries (cols ++ xs) (cells ++ ys)) name = Ok c.
Proof.
  unfold series_get. cbn [s_index s_values].
  destruct (Py.index_of cols name) as [p|] eqn:P; [|discriminate].
  rewrite (index_of_app_l cols xs name p P).
  destruct (nth_error cells p) as [c'|] eqn:E; [|discriminate].
  intros [= <-]. rewrite nth_error_app1; [now rewrite E|].
  apply nth_error_Some. congruence.
Qed.

(** C8, as the code has it.  On a table with distinct row labels, no
    column named like one of the four new ones, and a string in the
    [info_column] of every row, the call returns the table with the four
    columns appended and nothing else changed: the rows keep their labels
    and order, every column that was there holds the values it held, and
    each row ends with its own annotation, or with [None] four times when
    its attribute bag yields none. *)
Theorem add_ann_info_frame (df : DataFrame) (info_column : string) :
  annotable df info_column = true ->
  exists df' : DataFrame,
    add_ann_info_to_df df info_column = Ok df' /\
    columns df' = columns df ++ ann_columns /\
    rows df'
    = map (fun r => (fst r,
                     snd r ++ ann_cells (row_annotation df info_column (snd r))))
          (rows df) /\
    (forall name, In name (columns df) -> get_column df' name = get_column df name).
Proof.
  unfold annotable. intros H.
  apply andb_true_iff in H as [H S]. apply andb_true_iff in H as [H N].
  apply andb_true_iff in H as [R D]. unfold rectangular in R.
  apply distinct_NoDup in D. rewrite forallb_forall in S.
  assert (OK : forall r, In r (rows df) ->
            exists s, series_get (mkSeries (columns df) (snd r)) info_column
                      = Ok (CStr s)).
  { intros r I. specialize (S r I).
    destruct (series_get _ info_column) as [[s| | |]|]; try discriminate.
    now exists s. }
  assert (SNAP : forall r, In r (rows df) ->
            entry_annotation info_column
              (mkSeries (columns df ++ ann_columns) (snd r ++ cells4 none4))
            = row_annotation df info_column (snd r)).
  { intros r I. destruct (OK r I) as [s G].
    unfold row_annotation, entry_annotation.
    now rewrite (series_get_app _ ann_columns _ (cells4 none4) _ _ G), G. }
  set (q := fold_left (ann_step info_column)
              (iterrows (annotated (columns df) (rows df) (fun _ => none4)))
              (fun _ => none4)).
  exists (annotated (columns df) (rows df) q).
  assert (ROWS : rows (annotated (columns df) (rows df) q)
                 = map (fun r => (fst r, snd r ++ ann_cells
                                   (row_annotation df info_column (snd r))))
                       (rows df)).
  { unfold annotated. cbn [rows]. apply map_ext_in. intros [l cells] I.
    cbn [fst snd]. f_equal. f_equal. unfold q.
    rewrite (fold_ann_step_label info_column _ _ l
               (mkSeries (columns df ++ ann_columns) (cells ++ cells4 none4))).
    - pose proof (SNAP (l, cells) I) as E. cbn [snd] in E. rewrite E.
      now destruct (row_annotation df info_column cells).
    - unfold iterrows, annotated. cbn [rows columns].
      rewrite !map_map. cbn [fst]. exact D.
    - unfold iterrows, annotated. cbn [rows columns]. rewrite map_map.
      apply in_map_iff. now exists (l, cells). }
  split; [|split; [reflexivity|split; [exact ROWS|]]].
  - unfold add_ann_info_to_df. rewrite (new_columns_annotated df N).
    apply ann_loop_annotated; [exact R|exact N|].
    intros it I. unfold iterrows, annotated in I. cbn [rows columns] in I.
    rewrite map_map in I. apply in_map_iff in I as [r [<- I]]. cbn [fst snd].
    destruct (OK r I) as [s G]. exists s.
    now apply series_get_app.
  - intros name I. unfold get_column. rewrite ROWS. cbn [columns annotated].
    destruct (index_of_In _ _ I) as [p P].
    rewrite (index_of_app_l _ ann_columns _ _ P), P. f_equal.
    rewrite map_map. apply map_ext_in. intros r Ir. cbn [snd].
    rewrite forallb_forall in R. specialize (R r Ir). apply Nat.eqb_eq in R.
    apply app_nth1. rewrite R. apply nth_error_Some.
    apply index_of_Some in P. congruence.
Qed.

(** Three rows, the middle one without annotation. *)
Lemma add_ann_info_frame_witness :
  annotable partly_annotated "INFO" = true /\
  exists df' : DataFrame,
    add_ann_info_to_df partly_annotated "INFO" = Ok df' /\
    columns df' = columns partly_annotated ++ ann_columns /\
    rows df'
    = map (fun r => (fst r,
                     snd r ++ ann_cells
                       (row_annotation partly_annotated "INFO" (snd r))))
          (rows partly_annotated) /\
    (forall name, In name (columns partly_annotated) ->
                  get_column df' name = get_column partly_annotated name).
Proof.
  split; [reflexivity|]. apply add_ann_info_frame. reflexivity.
Defined.

(** C8 as stated fails on two kinds of table.  A column that is already
    named [impact] is overwritten; and when two rows carry the same label
    the row without annotation ends with the values of the other row. *)
Lemma add_ann_info_frame_counterexample :
  get_column with_impact_column "impact" = Ok [CStr "curated"; CStr "curated"] /\
  (df <- add_ann_info_to_df with_impact_column "INFO";; get_column df "impact")
  = Ok [CStr "MODERATE"; CNone] /\
  row_annotation duplicate_labels "INFO" [CStr "DP=7"] = None /\
  (df <- add_ann_info_to_df duplicate_labels "INFO";; list_item (rows df) 1)
  = Ok (0%Z, [CStr "DP=7"; CStr "missense_variant"; CStr "MODERATE";
              CStr "geneX"; CStr "A"]).
Proof.
  repeat split; reflexivity.
Qed.

(** * Further properties of the code *)

(** ** [find_index] *)

Lemma index_of_first (xs : list string) (x : string) (i : nat) :
  Py.index_of xs x = Some i ->
  forall j, j < i -> nth_error xs j <> Some x.
Proof.
  revert i; induction xs as [|y ys IH]; intros i; simpl; [discriminate|].
  destruct (String.eqb_spec y x) as [->|N].
  - intros [= <-] j L. lia.
  - destruct (Py.index_of ys x) as [k|]; simpl; [|discriminate].
    intros [= <-] [|j] L; simpl.
    + congruence.
    + apply (IH k eq_refl). lia.
Qed.

(** X1. A position [find_index] returns is the first one at which the
    colon-separated descriptor holds the field. *)
Theorem find_index_first_position (format_value field : string) (i : nat) :
  find_index format_value field = Some i ->
  nth_error (Py.split format_value ":") i = Some field /\
  forall j, j < i -> nth_error (Py.split format_value ":") j <> Some field.
Proof.
  unfold find_index. intros H. split.
  - now apply index_of_Some.
  - now apply index_of_first.
Qed.

Lemma find_index_first_position_witness :
  nth_error (Py.split "GT:DP:AD:DP" ":") 1 = Some "DP" /\
  forall j, j < 1 -> nth_error (Py.split "GT:DP:AD:DP" ":") j <> Some "DP".
Proof.
  apply find_index_first_position. reflexivity.
Defined.

(** X2. [find_index] returns [None] exactly when no colon-separated field
    of the descriptor equals the field: a field is matched whole, never
    as a part of a longer field name. *)
Theorem find_index_absent (format_value field : string) :
  find_index format_value field = None <->
  ~ In field (Py.split format_value ":").
Proof.
  unfold find_index. rewrite index_of_None, <- mem_In.
  destruct (mem field (Py.split format_value ":")); split; congruence.
Qed.

Lemma find_index_absent_witness :
  find_index "GT:DPR:ROX" "DP" = None /\
  ~ In "RO" (Py.split "GT:DPR:ROX" ":").
Proof.
  split.
  - reflexivity.
  - apply (proj1 (find_index_absent "GT:DPR:ROX" "RO")). reflexivity.
Defined.

(** ** The expander: tables it cannot expand *)

(** X3. A table without a [FORMAT] column is refused with [KeyError], and
    a table that has the column but no row with [IndexError]: an empty
    table is not expanded to an empty table. *)
Theorem expand_without_first_row (df_vcf : DataFrame) :
  (~ In "FORMAT" (columns df_vcf) ->
   expand_multiallelic_variants df_vcf = Raise KeyError) /\
  (In "FORMAT" (columns df_vcf) -> rows df_vcf = [] ->
   expand_multiallelic_variants df_vcf = Raise IndexError).
Proof.
  unfold expand_multiallelic_variants, expanded_rows, format_example_of,
    get_column.
  split.
  - intros N.
    assert (E : Py.index_of (columns df_vcf) "FORMAT" = None).
    { apply index_of_None. destruct (mem "FORMAT" (columns df_vcf)) eqn:M;
        [|reflexivity]. apply mem_In in M. contradiction. }
    now rewrite E.
  - intros I R. destruct (index_of_In _ _ I) as [p P].
    now rewrite P, R.
Qed.

Lemma expand_without_first_row_witness :
  expand_multiallelic_variants no_format_column = Raise KeyError /\
  expand_multiallelic_variants no_rows = Raise IndexError.
Proof.
  split.
  - apply (proj1 (expand_without_first_row no_format_column)).
    intros H. repeat (destruct H as [H|H]; [discriminate|]). exact H.
  - apply (proj2 (expand_without_first_row no_rows)); [|reflexivity].
    do 8 right. left. reflexivity.
Defined.

(** ** The expander: how many rows, and how they are labelled *)

Lemma alleles_loop_length (ro ao dp : nat) (row : Series)
    (sample_names : list string) (i : nat) (pairs : list (string * string))
    (records : list dict) :
  alleles_loop ro ao dp row sample_names i pairs = Ok records ->
  List.length records = List.length pairs.
Proof.
  revert i records; induction pairs as [|[alt inty] rest IH]; intros i records;
    cbn [alleles_loop].
  - now intros [= <-].
  - destruct (allele_row ro ao dp row sample_names i alt inty); [|discriminate].
    cbn [bind].
    destruct (alleles_loop ro ao dp row sample_names (S i) rest) as [more|] eqn:M;
      [|discriminate].
    cbn [bind]. intros [= <-]. cbn [List.length]. now rewrite (IH _ _ M).
Qed.

Lemma expand_row_length (ro ao dp : nat) (sample_names : list string)
    (row : Series) (records : list dict) :
  expand_row ro ao dp sample_names row = Ok records ->
  List.length records = Nat.min (alt_count row) (type_count row).
Proof.
  unfold expand_row, alt_count, type_count.
  destruct (alt_alleles_of row) as [alts|]; [|discriminate]. cbn [bind].
  destruct (info_type_of row) as [types|]; [|discriminate]. cbn [bind].
  intros E. apply alleles_loop_length in E. now rewrite E, length_combine.
Qed.

Lemma rows_loop_length (ro ao dp : nat) (sample_names : list string)
    (its : list (Z * Series)) (records : list dict) :
  rows_loop ro ao dp sample_names its = Ok records ->
  List.length records
  = list_sum (map (fun it => Nat.min (alt_count (snd it)) (type_count (snd it)))
                  its).
Proof.
  unfold list_sum.
  revert records; induction its as [|[l row] its IH]; intros records;
    cbn [rows_loop map fold_right snd].
  - now intros [= <-].
  - destruct (expand_row ro ao dp sample_names row) as [new_rows|] eqn:E;
      [|discriminate]. cbn [bind].
    destruct (rows_loop ro ao dp sample_names its) as [more|] eqn:M;
      [|discriminate]. cbn [bind]. intros [= <-].
    rewrite length_app, (expand_row_length _ _ _ _ _ _ E), (IH _ eq_refl).
    reflexivity.
Qed.

Lemma expanded_rows_length (df_vcf : DataFrame) (records : list dict) :
  expanded_rows df_vcf = Ok records ->
  List.length records
  = list_sum (map (fun it => Nat.min (alt_count (snd it)) (type_count (snd it)))
                  (iterrows df_vcf)).
Proof.
  unfold expanded_rows.
  destruct (format_example_of df_vcf) as [c|]; [|discriminate]. cbn [bind].
  destruct (as_str c) as [fmt|]; [|discriminate]. cbn [bind].
  destruct (find_index fmt "RO") as [ro|]; [|discriminate].
  destruct (find_index fmt "AO") as [ao|]; [|discriminate].
  destruct (find_index fmt "DP") as [dp|]; [|discriminate].
  apply rows_loop_length.
Qed.

(** X4. Whenever the expander returns a table, each input row has given
    as many rows as the shorter of its two lists, alternates and types:
    alternates without a type, and types without an alternate, are
    dropped without an error. *)
Theorem expand_row_count_zip (df_vcf out : DataFrame) :
  expand_multiallelic_variants df_vcf = Ok out ->
  List.length (rows out)
  = list_sum (map (fun it => Nat.min (alt_count (snd it)) (type_count (snd it)))
                  (iterrows df_vcf)).
Proof.
  unfold expand_multiallelic_variants.
  destruct (expanded_rows df_vcf) as [records|] eqn:E; [|discriminate].
  cbn [bind]. intros [= <-].
  rewrite length_from_records. now apply expanded_rows_length.
Qed.

(** Three alternates with two types, then one alternate with three
    types: three rows in all. *)
Lemma expand_row_count_zip_witness :
  exists out : DataFrame,
    expand_multiallelic_variants misaligned_types = Ok out /\
    List.length (rows out) = 3 /\
    list_sum (map (fun it => alt_count (snd it)) (iterrows misaligned_types)) = 4.
Proof.
  destruct (expand_multiallelic_variants misaligned_types) as [out|] eqn:E;
    [|discriminate E].
  exists out. split; [reflexivity|]. split; [|reflexivity].
  rewrite (expand_row_count_zip misaligned_types out E). reflexivity.
Defined.

Lemma number_from_labels (i : Z) (l : list (list cell)) :
  map fst (number_from i l)
  = map (fun k => (i + Z.of_nat k)%Z) (seq 0 (List.length l)).
Proof.
  revert i; induction l as [|x l IH]; intros i; [reflexivity|].
  cbn [number_from map List.length seq fst]. f_equal; [lia|].
  rewrite IH, <- seq_shift, map_map. apply map_ext. intros k. lia.
Qed.

(** X5. The rows of the expanded table are labelled [0, 1, 2, ...] in the
    order they were produced: the labels of the input rows are not
    carried over. *)
Theorem expand_labels (df_vcf out : DataFrame) :
  expand_multiallelic_variants df_vcf = Ok out ->
  map fst (rows out) = map Z.of_nat (seq 0 (List.length (rows out))).
Proof.
  unfold expand_multiallelic_variants.
  destruct (expanded_rows df_vcf) as [records|]; [|discriminate].
  cbn [bind]. intros [= <-]. rewrite length_from_records.
  unfold from_records. cbn [rows]. rewrite number_from_labels, length_map.
  apply map_ext. intros k. lia.
Qed.

(** Input rows labelled 7 and 9 give rows labelled 0, 1 and 2. *)
Lemma expand_labels_witness :
  exists out : DataFrame,
    expand_multiallelic_variants misaligned_types = Ok out /\
    map fst (rows misaligned_types) = [7%Z; 9%Z] /\
    map fst (rows out) = [0%Z; 1%Z; 2%Z].
Proof.
  destruct (expand_multiallelic_variants misaligned_types) as [out|] eqn:E;
    [|discriminate E].
  exists out. split; [reflexivity|]. split; [reflexivity|].
  pose proof (expand_labels misaligned_types out E) as L.
  vm_compute in E. injection E as <-. exact L.
Defined.

(** ** The expander: the columns of the result *)

Lemma keys_dict_set_new (d : dict) (k : string) (v : cell) :
  ~ In k (keys d) -> keys (dict_set d k v) = keys d ++ [k].
Proof.
  unfold keys. induction d as [|[k' v'] d IH]; intros N; [reflexivity|].
  cbn [dict_set map fst] in *.
  destruct (String.eqb_spec k' k) as [->|Nk]; [exfalso; apply N; now left|].
  cbn [map fst app]. f_equal. apply IH. intros I. apply N. now right.
Qed.

Lemma sample_entries_keys (ro ao dp i : nat) (row : Series) (sample : string)
    (d d' : dict) :
  sample_entries ro ao dp i row sample d = Ok d' ->
  ~ In ("RO_" ++ sample)%string (keys d) ->
  ~ In ("DP_" ++ sample)%string (keys d) ->
  ~ In ("AO_" ++ sample)%string (keys d) ->
  keys d' = keys d ++ [("RO_" ++ sample)%string; ("DP_" ++ sample)%string;
                       ("AO_" ++ sample)%string].
Proof.
  intros E NR ND NA. apply sample_entries_inv in E as [zr [zd [za [_ ->]]]].
  rewrite keys_dict_set_new.
  - rewrite keys_dict_set_new.
    + rewrite keys_dict_set_new by exact NR. now rewrite <- !app_assoc.
    + rewrite keys_dict_set_new by exact NR. intros I.
      apply in_app_or in I as [I|[I|[]]]; [contradiction|discriminate].
  - rewrite keys_dict_set_new.
    + rewrite keys_dict_set_new by exact NR. intros I.
      apply in_app_or in I as [I|[I|[]]]; [|discriminate].
      apply in_app_or in I as [I|[I|[]]]; [contradiction|discriminate].
    + rewrite keys_dict_set_new by exact NR. intros I.
      apply in_app_or in I as [I|[I|[]]]; [contradiction|discriminate].
Qed.

Lemma samples_loop_keys (ro ao dp i : nat) (row : Series)
    (sample_names : list string) (d d' : dict) :
  samples_loop ro ao dp i row sample_names d = Ok d' ->
  NoDup sample_names ->
  (forall s, In s sample_names ->
     ~ In ("RO_" ++ s)%string (keys d) /\ ~ In ("DP_" ++ s)%string (keys d) /\
     ~ In ("AO_" ++ s)%string (keys d)) ->
  keys d' = keys d ++
            flat_map (fun s => [("RO_" ++ s)%string; ("DP_" ++ s)%string;
                                ("AO_" ++ s)%string]) sample_names.
Proof.
  revert d; induction sample_names as [|s rest IH]; intros d; cbn [samples_loop].
  - intros [= <-] _ _. cbn [flat_map]. now rewrite app_nil_r.
  - destruct (sample_entries ro ao dp i row s d) as [d1|] eqn:E; [|discriminate].
    cbn [bind]. intros L D F. inversion D as [|? ? Ns D']; subst.
    destruct (F s (or_introl eq_refl)) as [NR [ND NA]].
    pose proof (sample_entries_keys _ _ _ _ _ _ _ _ E NR ND NA) as K1.
    rewrite (IH d1 L D').
    + rewrite K1. cbn [flat_map]. now rewrite <- !app_assoc.
    + intros s' I. destruct (F s' (or_intror I)) as [NR' [ND' NA']].
      assert (N : s' <> s) by (intros ->; contradiction).
      destruct (sample_keys_apart s s' N) as [Ar [Ad Aa]].
      rewrite K1. repeat split; intros J;
        apply in_app_or in J as [J|[J|[J|[J|[]]]]];
        try contradiction; try discriminate; symmetry in J; contradiction.
Qed.

Lemma allele_row_keys (ro ao dp : nat) (row : Series)
    (sample_names : list string) (i : nat) (alt inty : string) (d : dict) :
  allele_row ro ao dp row sample_names i alt inty = Ok d ->
  NoDup sample_names ->
  keys d = expanded_columns sample_names.
Proof.
  unfold allele_row. intros E D.
  destruct (series_get row "#CHROM"); [|discriminate].
  destruct (series_get row "POS"); [|discriminate].
  destruct (series_get row "REF"); [|discriminate].
  cbn [bind] in E. apply samples_loop_keys in E; [exact E|exact D|].
  intros s _. cbn [keys map fst].
  repeat split; intros J;
    repeat (destruct J as [J|J]; [discriminate|]); exact J.
Qed.

Lemma rows_loop_keys (ro ao dp : nat) (sample_names : list string)
    (its : list (Z * Series)) (records : list dict) :
  rows_loop ro ao dp sample_names its = Ok records ->
  NoDup sample_names ->
  forall d, In d records -> keys d = expanded_columns sample_names.
Proof.
  intros R D. revert records R.
  induction its as [|[l row] its IH]; intros records; cbn [rows_loop].
  - intros [= <-] ? [].
  - destruct (expand_row ro ao dp sample_names row) as [new_rows|] eqn:E;
      [|discriminate]. cbn [bind].
    destruct (rows_loop ro ao dp sample_names its) as [more|]; [|discriminate].
    cbn [bind]. intros [= <-] d I. apply in_app_or in I as [I|I];
      [|now apply (IH more)].
    unfold expand_row in E.
    destruct (alt_alleles_of row) as [alts|]; [|discriminate].
    destruct (info_type_of row) as [types|]; [|discriminate].
    cbn [bind] in E. clear IH. revert new_rows E I.
    generalize 0 as i. generalize (combine alts types) as pairs.
    induction pairs as [|[alt inty] pairs IHp]; intros i new_rows;
      cbn [alleles_loop].
    + intros [= <-] [].
    + destruct (allele_row ro ao dp row sample_names i alt inty) as [d0|] eqn:A;
        [|discriminate]. cbn [bind].
      destruct (alleles_loop ro ao dp row sample_names (S i) pairs) as [m|] eqn:M;
        [|discriminate].
      cbn [bind]. intros [= <-] [<-|I].
      * now apply (allele_row_keys _ _ _ _ _ _ _ _ _ A).
      * now apply (IHp (S i) m).
Qed.

Lemma add_keys_fresh (ks acc : list string) :
  NoDup (acc ++ ks) ->
  fold_left (fun acc k => if mem k acc then acc else acc ++ [k]) ks acc
  = acc ++ ks.
Proof.
  revert acc; induction ks as [|k ks IH]; intros acc D; cbn [fold_left].
  - now rewrite app_nil_r.
  - assert (M : mem k acc = false).
    { destruct (mem k acc) eqn:M; [|reflexivity]. apply mem_In in M.
      apply NoDup_remove_2 in D. exfalso. apply D. apply in_or_app. now left. }
    rewrite M, IH; [now rewrite <- app_assoc|].
    now rewrite <- app_assoc.
Qed.

Lemma add_keys_known (ks acc : list string) :
  (forall k, In k ks -> In k acc) ->
  fold_left (fun acc k => if mem k acc then acc else acc ++ [k]) ks acc = acc.
Proof.
  induction ks as [|k ks IH]; intros H; cbn [fold_left]; [reflexivity|].
  rewrite (proj2 (mem_In k acc) (H k (or_introl eq_refl))).
  apply IH. intros k' I. apply H. now right.
Qed.

Lemma union_keys_same (ks : list string) (records : list dict) :
  (forall d, In d records -> keys d = ks) ->
  union_keys ks records = ks.
Proof.
  induction records as [|d ds IH]; intros H; cbn [union_keys]; [reflexivity|].
  rewrite add_keys_known.
  - apply IH. intros d' I. apply H. now right.
  - intros k I. now rewrite (H d (or_introl eq_refl)) in I.
Qed.

Lemma NoDup_expanded_columns (sample_names : list string) :
  NoDup sample_names -> NoDup (expanded_columns sample_names).
Proof.
  intros D. unfold expanded_columns.
  assert (F : NoDup (flat_map (fun s => [("RO_" ++ s)%string;
                                         ("DP_" ++ s)%string;
                                         ("AO_" ++ s)%string]) sample_names)).
  { induction D as [|s rest N D IH]; cbn [flat_map]; [constructor|].
    assert (A : forall k, In k (flat_map (fun s => [("RO_" ++ s)%string;
                                                    ("DP_" ++ s)%string;
                                                    ("AO_" ++ s)%string]) rest) ->
                exists s', In s' rest /\
                  (k = ("RO_" ++ s')%string \/ k = ("DP_" ++ s')%string \/
                   k = ("AO_" ++ s')%string)).
    { intros k I. apply in_flat_map in I as [s' [I [J|[J|[J|[]]]]]];
        exists s'; auto. }
    cbn [app]. repeat constructor; try exact IH; intros I.
    - destruct I as [I|[I|I]]; try discriminate.
      apply A in I as [s' [I [J|[J|J]]]]; try discriminate.
      injection J as <-. contradiction.
    - destruct I as [I|I]; try discriminate.
      apply A in I as [s' [I [J|[J|J]]]]; try discriminate.
      injection J as <-. contradiction.
    - apply A in I as [s' [I [J|[J|J]]]]; try discriminate.
      injection J as <-. contradiction. }
  assert (G : forall k, In k (flat_map (fun s => [("RO_" ++ s)%string;
                                                  ("DP_" ++ s)%string;
                                                  ("AO_" ++ s)%string])
                                       sample_names) ->
              exists s', k = ("RO_" ++ s')%string \/ k = ("DP_" ++ s')%string \/
                         k = ("AO_" ++ s')%string).
  { intros k I. apply in_flat_map in I as [s' [_ [J|[J|[J|[]]]]]];
      exists s'; auto. }
  cbn [app]. repeat constructor; try exact F; intros I;
    repeat (destruct I as [I|I]; [discriminate|]);
    apply G in I as [s' [J|[J|J]]]; discriminate.
Qed.

Lemma alt_alleles_nonempty (row : Series) (alt_alleles : list string) :
  alt_alleles_of row = Ok alt_alleles -> alt_alleles <> [].
Proof.
  unfold alt_alleles_of.
  destruct (series_get row "ALT") as [c|]; [|discriminate]. cbn [bind].
  destruct (as_str c) as [a|]; [|discriminate]. cbn [bind].
  intros [= <-]. apply split_go_nonempty.
Qed.

Lemma info_type_nonempty (row : Series) (info_type : list string) :
  info_type_of row = Ok info_type -> info_type <> [].
Proof.
  unfold info_type_of.
  destruct (series_get row "INFO") as [c|]; [|discriminate]. cbn [bind].
  destruct (as_str c) as [t|]; [|discriminate]. cbn [bind].
  destruct (list_item (Py.split t "TYPE=") 1) as [u|]; [|discriminate].
  cbn [bind]. intros [= <-]. apply split_go_nonempty.
Qed.

Lemma expand_row_nonempty (ro ao dp : nat) (sample_names : list string)
    (row : Series) (records : list dict) :
  expand_row ro ao dp sample_names row = Ok records -> records <> [].
Proof.
  unfold expand_row.
  destruct (alt_alleles_of row) as [alts|] eqn:A; [|discriminate].
  destruct (info_type_of row) as [types|] eqn:T; [|discriminate].
  cbn [bind]. apply alt_alleles_nonempty in A. apply info_type_nonempty in T.
  destruct alts as [|alt alts]; [congruence|].
  destruct types as [|inty types]; [congruence|].
  cbn [combine alleles_loop].
  destruct (allele_row ro ao dp row sample_names 0 alt inty); [|discriminate].
  cbn [bind].
  destruct (alleles_loop ro ao dp row sample_names 1 (combine alts types));
    [|discriminate].
  cbn [bind]. intros [= <-]. discriminate.
Qed.

Lemma rows_loop_nonempty (ro ao dp : nat) (sample_names : list string)
    (its : list (Z * Series)) (records : list dict) :
  rows_loop ro ao dp sample_names its = Ok records ->
  its <> [] -> records <> [].
Proof.
  destruct its as [|[l row] its]; [congruence|]. cbn [rows_loop]. intros R _.
  destruct (expand_row ro ao dp sample_names row) as [new_rows|] eqn:E;
    [|discriminate]. cbn [bind] in R.
  destruct (rows_loop ro ao dp sample_names its) as [more|]; [|discriminate].
  cbn [bind] in R. injection R as <-.
  apply expand_row_nonempty in E.
  destruct new_rows; [congruence|discriminate].
Qed.

(** X6. A table the expander returns has at least one row and, for
    distinct sample names, exactly the columns [#CHROM], [POS], [REF],
    [ALT], [INFO_TYPE] followed by [RO_s], [DP_s], [AO_s] for each sample
    [s] in the order of the sample columns: the identifier, quality,
    filter, attribute and format columns are not carried over. *)
Theorem expand_columns (df_vcf out : DataFrame) :
  expand_multiallelic_variants df_vcf = Ok out ->
  NoDup (skipn 9 (columns df_vcf)) ->
  rows out <> [] /\
  columns out = expanded_columns (skipn 9 (columns df_vcf)).
Proof.
  unfold expand_multiallelic_variants. intros E D.
  destruct (expanded_rows df_vcf) as [records|] eqn:R; [|discriminate].
  cbn [bind] in E. injection E as <-.
  unfold expanded_rows in R.
  destruct (format_example_of df_vcf) as [c|] eqn:F; [|discriminate].
  cbn [bind] in R. destruct (as_str c) as [fmt|]; [|discriminate].
  cbn [bind] in R.
  destruct (find_index fmt "RO") as [ro|]; [|discriminate].
  destruct (find_index fmt "AO") as [ao|]; [|discriminate].
  destruct (find_index fmt "DP") as [dp|]; [|discriminate].
  assert (N : records <> []).
  { apply (rows_loop_nonempty _ _ _ _ _ _ R).
    unfold format_example_of, get_column, iterrows in *.
    destruct (Py.index_of (columns df_vcf) "FORMAT"); [|discriminate].
    cbn [bind] in F. destruct (rows df_vcf); [discriminate|discriminate]. }
  pose proof (rows_loop_keys _ _ _ _ _ _ R D) as K.
  split.
  - intros H. apply N. apply length_zero_iff_nil.
    now rewrite <- length_from_records, H.
  - unfold from_records. cbn [columns].
    destruct records as [|d ds]; [congruence|]. cbn [union_keys].
    rewrite (K d (or_introl eq_refl)).
    rewrite (add_keys_fresh _ []) by (now apply NoDup_expanded_columns).
    cbn [app]. apply union_keys_same. intros d' I. apply K. now right.
Qed.

Lemma expand_columns_witness :
  exists out : DataFrame,
    expand_multiallelic_variants six_alternates = Ok out /\
    rows out <> [] /\
    columns out = ["#CHROM"; "POS"; "REF"; "ALT"; "INFO_TYPE";
                   "RO_M4"; "DP_M4"; "AO_M4"; "RO_C1"; "DP_C1"; "AO_C1"].
Proof.
  destruct (expand_multiallelic_variants six_alternates) as [out|] eqn:E;
    [|discriminate E].
  exists out. split; [reflexivity|].
  apply (expand_columns six_alternates out E).
  repeat constructor; simpl; intuition discriminate.
Defined.

(** ** The expander: sample values without sub-fields *)

Lemma sample_entries_without_colon (ro ao dp i : nat) (row : Series)
    (sample v : string) (d : dict) :
  series_get row sample = Ok (CStr v) ->
  Py.contains ":" v = false ->
  ro <> dp ->
  is_ok (sample_entries ro ao dp i row sample d) = false.
Proof.
  intros G C N. unfold sample_entries. rewrite G. cbn [bind as_str].
  rewrite (split_without_sep ":" v C). unfold list_item.
  destruct ro as [|ro]; cbn [nth_error bind].
  - destruct (count_of v); [|reflexivity]. cbn [bind].
    destruct dp as [|dp]; [congruence|]. cbn [nth_error].
    now destruct dp.
  - now destruct ro.
Qed.

Lemma samples_loop_without_colon (ro ao dp i : nat) (row : Series)
    (sample_names : list string) (sample v : string) (d : dict) :
  In sample sample_names ->
  series_get row sample = Ok (CStr v) ->
  Py.contains ":" v = false ->
  ro <> dp ->
  is_ok (samples_loop ro ao dp i row sample_names d) = false.
Proof.
  intros I G C N. revert d.
  induction sample_names as [|s rest IH]; intros d; [destruct I|].
  cbn [samples_loop]. destruct I as [->|I].
  - pose proof (sample_entries_without_colon ro ao dp i row sample v d G C N) as F.
    now destruct (sample_entries ro ao dp i row sample d).
  - destruct (sample_entries ro ao dp i row s d); [|reflexivity].
    cbn [bind]. now apply IH.
Qed.

Lemma expand_row_without_colon (ro ao dp : nat) (sample_names : list string)
    (row : Series) (sample v : string) :
  In sample sample_names ->
  series_get row sample = Ok (CStr v) ->
  Py.contains ":" v = false ->
  ro <> dp ->
  is_ok (expand_row ro ao dp sample_names row) = false.
Proof.
  intros I G C N. unfold expand_row.
  destruct (alt_alleles_of row) as [alts|] eqn:A; [|reflexivity].
  destruct (info_type_of row) as [types|] eqn:T; [|reflexivity].
  cbn [bind]. apply alt_alleles_nonempty in A. apply info_type_nonempty in T.
  destruct alts as [|alt alts]; [congruence|].
  destruct types as [|inty types]; [congruence|].
  cbn [combine alleles_loop]. unfold allele_row.
  destruct (series_get row "#CHROM"); [|reflexivity].
  destruct (series_get row "POS"); [|reflexivity].
  destruct (series_get row "REF"); [|reflexivity].
  cbn [bind].
  match goal with
  | |- context [samples_loop ro ao dp 0 row sample_names ?d0] =>
      pose proof (samples_loop_without_colon ro ao dp 0 row sample_names
                    sample v d0 I G C N) as F;
      destruct (samples_loop ro ao dp 0 row sample_names d0)
  end; [discriminate F|reflexivity].
Qed.

Lemma find_index_apart (format_value f1 f2 : string) (p1 p2 : nat) :
  find_index format_value f1 = Some p1 ->
  find_index format_value f2 = Some p2 ->
  f1 <> f2 -> p1 <> p2.
Proof.
  unfold find_index. intros E1 E2 N ->.
  apply index_of_Some in E1. apply index_of_Some in E2. congruence.
Qed.

(** X7. A sample value without a colon, such as the marker ["."] of a
    sample that was not called, makes the expander fail, in whatever row
    it stands: the reference count and the depth are read at two different
    positions of the colon-separated value, and it has only one. *)
Theorem expand_sample_without_colon (df_vcf : DataFrame) (l : Z) (row : Series)
    (sample v : string) :
  In (l, row) (iterrows df_vcf) ->
  In sample (skipn 9 (columns df_vcf)) ->
  series_get row sample = Ok (CStr v) ->
  Py.contains ":" v = false ->
  is_ok (expand_multiallelic_variants df_vcf) = false.
Proof.
  intros I S G C. unfold expand_multiallelic_variants, expanded_rows.
  destruct (format_example_of df_vcf) as [c|]; [|reflexivity]. cbn [bind].
  destruct (as_str c) as [fmt|]; [|reflexivity]. cbn [bind].
  destruct (find_index fmt "RO") as [ro|] eqn:RO; [|reflexivity].
  destruct (find_index fmt "AO") as [ao|]; [|reflexivity].
  destruct (find_index fmt "DP") as [dp|] eqn:DP; [|reflexivity].
  assert (N : ro <> dp) by (apply (find_index_apart fmt "RO" "DP"); congruence).
  pose proof (rows_loop_ok_all ro ao dp _ _ l row I
                (expand_row_without_colon ro ao dp _ row sample v S G C N)) as F.
  now destruct (rows_loop ro ao dp (skipn 9 (columns df_vcf)) (iterrows df_vcf)).
Qed.

Lemma expand_sample_without_colon_witness :
  (r <- list_item (iterrows uncalled_sample) 1;; series_get (snd r) "C1")
  = Ok (CStr ".") /\
  is_ok (expand_multiallelic_variants uncalled_sample) = false.
Proof.
  split; [reflexivity|].
  apply (expand_sample_without_colon uncalled_sample 1%Z
           (mkSeries (columns uncalled_sample)
              (vcf_row 200 "T" "TYPE=snp" "GT:DP:RO:AO" "0/1:10:5:5" ++ [CStr "."]))
           "C1" ".").
  - right. left. reflexivity.
  - simpl. right. left. reflexivity.
  - reflexivity.
  - reflexivity.
Defined.

(** ** The expander: the identifying columns of the result *)

Lemma samples_loop_fixed (ro ao dp i : nat) (row : Series)
    (sample_names : list string) (d d' : dict) (k : string) :
  samples_loop ro ao dp i row sample_names d = Ok d' ->
  (forall s, k <> ("RO_" ++ s)%string /\ k <> ("DP_" ++ s)%string /\
             k <> ("AO_" ++ s)%string) ->
  dict_get d' k = dict_get d k.
Proof.
  intros L K. revert d L.
  induction sample_names as [|s rest IH]; intros d; cbn [samples_loop].
  - now intros [= <-].
  - destruct (sample_entries ro ao dp i row s d) as [d1|] eqn:E; [|discriminate].
    cbn [bind]. intros L. rewrite (IH _ L).
    apply sample_entries_inv in E as (x & y & z & _ & ->).
    destruct (K s) as (K1 & K2 & K3).
    rewrite !dict_get_set_other by congruence. reflexivity.
Qed.

Lemma allele_row_identity (ro ao dp : nat) (row : Series)
    (sample_names : list string) (i : nat) (alt inty : string) (d : dict) :
  allele_row ro ao dp row sample_names i alt inty = Ok d ->
  exists chrom pos ref : cell,
    series_get row "#CHROM" = Ok chrom /\
    series_get row "POS" = Ok pos /\
    series_get row "REF" = Ok ref /\
    dict_get d "#CHROM" = Some chrom /\
    dict_get d "POS" = Some pos /\
    dict_get d "REF" = Some ref /\
    dict_get d "ALT" = Some (CStr alt) /\
    dict_get d "INFO_TYPE" = Some (CStr inty).
Proof.
  unfold allele_row. intros E.
  destruct (series_get row "#CHROM") as [chrom|]; [|discriminate].
  destruct (series_get row "POS") as [pos|]; [|discriminate].
  destruct (series_get row "REF") as [ref|]; [|discriminate].
  cbn [bind] in E. exists chrom, pos, ref.
  repeat (split; [reflexivity|]).
  repeat split;
    (rewrite (samples_loop_fixed _ _ _ _ _ _ _ _ _ E);
     [reflexivity| intros s; repeat split; discriminate]).
Qed.

Lemma alleles_loop_map (ro ao dp : nat) (row : Series)
    (sample_names : list string) (name : string)
    (f : string * string -> option cell) :
  (forall i alt inty d,
     allele_row ro ao dp row sample_names i alt inty = Ok d ->
     dict_get d name = f (alt, inty)) ->
  forall (pairs : list (string * string)) (i : nat) (records : list dict),
    alleles_loop ro ao dp row sample_names i pairs = Ok records ->
    map (fun d => dict_get d name) records = map f pairs.
Proof.
  intros H. induction pairs as [|[alt inty] pairs IH]; intros i records;
    cbn [alleles_loop].
  - now intros [= <-].
  - destruct (allele_row ro ao dp row sample_names i alt inty) as [d|] eqn:A;
      [|discriminate]. cbn [bind].
    destruct (alleles_loop ro ao dp row sample_names (S i) pairs) as [m|] eqn:M;
      [|discriminate].
    cbn [bind]. intros [= <-]. cbn [map].
    now rewrite (H _ _ _ _ A), (IH _ _ M).
Qed.

Lemma expand_row_pairs (ro ao dp : nat) (sample_names : list string)
    (row : Series) (records : list dict) :
  expand_row ro ao dp sample_names row = Ok records ->
  alleles_loop ro ao dp row sample_names 0 (allele_pairs row) = Ok records /\
  allele_pairs row <> [].
Proof.
  unfold expand_row, allele_pairs.
  destruct (alt_alleles_of row) as [alts|] eqn:A; [|discriminate].
  destruct (info_type_of row) as [types|] eqn:T; [|discriminate].
  cbn [bind]. intros E. split; [exact E|].
  apply alt_alleles_nonempty in A. apply info_type_nonempty in T.
  destruct alts; [congruence|]. destruct types; [congruence|]. discriminate.
Qed.

Lemma rows_loop_map (ro ao dp : nat) (sample_names : list string)
    (name : string) (f : Series -> string * string -> option cell)
    (its : list (Z * Series)) :
  (forall it, In it its ->
     forall i alt inty d,
       allele_row ro ao dp (snd it) sample_names i alt inty = Ok d ->
       dict_get d name = f (snd it) (alt, inty)) ->
  forall records : list dict,
    rows_loop ro ao dp sample_names its = Ok records ->
    map (fun d => dict_get d name) records
    = flat_map (fun it => map (f (snd it)) (allele_pairs (snd it))) its.
Proof.
  induction its as [|[l row] its IH]; intros H records; cbn [rows_loop].
  - now intros [= <-].
  - destruct (expand_row ro ao dp sample_names row) as [new_rows|] eqn:E;
      [|discriminate]. cbn [bind].
    destruct (rows_loop ro ao dp sample_names its) as [more|] eqn:M;
      [|discriminate].
    cbn [bind]. intros [= <-]. cbn [flat_map snd]. rewrite map_app.
    apply expand_row_pairs in E as [E _].
    rewrite (alleles_loop_map ro ao dp row sample_names name (f row)
               (H (l, row) (or_introl eq_refl)) _ _ _ E).
    rewrite (IH (fun it I => H it (or_intror I)) more eq_refl). reflexivity.
Qed.

Lemma rows_loop_identity_ok (ro ao dp : nat) (sample_names : list string)
    (its : list (Z * Series)) (records : list dict) :
  rows_loop ro ao dp sample_names its = Ok records ->
  forall it, In it its ->
    is_ok (series_get (snd it) "#CHROM") = true /\
    is_ok (series_get (snd it) "POS") = true /\
    is_ok (series_get (snd it) "REF") = true.
Proof.
  revert records. induction its as [|[l row] its IH]; intros records;
    cbn [rows_loop]; [intros _ ? []|].
  destruct (expand_row ro ao dp sample_names row) as [new_rows|] eqn:E;
    [|discriminate]. cbn [bind].
  destruct (rows_loop ro ao dp sample_names its) as [more|] eqn:M;
    [|discriminate].
  intros _ it [<-|I]; [|now apply (IH more)]. cbn [snd].
  apply expand_row_pairs in E as [E N].
  destruct (allele_pairs row) as [|[alt inty] pairs]; [congruence|].
  cbn [alleles_loop] in E.
  destruct (allele_row ro ao dp row sample_names 0 alt inty) as [d|] eqn:A;
    [|discriminate].
  apply allele_row_identity in A as (c & p & r & -> & -> & -> & _).
  now repeat split.
Qed.

Lemma map_flat_map_list {A B C : Type} (g : B -> C) (h : A -> list B)
    (l : list A) :
  map g (flat_map h l) = flat_map (fun x => map g (h x)) l.
Proof.
  induction l as [|x l IH]; cbn [flat_map map]; [reflexivity|].
  now rewrite map_app, IH.
Qed.

Lemma map_snd_number_from (i : Z) (l : list (list cell)) :
  map snd (number_from i l) = l.
Proof.
  revert i; induction l as [|x l IH]; intros i; cbn [number_from map snd];
    [reflexivity|]. now rewrite IH.
Qed.

Lemma get_column_from_records (records : list dict) (k : string) :
  In k (columns (from_records records)) ->
  get_column (from_records records) k
  = Ok (map (fun d => match dict_get d k with
                      | Some c => c
                      | None => CFloat NaN
                      end) records).
Proof.
  intros I. unfold get_column.
  destruct (index_of_In _ _ I) as [p P]. rewrite P. f_equal.
  pose proof (index_of_Some _ _ _ P) as N.
  unfold from_records in *. cbn [rows columns] in *.
  rewrite <- (map_map snd (fun cells => nth p cells CNone)), map_snd_number_from.
  rewrite map_map. apply map_ext. intros d.
  apply nth_error_nth. now rewrite nth_error_map, N.
Qed.

Lemma column_of_records (records : list dict) (name : string) (X : list cell) :
  records <> [] ->
  map (fun d => dict_get d name) records = map Some X ->
  get_column (from_records records) name = Ok X.
Proof.
  intros N E. rewrite get_column_from_records.
  - f_equal.
    rewrite <- (map_map (fun d => dict_get d name)
                        (fun o => match o with
                                  | Some c => c
                                  | None => CFloat NaN
                                  end)), E, map_map.
    apply map_id.
  - destruct records as [|d ds]; [congruence|].
    destruct X as [|c X]; [discriminate|]. cbn [map] in E. injection E as E _.
    apply (union_keys_record _ _ d); [now left|].
    now apply (dict_get_keys _ _ c).
Qed.

Lemma identity_column_repeat (cols : list string) (p0 : nat)
    (rs : list (Z * list cell)) :
  flat_map (fun it => map (fun _ : string * string =>
                             nth p0 (s_values (snd it)) CNone)
                          (allele_pairs (snd it)))
           (map (fun r => (fst r, mkSeries cols (snd r))) rs)
  = flat_map (fun cn => repeat (fst cn) (snd cn))
      (combine (map (fun r => nth p0 (snd r) CNone) rs)
               (map (fun it => List.length (allele_pairs (snd it)))
                    (map (fun r => (fst r, mkSeries cols (snd r))) rs))).
Proof.
  induction rs as [|r rs IH]; [reflexivity|].
  cbn [map combine flat_map fst snd s_values]. now rewrite map_const, IH.
Qed.

Lemma expanded_rows_inv (df_vcf : DataFrame) (records : list dict) :
  expanded_rows df_vcf = Ok records ->
  exists (format_value : string) (ro ao dp : nat),
    format_example_of df_vcf = Ok (CStr format_value) /\
    find_index format_value "RO" = Some ro /\
    find_index format_value "AO" = Some ao /\
    find_index format_value "DP" = Some dp /\
    rows_loop ro ao dp (skipn 9 (columns df_vcf)) (iterrows df_vcf) = Ok records /\
    rows df_vcf <> [] /\ records <> [].
Proof.
  unfold expanded_rows. intros R.
  destruct (format_example_of df_vcf) as [c|] eqn:F; [|discriminate].
  cbn [bind] in R. destruct c as [fmt| | |]; try discriminate.
  cbn [bind as_str] in R.
  destruct (find_index fmt "RO") as [ro|] eqn:RO; [|discriminate].
  destruct (find_index fmt "AO") as [ao|] eqn:AO; [|discriminate].
  destruct (find_index fmt "DP") as [dp|] eqn:DP; [|discriminate].
  exists fmt, ro, ao, dp. split; [reflexivity|].
  repeat (split; [assumption|]).
  assert (N : rows df_vcf <> []).
  { unfold format_example_of, get_column in F.
    destruct (Py.index_of (columns df_vcf) "FORMAT"); [|discriminate].
    cbn [bind] in F. now destruct (rows df_vcf). }
  split; [exact N|].
  apply (rows_loop_nonempty _ _ _ _ _ _ R). unfold iterrows.
  now destruct (rows df_vcf).
Qed.

(** X8. The identifying columns of the table the expander returns, in
    row order: [ALT] holds the alternates of the input rows one by one and
    [INFO_TYPE] the type paired with each, and [#CHROM], [POS] and [REF]
    hold the input column with each value repeated once per pair of that
    input row. *)
Theorem expand_identifying_columns (df_vcf out : DataFrame) :
  expand_multiallelic_variants df_vcf = Ok out ->
  get_column out "ALT"
  = Ok (flat_map (fun it => map (fun p => CStr (fst p)) (allele_pairs (snd it)))
                 (iterrows df_vcf)) /\
  get_column out "INFO_TYPE"
  = Ok (flat_map (fun it => map (fun p => CStr (snd p)) (allele_pairs (snd it)))
                 (iterrows df_vcf)) /\
  forall name : string,
    In name ["#CHROM"; "POS"; "REF"] ->
    exists col : list cell,
      get_column df_vcf name = Ok col /\
      get_column out name
      = Ok (flat_map (fun cn => repeat (fst cn) (snd cn))
              (combine col
                 (map (fun it => List.length (allele_pairs (snd it)))
                      (iterrows df_vcf)))).
Proof.
  unfold expand_multiallelic_variants. intros E.
  destruct (expanded_rows df_vcf) as [records|] eqn:R; [|discriminate].
  cbn [bind] in E. injection E as <-.
  apply expanded_rows_inv in R
    as (fmt & ro & ao & dp & _ & _ & _ & _ & R & NR & N).
  set (names := skipn 9 (columns df_vcf)) in *.
  split; [|split].
  - apply column_of_records; [exact N|].
    assert (H : forall it, In it (iterrows df_vcf) ->
              forall i alt inty d,
                allele_row ro ao dp (snd it) names i alt inty = Ok d ->
                dict_get d "ALT"
                = (fun (_ : Series) p => Some (CStr (fst p))) (snd it) (alt, inty)).
    { intros it _ i alt inty d A.
      now apply allele_row_identity in A
        as (_ & _ & _ & _ & _ & _ & _ & _ & _ & A & _). }
    rewrite (rows_loop_map ro ao dp names "ALT" _ (iterrows df_vcf) H records R).
    rewrite map_flat_map_list. apply flat_map_ext. intros it.
    now rewrite map_map.
  - apply column_of_records; [exact N|].
    assert (H : forall it, In it (iterrows df_vcf) ->
              forall i alt inty d,
                allele_row ro ao dp (snd it) names i alt inty = Ok d ->
                dict_get d "INFO_TYPE"
                = (fun (_ : Series) p => Some (CStr (snd p))) (snd it) (alt, inty)).
    { intros it _ i alt inty d A.
      now apply allele_row_identity in A
        as (_ & _ & _ & _ & _ & _ & _ & _ & _ & _ & A). }
    rewrite (rows_loop_map ro ao dp names "INFO_TYPE" _ (iterrows df_vcf) H
               records R).
    rewrite map_flat_map_list. apply flat_map_ext. intros it.
    now rewrite map_map.
  - intros name I.
    pose proof (rows_loop_identity_ok _ _ _ _ _ _ R) as OKS.
    assert (P : exists p0, Py.index_of (columns df_vcf) name = Some p0).
    { unfold iterrows in OKS. destruct (rows df_vcf) as [|r rs]; [congruence|].
      specialize (OKS _ (or_introl eq_refl)). cbn [snd] in OKS.
      unfold series_get in OKS. cbn [s_index] in OKS.
      destruct OKS as (O1 & O2 & O3).
      destruct I as [<-|[<-|[<-|[]]]];
        match goal with
        | |- exists _, ?x = _ => destruct x as [p0|]; [now exists p0|]
        end; discriminate. }
    destruct P as [p0 P]. unfold get_column at 1. rewrite P.
    eexists. split; [reflexivity|].
    unfold iterrows. rewrite <- identity_column_repeat.
    apply column_of_records; [exact N|].
    assert (H : forall it, In it (iterrows df_vcf) ->
              forall i alt inty d,
                allele_row ro ao dp (snd it) names i alt inty = Ok d ->
                dict_get d name
                = (fun (row : Series) (_ : string * string) =>
                     Some (nth p0 (s_values row) CNone)) (snd it) (alt, inty)).
    { intros it J i alt inty d A.
      apply allele_row_identity in A
        as (c & p & r & A1 & A2 & A3 & B1 & B2 & B3 & _).
      unfold iterrows in J. apply in_map_iff in J as (r0 & <- & _).
      cbn [snd s_values] in *. unfold series_get in A1, A2, A3.
      cbn [s_index s_values] in A1, A2, A3.
      destruct I as [<-|[<-|[<-|[]]]]; rewrite P in *.
      * destruct (nth_error (snd r0) p0) as [x|] eqn:X; [|discriminate].
        injection A1 as <-. now rewrite (nth_error_nth _ _ _ X).
      * destruct (nth_error (snd r0) p0) as [x|] eqn:X; [|discriminate].
        injection A2 as <-. now rewrite (nth_error_nth _ _ _ X).
      * destruct (nth_error (snd r0) p0) as [x|] eqn:X; [|discriminate].
        injection A3 as <-. now rewrite (nth_error_nth _ _ _ X). }
    rewrite (rows_loop_map ro ao dp names name _ (iterrows df_vcf) H records R).
    unfold iterrows. rewrite map_flat_map_list. apply flat_map_ext. intros it.
    now rewrite map_map.
Qed.

Lemma expand_identifying_columns_witness :
  exists out : DataFrame,
    expand_multiallelic_variants misaligned_types = Ok out /\
    get_column out "ALT" = Ok [CStr "A"; CStr "T"; CStr "G"] /\
    get_column out "INFO_TYPE" = Ok [CStr "snp"; CStr "ins"; CStr "snp"] /\
    get_column misaligned_types "POS" = Ok [CInt 100; CInt 200] /\
    get_column out "POS" = Ok [CInt 100; CInt 100; CInt 200].
Proof.
  destruct (expand_multiallelic_variants misaligned_types) as [out|] eqn:E;
    [|discriminate E].
  exists out. split; [reflexivity|].
  pose proof (expand_identifying_columns misaligned_types out E) as (A & B & C).
  split; [exact A|]. split; [exact B|]. split; [reflexivity|].
  destruct (C "POS" (or_intror (or_introl eq_refl))) as (col & G & H).
  vm_compute in G. injection G as <-. exact H.
Defined.

(** ** The expander: where each row of the result comes from *)

Lemma alleles_loop_origin (ro ao dp : nat) (row : Series)
    (sample_names : list string) (pairs : list (string * string)) :
  forall (first : nat) (records : list dict),
    alleles_loop ro ao dp row sample_names first pairs = Ok records ->
    forall d, In d records ->
      exists (i : nat) (alt inty : string),
        first <= i /\
        nth_error pairs (i - first) = Some (alt, inty) /\
        allele_row ro ao dp row sample_names i alt inty = Ok d.
Proof.
  induction pairs as [|[alt inty] pairs IH]; intros first records;
    cbn [alleles_loop].
  - intros [= <-] d [].
  - destruct (allele_row ro ao dp row sample_names first alt inty) as [d0|] eqn:A;
      [|discriminate]. cbn [bind].
    destruct (alleles_loop ro ao dp row sample_names (S first) pairs) as [m|] eqn:M;
      [|discriminate].
    cbn [bind]. intros [= <-] d [<-|I].
    + exists first, alt, inty. rewrite Nat.sub_diag. now repeat split.
    + destruct (IH _ _ M d I) as (i & a & t & L & N & R).
      exists i, a, t. split; [lia|]. split; [|exact R].
      replace (i - first) with (S (i - S first)) by lia. exact N.
Qed.

Lemma rows_loop_origin (ro ao dp : nat) (sample_names : list string)
    (its : list (Z * Series)) (records : list dict) :
  rows_loop ro ao dp sample_names its = Ok records ->
  forall d, In d records ->
    exists (l : Z) (row : Series) (i : nat) (alt inty : string),
      In (l, row) its /\
      nth_error (allele_pairs row) i = Some (alt, inty) /\
      allele_row ro ao dp row sample_names i alt inty = Ok d.
Proof.
  revert records. induction its as [|[l row] its IH]; intros records;
    cbn [rows_loop].
  - intros [= <-] d [].
  - destruct (expand_row ro ao dp sample_names row) as [new_rows|] eqn:E;
      [|discriminate]. cbn [bind].
    destruct (rows_loop ro ao dp sample_names its) as [more|] eqn:M;
      [|discriminate].
    cbn [bind]. intros [= <-] d I. apply in_app_or in I as [I|I].
    + apply expand_row_pairs in E as [E _].
      destruct (alleles_loop_origin _ _ _ _ _ _ _ _ E d I)
        as (i & a & t & _ & N & R).
      rewrite Nat.sub_0_r in N. exists l, row, i, a, t.
      split; [now left|]. now split.
    + destruct (IH more eq_refl d I) as (l' & row' & i & a & t & J & N & R).
      exists l', row', i, a, t. split; [now right|]. now split.
Qed.

Lemma allele_row_counts (ro ao dp : nat) (row : Series)
    (sample_names : list string) (i : nat) (alt inty : string) (d : dict) :
  allele_row ro ao dp row sample_names i alt inty = Ok d ->
  forall sample, In sample sample_names ->
                 record_counts ro ao dp i row d sample.
Proof.
  unfold allele_row. intros E.
  destruct (series_get row "#CHROM"); [|discriminate].
  destruct (series_get row "POS"); [|discriminate].
  destruct (series_get row "REF"); [|discriminate].
  cbn [bind] in E. now apply samples_loop_counts in E as [_ E].
Qed.

(** X9. Every row of the table the expander returns is the row of one
    alternate of one input row: it carries that row's chromosome, position
    and reference, the alternate and the type paired with it, and for every
    sample the counts read, at the positions the first row's
    format-descriptor gives, for that same alternate. *)
Theorem expand_row_origin (df_vcf out : DataFrame) (r : Z * list cell) :
  expand_multiallelic_variants df_vcf = Ok out ->
  In r (rows out) ->
  expanded_from df_vcf out r.
Proof.
  unfold expand_multiallelic_variants. intros E I.
  destruct (expanded_rows df_vcf) as [records|] eqn:R; [|discriminate].
  cbn [bind] in E. injection E as <-.
  apply expanded_rows_inv in R
    as (fmt & ro & ao & dp & F & RO & AO & DP & R & _ & _).
  apply from_records_row in I as (d & I & G).
  destruct (rows_loop_origin _ _ _ _ _ _ R d I)
    as (l & row & i & alt & inty & J & N & A).
  destruct (allele_row_identity _ _ _ _ _ _ _ _ _ A)
    as (chrom & pos & ref & S1 & S2 & S3 & D1 & D2 & D3 & D4 & D5).
  exists fmt, ro, ao, dp, l, row, i, alt, inty, chrom, pos, ref.
  repeat (split; [assumption|]).
  repeat (split; [now apply G|]).
  intros sample S.
  destruct (allele_row_counts _ _ _ _ _ _ _ _ _ A sample S)
    as (x & y & z & C & G1 & G2 & G3).
  exists x, y, z. split; [exact C|]. repeat split; now apply G.
Qed.

Lemma expand_row_origin_witness :
  exists out : DataFrame,
    expand_multiallelic_variants six_alternates = Ok out /\
    In (4%Z, [CStr "CM000429"; CInt 300; CStr "G"; CStr "CT"; CStr "ins";
              CInt 1; CInt 10; CInt 2; CInt 7; CInt 7; CInt 0]) (rows out) /\
    expanded_from six_alternates out
      (4%Z, [CStr "CM000429"; CInt 300; CStr "G"; CStr "CT"; CStr "ins";
             CInt 1; CInt 10; CInt 2; CInt 7; CInt 7; CInt 0]).
Proof.
  destruct (expand_multiallelic_variants six_alternates) as [out|] eqn:E;
    [|discriminate E].
  exists out.
  pose proof (expand_row_origin six_alternates out
                (4%Z, [CStr "CM000429"; CInt 300; CStr "G"; CStr "CT"; CStr "ins";
                       CInt 1; CInt 10; CInt 2; CInt 7; CInt 7; CInt 0]) E) as L.
  vm_compute in E. injection E as <-.
  split; [reflexivity|].
  split; [cbn [rows]; do 4 right; left; reflexivity|].
  apply L. cbn [rows]. do 4 right. left. reflexivity.
Defined.

(** ** The loader: the header line *)

Lemma find_header_first (pre post : list string) (line : string) :
  forallb (fun l => negb (Py.startswith l "#CHROM")) pre = true ->
  Py.startswith line "#CHROM" = true ->
  find_header (pre ++ line :: post) = Some (Py.split (Py.strip line) tab).
Proof.
  intros P L. induction pre as [|l pre IH]; cbn [app find_header].
  - now rewrite L.
  - cbn [forallb] in P. apply andb_true_iff in P as [P1 P2].
    apply negb_true_iff in P1. rewrite P1. now apply IH.
Qed.

Lemma concat_cons (sep x : string) (l : list string) :
  l <> [] -> String.concat sep (x :: l) = (x ++ sep ++ String.concat sep l)%string.
Proof. destruct l; [congruence|reflexivity]. Qed.

Lemma split_char_concat (c : ascii) (s : string) :
  String.concat (String c EmptyString) (Py.split s (String c EmptyString)) = s.
Proof.
  unfold Py.split. induction s as [|a s IH]; [reflexivity|].
  cbn [Py.split_go Py.startswith String.length Nat.sub].
  pose proof (split_go_nonempty (String c EmptyString) s 0) as N.
  destruct (Ascii.eqb c a) eqn:E; cbn [andb].
  - apply Ascii.eqb_eq in E as <-.
    rewrite (concat_cons _ _ _ N), IH. reflexivity.
  - destruct (Py.split_go (String c EmptyString) s 0) as [|piece pieces] eqn:G;
      [congruence|].
    destruct pieces as [|q pieces].
    + cbn [String.concat] in *. now rewrite IH.
    + rewrite concat_cons in * by discriminate. cbn [append] in *.
      now rewrite IH.
Qed.

Lemma split_char_pieces (c : ascii) (s : string) :
  Forall (fun piece => Py.contains (String c EmptyString) piece = false)
         (Py.split s (String c EmptyString)).
Proof.
  unfold Py.split. induction s as [|a s IH]; [now repeat constructor|].
  cbn [Py.split_go Py.startswith String.length Nat.sub].
  pose proof (split_go_nonempty (String c EmptyString) s 0) as N.
  destruct (Ascii.eqb c a) eqn:E; cbn [andb].
  - constructor; [reflexivity|exact IH].
  - destruct (Py.split_go (String c EmptyString) s 0) as [|piece pieces];
      [congruence|].
    inversion IH as [|? ? H1 H2]; subst. constructor; [|exact H2].
    unfold Py.contains in *. cbn [Py.find_from Py.startswith].
    rewrite E. cbn [andb]. now destruct (Py.find_from piece (String c EmptyString)).
Qed.

(** X10. [read_vcf] takes the column names from the first line that
    starts with ["#CHROM"], whatever follows it: the names it gives to
    [pd.read_csv] are the pieces between the tabs of that line, stripped
    of its surrounding white space. *)
Theorem read_vcf_first_header
    (read_csv : list string -> list string -> result DataFrame)
    (pre post : list string) (line : string) :
  forallb (fun l => negb (Py.startswith l "#CHROM")) pre = true ->
  Py.startswith line "#CHROM" = true ->
  exists header : list string,
    read_vcf read_csv (pre ++ line :: post)
    = read_csv (pre ++ line :: post) header /\
    String.concat tab header = Py.strip line /\
    Forall (fun name => Py.contains tab name = false) header.
Proof.
  intros P L. exists (Py.split (Py.strip line) tab). split; [|split].
  - unfold read_vcf. now rewrite (find_header_first pre post line P L).
  - apply split_char_concat.
  - apply split_char_pieces.
Qed.

Lemma read_vcf_first_header_witness :
  exists header : list string,
    read_vcf (fun _ names => Ok (mkDataFrame names [])) two_headers
    = Ok (mkDataFrame header []) /\
    String.concat tab header = ("#CHROM" ++ tab ++ "POS" ++ tab ++ "S1")%string /\
    Forall (fun name => Py.contains tab name = false) header.
Proof.
  apply (read_vcf_first_header (fun _ names => Ok (mkDataFrame names []))
           [("##fileformat=VCFv4.2" ++ newline)%string]
           [("CM000429" ++ tab ++ "100" ++ tab ++ "0/1:5" ++ newline)%string;
            ("#CHROM" ++ tab ++ "OTHER" ++ newline)%string]
           ("#CHROM" ++ tab ++ "POS" ++ tab ++ "S1" ++ newline)%string);
    reflexivity.
Defined.

(** ** The annotation extractor: reading an entry back *)

Lemma append_assoc (a b c : string) : ((a ++ b) ++ c = a ++ (b ++ c))%string.
Proof. induction a as [|x a IH]; cbn [append]; [reflexivity|now rewrite IH]. Qed.

Lemma append_empty_r (a : string) : (a ++ "")%string = a.
Proof. induction a as [|x a IH]; cbn [append]; [reflexivity|now rewrite IH]. Qed.

Lemma contains_char_cons (c a : ascii) (s : string) :
  Py.contains (String c EmptyString) (String a s) = false ->
  Ascii.eqb c a = false /\ Py.contains (String c EmptyString) s = false.
Proof.
  unfold Py.contains. cbn [Py.find_from Py.startswith].
  destruct (Ascii.eqb c a); cbn [andb]; [discriminate|].
  now destruct (Py.find_from s (String c "")).
Qed.

Lemma up_to_app (c : ascii) (s t : string) :
  Py.contains (String c EmptyString) s = false ->
  up_to c (s ++ t) = (s ++ up_to c t)%string.
Proof.
  induction s as [|a s IH]; intros C; [reflexivity|].
  apply contains_char_cons in C as [E C]. cbn [append up_to].
  now rewrite E, IH.
Qed.

Lemma split_char_app (c : ascii) (s t : string) :
  Py.contains (String c EmptyString) s = false ->
  Py.split (s ++ String c t) (String c EmptyString)
  = s :: Py.split t (String c EmptyString).
Proof.
  unfold Py.split. induction s as [|a s IH]; intros C.
  - cbn [append Py.split_go Py.startswith String.length Nat.sub].
    now rewrite Ascii.eqb_refl.
  - apply contains_char_cons in C as [E C].
    cbn [append Py.split_go Py.startswith]. rewrite E. cbn [andb].
    now rewrite (IH C).
Qed.

Lemma drop_app_length (pre y : string) (n : nat) :
  Py.drop (String.length pre + n) (pre ++ y) = Py.drop n y.
Proof. induction pre as [|c pre IH]; [reflexivity|exact IH]. Qed.

Lemma find_from_after_prefix (pre x : string) :
  Py.contains "ANN=" pre = false ->
  Py.find_from (pre ++ "ANN=" ++ x) "ANN=" = Some (String.length pre).
Proof.
  unfold Py.contains. induction pre as [|c pre IH]; [reflexivity|].
  change (Py.find_from (String c pre) "ANN=")
    with (if Py.startswith (String c pre) "ANN=" then Some 0
          else option_map S (Py.find_from pre "ANN=")).
  change (Py.find_from ((String c pre) ++ "ANN=" ++ x) "ANN=")
    with (if Py.startswith (String c (pre ++ "ANN=" ++ x)) "ANN=" then Some 0
          else option_map S (Py.find_from (pre ++ "ANN=" ++ x) "ANN=")).
  destruct (Py.startswith (String c pre) "ANN=") eqn:P; [discriminate|].
  destruct (Py.find_from pre "ANN=") eqn:F; [discriminate|]. intros _.
  rewrite (IH eq_refl). cbn [option_map String.length].
  assert (Q : Py.startswith (String c (pre ++ "ANN=" ++ x)) "ANN=" = false).
  { clear IH F. cbn [Py.startswith] in *.
    destruct (Ascii.eqb "A" c); [|reflexivity].
    destruct pre as [|c2 pre]; [reflexivity|]. cbn [append] in *.
    destruct (Ascii.eqb "N" c2); [|reflexivity].
    destruct pre as [|c3 pre]; [reflexivity|]. cbn [append] in *.
    destruct (Ascii.eqb "N" c3); [|reflexivity].
    destruct pre as [|c4 pre]; [reflexivity|]. cbn [append] in *.
    exact P. }
  now rewrite Q.
Qed.

Lemma plain_inv (s : string) :
  plain s = true ->
  Py.contains "|" s = false /\ Py.contains "," s = false /\
  Py.contains ";" s = false.
Proof.
  unfold plain. intros H. apply andb_true_iff in H as [H H3].
  apply andb_true_iff in H as [H1 H2].
  now rewrite negb_true_iff in H1, H2, H3.
Qed.

(** X11. An annotation entry is read back: when the text before the first
    ["ANN="] does not contain it, and the entry that follows starts with
    four sub-fields free of separators (followed by nothing, or by a
    further sub-field, a further entry or a further key), the extractor
    returns these four sub-fields. *)
Theorem extract_first_ann_reads_back (pre tail : string) (a : Ann) :
  Py.contains "ANN=" pre = false ->
  plain (allele a) && plain (type a) && plain (impact a) && plain (gene_id a)
  = true ->
  ends_field tail = true ->
  extract_first_ann (pre ++ "ANN=" ++ ann_text a ++ tail) = Some a.
Proof.
  intros P F T. destruct a as [al ty im ge]. cbn [allele type impact gene_id] in F.
  apply andb_true_iff in F as [F F4]. apply andb_true_iff in F as [F F3].
  apply andb_true_iff in F as [F1 F2].
  apply plain_inv in F1 as (A1 & B1 & C1). apply plain_inv in F2 as (A2 & B2 & C2).
  apply plain_inv in F3 as (A3 & B3 & C3). apply plain_inv in F4 as (A4 & B4 & C4).
  pose proof (find_from_after_prefix pre (ann_text (mkAnn al ty im ge) ++ tail) P)
    as FF.
  rewrite extract_first_ann_entry by (unfold Py.contains; now rewrite FF).
  unfold first_entry, after_first. rewrite FF.
  rewrite drop_app_length. cbn [String.length Py.drop append].
  unfold ann_text. cbn [allele type impact gene_id].
  rewrite !append_assoc. cbn [append].
  assert (U : forall c t, Ascii.eqb c "|" = false ->
                          up_to c (String "|" t) = String "|" (up_to c t)).
  { intros c t E. cbn [up_to]. now rewrite E. }
  rewrite (up_to_app ";" al _ C1), (U ";"%char), (up_to_app ";" ty _ C2), (U ";"%char),
    (up_to_app ";" im _ C3), (U ";"%char), (up_to_app ";" ge _ C4) by reflexivity.
  rewrite (up_to_app "," al _ B1), (U ","%char), (up_to_app "," ty _ B2), (U ","%char),
    (up_to_app "," im _ B3), (U ","%char), (up_to_app "," ge _ B4) by reflexivity.
  rewrite (split_char_app "|" al _ A1), (split_char_app "|" ty _ A2),
    (split_char_app "|" im _ A3).
  assert (G : exists more, Py.split (ge ++ up_to "," (up_to ";" tail)) "|"
                           = ge :: more).
  { destruct tail as [|c tail].
    - exists []. cbn [up_to]. rewrite append_empty_r.
      now apply split_without_sep.
    - cbn [ends_field] in T. cbn [up_to].
      destruct (Ascii.eqb ";" c) eqn:E1.
      + exists []. cbn [up_to]. rewrite append_empty_r.
        now apply split_without_sep.
      + cbn [up_to]. destruct (Ascii.eqb "," c) eqn:E2.
        * exists []. rewrite append_empty_r. now apply split_without_sep.
        * rewrite (eqb_sym c ","), (eqb_sym c ";"), E1, E2, !orb_false_r in T.
          apply Ascii.eqb_eq in T as ->. eexists.
          now apply split_char_app. }
  destruct G as [more ->]. reflexivity.
Qed.

Lemma extract_first_ann_reads_back_witness :
  extract_first_ann
    "DP=5;ANN=A|missense_variant|MODERATE|geneX|tr1|x,T|stop|HIGH|g2;AF=0.5"
  = Some (mkAnn "A" "missense_variant" "MODERATE" "geneX") /\
  extract_first_ann "ANN=T|stop_gained|HIGH|geneY"
  = Some (mkAnn "T" "stop_gained" "HIGH" "geneY").
Proof.
  split.
  - apply (extract_first_ann_reads_back "DP=5;" "|tr1|x,T|stop|HIGH|g2;AF=0.5"
             (mkAnn "A" "missense_variant" "MODERATE" "geneX")); reflexivity.
  - apply (extract_first_ann_reads_back "" ""
             (mkAnn "T" "stop_gained" "HIGH" "geneY")); reflexivity.
Defined.

(** ** The batch annotator: tables it cannot annotate *)

Lemma set_column_const_eq (df : DataFrame) (name : string) (v : cell) :
  set_column_const df name v
  = match Py.index_of (columns df) name with
    | Some p =>
        mkDataFrame (columns df)
          (map (fun r => (fst r, set_nth p v (snd r))) (rows df))
    | None =>
        mkDataFrame (columns df ++ [name])
          (map (fun r => (fst r, snd r ++ [v])) (rows df))
    end.
Proof.
  unfold set_column_const, set_column.
  destruct (Py.index_of (columns df) name) as [p|]; f_equal.
  - apply (map_combine_repeat (fun r v => (fst r, set_nth p v (snd r)))).
  - apply (map_combine_repeat (fun r v => (fst r, snd r ++ [v]))).
Qed.

Lemma set_column_const_length (df : DataFrame) (name : string) (v : cell) :
  List.length (rows (set_column_const df name v)) = List.length (rows df).
Proof.
  rewrite set_column_const_eq.
  destruct (Py.index_of (columns df) name); cbn [rows]; apply length_map.
Qed.

Lemma set_column_const_absent (df : DataFrame) (name col : string) (v : cell) :
  name <> col ->
  Py.index_of (columns df) col = None ->
  Py.index_of (columns (set_column_const df name v)) col = None.
Proof.
  intros N A. rewrite set_column_const_eq.
  destruct (Py.index_of (columns df) name); cbn [columns]; [exact A|].
  rewrite (index_of_app_r _ _ _ A). cbn [Py.index_of].
  destruct (String.eqb_spec name col); [contradiction|reflexivity].
Qed.

Lemma set_column_const_keeps (df : DataFrame) (name col : string) (v : cell)
    (p : nat) (cs : list cell) :
  name <> col ->
  Py.index_of (columns df) col = Some p ->
  map (fun r => nth_error (snd r) p) (rows df) = map Some cs ->
  Py.index_of (columns (set_column_const df name v)) col = Some p /\
  map (fun r => nth_error (snd r) p) (rows (set_column_const df name v))
  = map Some cs.
Proof.
  intros N P C. rewrite set_column_const_eq.
  destruct (Py.index_of (columns df) name) as [q|] eqn:Q; cbn [columns rows].
  - split; [exact P|]. rewrite <- C, map_map. apply map_ext. intros r.
    cbn [snd]. apply nth_error_set_nth_other. intros ->.
    apply index_of_Some in P. apply index_of_Some in Q. congruence.
  - split; [now apply index_of_app_l|]. rewrite <- C, map_map.
    revert cs C. induction (rows df) as [|r rs IH]; intros cs C; [reflexivity|].
    destruct cs as [|c cs]; [discriminate|]. cbn [map snd] in *.
    injection C as C1 C2. rewrite (IH cs C2). f_equal.
    apply nth_error_app1. apply nth_error_Some. congruence.
Qed.

Lemma ann_loop_type_error (info_column : string) (its : list (Z * Series))
    (cs : list cell) (df : DataFrame) :
  map (fun it => series_get (snd it) info_column) its = map Ok cs ->
  existsb (fun c => negb (is_str c)) cs = true ->
  ann_loop info_column its df = Raise TypeError.
Proof.
  revert cs df. induction its as [|[idx row] its IH]; intros cs df M E;
    destruct cs as [|c cs]; try discriminate.
  cbn [map snd] in M. injection M as M1 M2. cbn [ann_loop]. rewrite M1.
  cbn [bind existsb] in *. destruct c as [s| | |]; try reflexivity.
  cbn [extract_first_ann_cell bind is_str negb orb] in *.
  now apply (IH cs).
Qed.

(** X12. What [add_ann_info_to_df] does with tables it cannot annotate.
    A table without rows is returned without rows, whatever the name of
    the attribute column; with a row and without the attribute column the
    call raises [KeyError]; and when the attribute column holds something
    else than a string in some row (a missing value, say) the call raises
    [TypeError]. *)
Theorem add_ann_info_failures (df : DataFrame) (info_column : string) :
  (rows df = [] ->
   exists df' : DataFrame,
     add_ann_info_to_df df info_column = Ok df' /\ rows df' = [] /\
     forall name, In name ann_columns -> In name (columns df')) /\
  (rows df <> [] -> ~ In info_column (columns df) ->
   ~ In info_column ann_columns ->
   add_ann_info_to_df df info_column = Raise KeyError) /\
  (forall cs : list cell,
     rectangular df = true -> ~ In info_column ann_columns ->
     get_column df info_column = Ok cs ->
     existsb (fun c => negb (is_str c)) cs = true ->
     add_ann_info_to_df df info_column = Raise TypeError).
Proof.
  unfold add_ann_info_to_df.
  set (df1 := set_column_const df "variant_type" CNone).
  set (df2 := set_column_const df1 "impact" CNone).
  set (df3 := set_column_const df2 "gene_id" CNone).
  set (df4 := set_column_const df3 "allele" CNone).
  assert (L : List.length (rows df4) = List.length (rows df)).
  { unfold df4, df3, df2, df1. now rewrite !set_column_const_length. }
  assert (K : forall name v d, In name (columns (set_column_const d name v))).
  { intros name v d. rewrite set_column_const_eq.
    destruct (Py.index_of (columns d) name) as [q|] eqn:Q; cbn [columns].
    - apply index_of_Some in Q. now apply nth_error_In in Q.
    - apply in_or_app. right. now left. }
  assert (M : forall name name' v d,
            In name (columns d) -> In name (columns (set_column_const d name' v))).
  { intros name name' v d I. rewrite set_column_const_eq.
    destruct (Py.index_of (columns d) name'); cbn [columns]; [exact I|].
    apply in_or_app. now left. }
  split; [|split].
  - intros E. exists df4. unfold iterrows.
    destruct (rows df4) as [|r rs] eqn:R4; [|rewrite E in L; discriminate L].
    split; [reflexivity|]. split; [reflexivity|].
    intros name [<-|[<-|[<-|[<-|[]]]]]; unfold df4, df3, df2, df1;
      auto using K, M.
  - intros N I J. unfold iterrows.
    destruct (rows df4) as [|[idx cells] rs] eqn:R4.
    { destruct (rows df); [congruence|discriminate L]. }
    cbn [map ann_loop fst snd]. unfold series_get. cbn [s_index].
    assert (A : Py.index_of (columns df4) info_column = None).
    { unfold df4, df3, df2, df1.
      repeat (apply set_column_const_absent;
              [intros <-; apply J; cbn; tauto|]).
      apply index_of_None. destruct (mem info_column (columns df)) eqn:X;
        [|reflexivity]. apply mem_In in X. contradiction. }
    now rewrite A.
  - intros cs R J G E. unfold get_column in G.
    destruct (Py.index_of (columns df) info_column) as [p|] eqn:P;
      [|discriminate]. injection G as G.
    assert (C : map (fun r => nth_error (snd r) p) (rows df) = map Some cs).
    { rewrite <- G, map_map. unfold rectangular in R.
      rewrite forallb_forall in R. apply map_ext_in. intros r I.
      apply nth_error_nth'. apply R in I. apply Nat.eqb_eq in I. rewrite I.
      apply index_of_Some in P. apply nth_error_Some. congruence. }
    assert (N : forall name, In name ann_columns -> name <> info_column).
    { intros name I <-. contradiction. }
    destruct (set_column_const_keeps df "variant_type" info_column CNone p cs)
      as [P1 C1]; [apply N; cbn; tauto|exact P|exact C|]. fold df1 in P1, C1.
    destruct (set_column_const_keeps df1 "impact" info_column CNone p cs)
      as [P2 C2]; [apply N; cbn; tauto|exact P1|exact C1|]. fold df2 in P2, C2.
    destruct (set_column_const_keeps df2 "gene_id" info_column CNone p cs)
      as [P3 C3]; [apply N; cbn; tauto|exact P2|exact C2|]. fold df3 in P3, C3.
    destruct (set_column_const_keeps df3 "allele" info_column CNone p cs)
      as [P4 C4]; [apply N; cbn; tauto|exact P3|exact C3|]. fold df4 in P4, C4.
    apply (ann_loop_type_error _ _ cs); [|exact E].
    unfold iterrows. rewrite map_map. cbn [snd]. unfold series_get.
    cbn [s_index s_values]. rewrite P4. clear - C4.
    revert cs C4. induction (rows df4) as [|r rs IH]; intros cs C;
      destruct cs as [|c cs]; try discriminate; [reflexivity|].
    cbn [map] in *. injection C as C1 C2. now rewrite C1, (IH cs C2).
Qed.

Lemma add_ann_info_failures_witness :
  (exists df' : DataFrame,
     add_ann_info_to_df no_variants "INFO" = Ok df' /\ rows df' = [] /\
     forall name, In name ann_columns -> In name (columns df')) /\
  add_ann_info_to_df no_info_column "INFO" = Raise KeyError /\
  add_ann_info_to_df missing_info "INFO" = Raise TypeError.
Proof.
  split; [|split].
  - apply (add_ann_info_failures no_variants "INFO"). reflexivity.
  - apply (add_ann_info_failures no_info_column "INFO").
    + discriminate.
    + simpl. intuition discriminate.
    + simpl. intuition discriminate.
  - apply (proj2 (proj2 (add_ann_info_failures missing_info "INFO"))
             [CStr "ANN=A|missense_variant|MODERATE|geneX"; CFloat NaN]).
    + reflexivity.
    + simpl. intuition discriminate.
    + reflexivity.
    + reflexivity.
Defined.

(** ** The batch annotator: annotating twice *)

Lemma set_column_const_annotated (cols : list string)
    (orig : list (Z * list cell)) (q : Z -> cell * cell * cell * cell)
    (name : string) (j : nat) (v : cell) :
  forallb (fun r => List.length (snd r) =? List.length cols) orig = true ->
  Py.index_of cols name = None ->
  Py.index_of ann_columns name = Some j ->
  set_column_const (annotated cols orig q) name v
  = annotated cols orig (fun l => set4 j v (q l)).
Proof.
  intros R N J. rewrite set_column_const_eq. unfold annotated.
  cbn [columns rows].
  rewrite (index_of_app_r cols ann_columns name N), J. cbn [option_map].
  f_equal. rewrite map_map. apply map_ext_in. intros r I. cbn [fst snd].
  rewrite forallb_forall in R. specialize (R r I). apply Nat.eqb_eq in R.
  now rewrite <- R, set_nth_app_r, cells4_set4.
Qed.

Lemma reset_annotated (cols : list string) (orig : list (Z * list cell))
    (q : Z -> cell * cell * cell * cell) :
  forallb (fun r => List.length (snd r) =? List.length cols) orig = true ->
  forallb (fun name => negb (mem name cols)) ann_columns = true ->
  set_column_const
    (set_column_const
       (set_column_const
          (set_column_const (annotated cols orig q) "variant_type" CNone)
          "impact" CNone)
       "gene_id" CNone)
    "allele" CNone
  = annotated cols orig (fun _ => none4).
Proof.
  intros R H. cbn [forallb ann_columns] in H.
  repeat (apply andb_true_iff in H as [? H]). clear H.
  repeat match goal with
         | H : negb (mem _ _) = true |- _ =>
             apply negb_true_iff in H; apply index_of_None in H
         end.
  rewrite (set_column_const_annotated cols orig q "variant_type" 0) by easy.
  rewrite (set_column_const_annotated cols orig _ "impact" 1) by easy.
  rewrite (set_column_const_annotated cols orig _ "gene_id" 2) by easy.
  rewrite (set_column_const_annotated cols orig _ "allele" 3) by easy.
  apply annotated_ext. intros l. now destruct (q l) as [[[a b] c] d].
Qed.

Lemma add_ann_info_annotated (df : DataFrame) (info_column : string) :
  annotable df info_column = true ->
  forallb (fun r => List.length (snd r) =? List.length (columns df)) (rows df)
  = true /\
  forallb (fun name => negb (mem name (columns df))) ann_columns = true /\
  exists q : Z -> cell * cell * cell * cell,
    ann_loop info_column
      (iterrows (annotated (columns df) (rows df) (fun _ => none4)))
      (annotated (columns df) (rows df) (fun _ => none4))
    = Ok (annotated (columns df) (rows df) q).
Proof.
  unfold annotable. intros H.
  apply andb_true_iff in H as [H S]. apply andb_true_iff in H as [H N].
  apply andb_true_iff in H as [R D]. unfold rectangular in R.
  rewrite forallb_forall in S.
  split; [exact R|]. split; [exact N|]. eexists.
  apply ann_loop_annotated; [exact R|exact N|].
  intros it I. unfold iterrows, annotated in I. cbn [rows columns] in I.
  rewrite map_map in I. apply in_map_iff in I as [r [<- I]]. cbn [fst snd].
  specialize (S r I).
  destruct (series_get (mkSeries (columns df) (snd r)) info_column)
    as [[s| | |]|] eqn:G; try discriminate.
  exists s. now apply series_get_app.
Qed.

(** X13. Annotating twice is annotating once: called on the table it has
    returned, [add_ann_info_to_df] resets the four columns it finds there
    and fills them again, and returns the same table. *)
Theorem add_ann_info_twice (df df' : DataFrame) (info_column : string) :
  annotable df info_column = true ->
  add_ann_info_to_df df info_column = Ok df' ->
  add_ann_info_to_df df' info_column = Ok df'.
Proof.
  intros A E. destruct (add_ann_info_annotated df info_column A)
    as (R & N & q & L).
  unfold add_ann_info_to_df in E. rewrite (new_columns_annotated df N) in E.
  rewrite L in E. injection E as <-.
  unfold add_ann_info_to_df. rewrite (reset_annotated _ _ q R N). exact L.
Qed.

Lemma add_ann_info_twice_witness :
  exists df' : DataFrame,
    add_ann_info_to_df partly_annotated "INFO" = Ok df' /\
    columns df' = ["POS"; "INFO"; "variant_type"; "impact"; "gene_id"; "allele"] /\
    add_ann_info_to_df df' "INFO" = Ok df'.
Proof.
  destruct (add_ann_info_to_df partly_annotated "INFO") as [df'|] eqn:E;
    [|discriminate E].
  exists df'. split; [reflexivity|].
  pose proof (add_ann_info_twice partly_annotated df' "INFO" eq_refl E) as L.
  vm_compute in E. injection E as <-. split; [reflexivity|exact L].
Defined.

(** ** The frequency calculator: the table it returns *)

Lemma map_fst_combine {A B : Type} (l : list A) (l' : list B) :
  List.length l <= List.length l' -> map fst (combine l l') = l.
Proof.
  revert l'; induction l as [|x l IH]; intros [|y l'] H; cbn in *;
    try reflexivity; try lia.
  now rewrite IH by lia.
Qed.

Lemma map_snd_combine {A B : Type} (l : list A) (l' : list B) :
  List.length l' <= List.length l -> map snd (combine l l') = l'.
Proof.
  revert l'; induction l as [|x l IH]; intros [|y l'] H; cbn in *;
    try reflexivity; try lia.
  now rewrite IH by lia.
Qed.

Lemma length_get_column (df : DataFrame) (name : string) (col : list cell) :
  get_column df name = Ok col -> List.length col = List.length (rows df).
Proof.
  unfold get_column. destruct (Py.index_of (columns df) name); [|discriminate].
  intros [= <-]. apply length_map.
Qed.

Lemma length_series_truediv (a b r : list cell) :
  series_truediv a b = Ok r ->
  List.length r = Nat.min (List.length a) (List.length b).
Proof.
  revert b r; induction a as [|x a IH]; intros b r; [now intros [= <-]|].
  destruct b as [|y b].
  - destruct x; now intros [= <-].
  - destruct x; try discriminate. destruct y; try discriminate.
    cbn [series_truediv].
    destruct (series_truediv a b) as [rest|] eqn:E; [|discriminate].
    cbn [bind]. intros [= <-]. cbn [List.length]. now rewrite (IH b rest E).
Qed.

Lemma framed_length (df df_af : DataFrame) :
  framed df df_af -> List.length (rows df_af) = List.length (rows df).
Proof.
  intros [L _]. now rewrite <- (length_map fst), L, length_map.
Qed.

Lemma select_columns_spec (df : DataFrame) (names : list string) :
  forall out : DataFrame,
    select_columns df names = Ok out ->
    columns out = names /\ framed df out /\
    forall name, In name names -> get_column out name = get_column df name.
Proof.
  induction names as [|n ns IH]; intros out; cbn [select_columns].
  - intros [= <-]. unfold framed. cbn [columns rows].
    split; [reflexivity|]. split.
    + split; [now rewrite map_map|]. intros r I.
      apply in_map_iff in I as (r0 & <- & _). reflexivity.
    + intros name [].
  - destruct (get_column df n) as [col|] eqn:G; [|discriminate]. cbn [bind].
    destruct (select_columns df ns) as [rest|] eqn:S; [|discriminate].
    cbn [bind]. intros [= <-]. unfold framed at 1. cbn [columns rows].
    destruct (IH rest eq_refl) as (C & F & K).
    pose proof (framed_length _ _ F) as LR.
    pose proof (length_get_column _ _ _ G) as LC.
    split; [now rewrite C|]. split; [split|].
    + rewrite map_map. cbn [fst].
      rewrite <- (map_map snd fst), map_snd_combine by lia. apply F.
    + intros r I. apply in_map_iff in I as ([c r0] & <- & I).
      apply in_combine_r in I. cbn [fst snd List.length].
      now rewrite (proj2 F r0 I).
    + intros name I. unfold get_column at 1. cbn [columns rows Py.index_of].
      destruct (String.eqb_spec n name) as [->|N].
      * rewrite map_map. cbn [snd nth].
        rewrite <- (map_map fst (fun c => c)), map_fst_combine by lia.
        now rewrite map_id.
      * destruct I as [I|I]; [contradiction|].
        rewrite <- (K name I). unfold get_column.
        destruct (Py.index_of (columns rest) name) as [p|]; [|reflexivity].
        cbn [option_map]. f_equal. rewrite map_map. cbn [snd nth].
        rewrite <- (map_map snd (fun r => nth p (snd r) CNone)).
        now rewrite map_snd_combine by lia.
Qed.

Lemma set_column_new (df df_af : DataFrame) (name : string) (values : list cell) :
  framed df df_af ->
  ~ In name (columns df_af) ->
  List.length values = List.length (rows df) ->
  columns (set_column df_af name values) = columns df_af ++ [name] /\
  framed df (set_column df_af name values) /\
  get_column (set_column df_af name values) name = Ok values /\
  forall other, In other (columns df_af) ->
    get_column (set_column df_af name values) other = get_column df_af other.
Proof.
  intros F N L. pose proof (framed_length _ _ F) as LR.
  assert (A : Py.index_of (columns df_af) name = None).
  { apply index_of_None. destruct (mem name (columns df_af)) eqn:M;
      [|reflexivity]. apply mem_In in M. contradiction. }
  unfold set_column. rewrite A. unfold framed at 1. cbn [columns rows].
  split; [reflexivity|]. split; [split|split].
  - rewrite map_map. cbn [fst].
    rewrite <- (map_map fst fst), map_fst_combine by lia. apply F.
  - intros r I. apply in_map_iff in I as ([r0 v] & <- & I).
    apply in_combine_l in I. cbn [fst snd].
    rewrite !length_app, (proj2 F r0 I). reflexivity.
  - unfold get_column. cbn [columns rows].
    rewrite (index_of_app_r _ _ _ A). cbn [Py.index_of].
    rewrite String.eqb_refl. cbn [option_map]. f_equal.
    rewrite map_map. cbn [snd].
    rewrite <- (map_snd_combine (rows df_af) values) at 2 by lia.
    apply map_ext_in. intros [r0 v] I. apply in_combine_l in I. cbn [fst snd].
    rewrite Nat.add_0_r, <- (proj2 F r0 I), nth_middle. reflexivity.
  - intros other I. unfold get_column. cbn [columns rows].
    destruct (index_of_In _ _ I) as [p P].
    rewrite (index_of_app_l _ _ _ _ P), P. f_equal.
    rewrite map_map. cbn [snd].
    rewrite <- (map_fst_combine (rows df_af) values) at 2 by lia.
    rewrite map_map. apply map_ext_in. intros [r0 v] J.
    apply in_combine_l in J. cbn [fst snd]. apply app_nth1.
    rewrite (proj2 F r0 J). apply nth_error_Some.
    apply index_of_Some in P. congruence.
Qed.

Lemma frequencies_loop_spec (df : DataFrame) (samples : list string) :
  forall df_af out : DataFrame,
    frequencies_loop df samples df_af = Ok out ->
    framed df df_af ->
    NoDup samples ->
    (forall s, In s samples -> ~ In ("AF_" ++ s)%string (columns df_af)) ->
    columns out = columns df_af ++ map (fun s => ("AF_" ++ s)%string) samples /\
    framed df out /\
    (forall name, In name (columns df_af) ->
                  get_column out name = get_column df_af name) /\
    (forall s, In s samples ->
       exists ao dp af : list cell,
         get_column df ("AO_" ++ s) = Ok ao /\
         get_column df ("DP_" ++ s) = Ok dp /\
         series_truediv ao dp = Ok af /\
         get_column out ("AF_" ++ s) = Ok af).
Proof.
  induction samples as [|s rest IH]; intros df_af out; cbn [frequencies_loop].
  - intros [= <-] F _ _. rewrite app_nil_r. repeat split; try apply F.
    intros s [].
  - destruct (get_column df ("AO_" ++ s)) as [ao|] eqn:A; [|discriminate].
    destruct (get_column df ("DP_" ++ s)) as [dp|] eqn:D; [|discriminate].
    cbn [bind].
    destruct (series_truediv ao dp) as [af|] eqn:T; [|discriminate].
    cbn [bind]. intros E F N FR.
    assert (L : List.length af = List.length (rows df)).
    { rewrite (length_series_truediv _ _ _ T),
        (length_get_column _ _ _ A), (length_get_column _ _ _ D).
      apply Nat.min_id. }
    destruct (set_column_new df df_af ("AF_" ++ s) af F
                (FR s (or_introl eq_refl)) L) as (C1 & F1 & G1 & K1).
    inversion N as [|? ? N1 N2]; subst.
    destruct (IH _ out E F1 N2) as (C & FO & K & V).
    { intros s' I J. rewrite C1 in J. apply in_app_or in J as [J|[J|[]]].
      - now apply (FR s' (or_intror I)).
      - injection J as <-. contradiction. }
    split; [|split; [exact FO|split]].
    + rewrite C, C1, <- app_assoc. reflexivity.
    + intros name I. rewrite K; [now apply K1|].
      rewrite C1. apply in_or_app. now left.
    + intros s' [<-|I]; [|now apply V].
      exists ao, dp, af. repeat (split; [assumption|]).
      rewrite K; [exact G1|]. rewrite C1. apply in_or_app. right. now left.
Qed.

(** X14. The table [compute_frequencies] returns, when the names it
    takes for the samples are distinct: the four site columns, unchanged,
    followed by one column [AF_s] per sample [s], which holds the quotient
    of the columns [AO_s] and [DP_s] row by row; the rows keep their
    labels and their order. *)
Theorem compute_frequencies_table (df_counts out : DataFrame) :
  compute_frequencies df_counts = Ok out ->
  NoDup (frequency_samples df_counts) ->
  columns out
  = site_columns ++ map (fun s => ("AF_" ++ s)%string)
                        (frequency_samples df_counts) /\
  map fst (rows out) = map fst (rows df_counts) /\
  (forall name, In name site_columns ->
                get_column out name = get_column df_counts name) /\
  (forall s, In s (frequency_samples df_counts) ->
     exists ao dp af : list cell,
       get_column df_counts ("AO_" ++ s) = Ok ao /\
       get_column df_counts ("DP_" ++ s) = Ok dp /\
       series_truediv ao dp = Ok af /\
       get_column out ("AF_" ++ s) = Ok af).
Proof.
  unfold compute_frequencies. fold (frequency_samples df_counts).
  fold site_columns. intros E N.
  destruct (select_columns df_counts site_columns) as [df_af|] eqn:S;
    [|discriminate].
  cbn [bind] in E. apply select_columns_spec in S as (C0 & F0 & K0).
  destruct (frequencies_loop_spec _ _ _ _ E F0 N) as (C & F & K & V).
  { intros s _ J. rewrite C0 in J.
    repeat (destruct J as [J|J]; [discriminate|]). exact J. }
  rewrite C0 in *. split; [exact C|]. split; [apply F|]. split; [|exact V].
  intros name I. rewrite (K name I). now apply K0.
Qed.

Lemma compute_frequencies_table_witness :
  exists out : DataFrame,
    compute_frequencies two_sample_counts = Ok out /\
    columns out = ["#CHROM"; "POS"; "REF"; "ALT"; "AF_M4"; "AF_C1"] /\
    map fst (rows out) = [0%Z; 1%Z] /\
    get_column out "POS" = Ok [CInt 100; CInt 200] /\
    get_column out "AF_C1" = Ok [CFloat (Finite (Qmake 1 8)); CFloat NaN].
Proof.
  destruct (compute_frequencies two_sample_counts) as [out|] eqn:E;
    [|discriminate E].
  exists out. split; [reflexivity|].
  assert (N : NoDup (frequency_samples two_sample_counts)).
  { vm_compute. repeat constructor; simpl; intuition discriminate. }
  destruct (compute_frequencies_table two_sample_counts out E N)
    as (C & L & K & V).
  split; [exact C|]. split; [exact L|]. split.
  - rewrite (K "POS"); [reflexivity|]. right. left. reflexivity.
  - destruct (V "C1") as (ao & dp & af & A & D & T & G).
    { right. left. reflexivity. }
    vm_compute in A. injection A as <-. vm_compute in D. injection D as <-.
    vm_compute in T. injection T as <-. exact G.
Defined.

(** ** From the variant-call table to the frequencies *)











(** ** The frequency calculator: missing columns *)







(** ** The frequency calculator: one frequency *)




(** ** The expander: where the types are read *)

Lemma split_go_skip (sep s : string) (n : nat) :
  Py.split_go sep s n = Py.split_go sep (Py.drop n s) 0.
Proof.
  revert n; induction s as [|c s IH]; intros [|n]; try reflexivity.
  cbn [Py.split_go Py.drop]. apply IH.
Qed.

Lemma split_first (a : ascii) (p s : string) (k : nat) :
  Py.find_from s (String a p) = Some k ->
  Py.split s (String a p)
  = Py.take k s :: Py.split (Py.drop (k + String.length (String a p)) s)
                            (String a p).
Proof.
  unfold Py.split. revert k; induction s as [|c s IH]; intros k.
  - discriminate.
  - cbn [Py.find_from Py.split_go].
    destruct (Py.startswith (String c s) (String a p)) eqn:W.
    + intros [= <-]. cbn [Py.take String.length Nat.add Nat.sub Py.drop].
      rewrite Nat.sub_0_r. f_equal. apply split_go_skip.
    + destruct (Py.find_from s (String a p)) as [j|] eqn:F; [|discriminate].
      cbn [option_map]. intros [= <-]. rewrite (IH j eq_refl).
      reflexivity.
Qed.

Lemma split_head (a : ascii) (p s : string) :
  nth_error (Py.split s (String a p)) 0 = Some (up_to_str (String a p) s).
Proof.
  unfold up_to_str. destruct (Py.find_from s (String a p)) as [j|] eqn:F.
  - now rewrite (split_first a p s j F).
  - rewrite split_without_sep; [reflexivity|]. unfold Py.contains.
    now rewrite F.
Qed.

Lemma split_second (a : ascii) (p s : string) :
  Py.contains (String a p) s = true ->
  list_item (Py.split s (String a p)) 1
  = Ok (up_to_str (String a p) (after_first (String a p) s)).
Proof.
  unfold Py.contains, after_first, list_item.
  destruct (Py.find_from s (String a p)) as [k|] eqn:F; [|discriminate].
  intros _. rewrite (split_first a p s k F).
  assert (T : forall (x : string) l, nth_error (x :: l) 1 = nth_error l 0)
    by reflexivity.
  now rewrite T, split_head.
Qed.

(** X18. Where the types of a row are read: after the first occurrence
    of ["TYPE="] in [INFO], wherever it stands (also at the end of a longer
    key), up to the next occurrence of ["TYPE="] and then up to the next
    semicolon; what is left is split at the commas. *)
Theorem info_type_after_first_marker (row : Series) (s : string) :
  series_get row "INFO" = Ok (CStr s) ->
  Py.contains "TYPE=" s = true ->
  info_type_of row
  = Ok (Py.split (up_to ";" (up_to_str "TYPE=" (after_first "TYPE=" s))) ",").
Proof.
  intros G C. unfold info_type_of. rewrite G. cbn [bind as_str].
  rewrite (split_second "T" "YPE=" s C). cbn [bind].
  now rewrite split_char_first.
Qed.

Lemma info_type_after_first_marker_witness :
  series_get structural_variant "INFO" = Ok (CStr "SVTYPE=DEL;TYPE=snp") /\
  after_first "TYPE=" "SVTYPE=DEL;TYPE=snp" = "DEL;TYPE=snp" /\
  info_type_of structural_variant = Ok ["DEL"].
Proof.
  split; [reflexivity|]. split; [reflexivity|].
  apply (info_type_after_first_marker structural_variant "SVTYPE=DEL;TYPE=snp");
    reflexivity.
Defined.

(** ** The expander: the columns it does not read *)

Lemma nth_set_nth_other (p q : nat) (v : cell) (cs : list cell) :
  p <> q -> nth p (set_nth q v cs) CNone = nth p cs CNone.
Proof.
  revert p q; induction cs as [|c cs IH]; intros p q N; [now destruct q|].
  destruct p, q; simpl; try reflexivity; [lia|].
  apply IH. lia.
Qed.

Lemma alleles_loop_agree_on (name : string) (row1 row2 : Series)
    (ro ao dp : nat) (sample_names : list string) (i : nat)
    (pairs : list (string * string)) :
  agree_except name row1 row2 ->
  ~ In name ["#CHROM"; "POS"; "REF"] ->
  mem name sample_names = false ->
  alleles_loop ro ao dp row1 sample_names i pairs
  = alleles_loop ro ao dp row2 sample_names i pairs.
Proof.
  intros A N M. revert i.
  induction pairs as [|[alt inty] rest IH]; intros i; [reflexivity|].
  cbn [alleles_loop]. unfold allele_row.
  rewrite (A "#CHROM"), (A "POS"), (A "REF")
    by (intros <-; apply N; cbn; tauto).
  destruct (series_get row2 "#CHROM"); [|reflexivity].
  destruct (series_get row2 "POS"); [|reflexivity].
  destruct (series_get row2 "REF"); [|reflexivity].
  cbn [bind]. rewrite (samples_loop_agree name row1 row2) by assumption.
  now rewrite IH.
Qed.

Lemma expand_row_agree_on (name : string) (row1 row2 : Series)
    (ro ao dp : nat) (sample_names : list string) :
  agree_except name row1 row2 ->
  ~ In name ["#CHROM"; "POS"; "REF"; "ALT"; "INFO"] ->
  mem name sample_names = false ->
  expand_row ro ao dp sample_names row1 = expand_row ro ao dp sample_names row2.
Proof.
  intros A N M. unfold expand_row, alt_alleles_of, info_type_of.
  rewrite (A "ALT"), (A "INFO") by (intros <-; apply N; cbn; tauto).
  destruct (series_get row2 "ALT") as [c|]; [|reflexivity]. cbn [bind].
  destruct (as_str c); [|reflexivity]. cbn [bind].
  destruct (series_get row2 "INFO") as [c'|]; [|reflexivity]. cbn [bind].
  destruct (as_str c'); [|reflexivity]. cbn [bind].
  destruct (list_item _ 1); [|reflexivity]. cbn [bind].
  apply (alleles_loop_agree_on name); [exact A| |exact M].
  intros I. apply N. cbn in I |- *. tauto.
Qed.

Lemma rows_loop_update_row_on (name : string) (cols : list string)
    (ro ao dp q : nat) (sample_names : list string) (v : cell) (k : nat)
    (rs : list (Z * list cell)) :
  Py.index_of cols name = Some q ->
  ~ In name ["#CHROM"; "POS"; "REF"; "ALT"; "INFO"] ->
  mem name sample_names = false ->
  rows_loop ro ao dp sample_names
    (map (fun r => (fst r, mkSeries cols (snd r))) (update_row k (set_nth q v) rs))
  = rows_loop ro ao dp sample_names
      (map (fun r => (fst r, mkSeries cols (snd r))) rs).
Proof.
  intros Q N M. revert k; induction rs as [|[l cells] rs IH]; intros k.
  - now destruct k.
  - destruct k; cbn [update_row map rows_loop fst snd].
    + rewrite (expand_row_agree_on name (mkSeries cols (set_nth q v cells))
                 (mkSeries cols cells)); [reflexivity| |exact N|exact M].
      now apply series_get_set_nth.
    + now rewrite IH.
Qed.

Lemma column_update_row_other (p q : nat) (v : cell) (k : nat)
    (rs : list (Z * list cell)) :
  p <> q ->
  map (fun r => nth p (snd r) CNone) (update_row k (set_nth q v) rs)
  = map (fun r => nth p (snd r) CNone) rs.
Proof.
  intros N. revert k; induction rs as [|[l cells] rs IH]; intros k.
  - now destruct k.
  - destruct k; cbn [update_row map snd].
    + now rewrite nth_set_nth_other.
    + now rewrite IH.
Qed.

(** X19. The columns the expander does not read.  Replacing, in any row,
    the cell of a column that is neither [#CHROM], [POS], [REF], [ALT],
    [INFO] or [FORMAT] nor a sample column (the identifier, the quality or
    the filter, say) by any value whatsoever changes nothing in the result
    of the call. *)
Theorem expand_ignores_other_columns (df_vcf : DataFrame) (k : nat)
    (name : string) (v : cell) :
  ~ In name ["#CHROM"; "POS"; "REF"; "ALT"; "INFO"; "FORMAT"] ->
  mem name (skipn 9 (columns df_vcf)) = false ->
  expand_multiallelic_variants (with_cell df_vcf k name v)
  = expand_multiallelic_variants df_vcf.
Proof.
  intros N M. unfold with_cell.
  destruct (Py.index_of (columns df_vcf) name) as [q|] eqn:Q; [|reflexivity].
  unfold expand_multiallelic_variants. f_equal.
  unfold expanded_rows, format_example_of, get_column, iterrows.
  cbn [columns rows].
  assert (N5 : ~ In name ["#CHROM"; "POS"; "REF"; "ALT"; "INFO"]).
  { intros I. apply N. cbn in I |- *. tauto. }
  destruct (Py.index_of (columns df_vcf) "FORMAT") as [p|] eqn:P;
    [|reflexivity].
  rewrite column_update_row_other.
  - cbn [bind].
    destruct (list_item (map (fun r => nth p (snd r) CNone) (rows df_vcf)) 0)
      as [c|]; [|reflexivity].
    cbn [bind]. destruct (as_str c) as [fmt|]; [|reflexivity]. cbn [bind].
    destruct (find_index fmt "RO") as [ro|]; [|reflexivity].
    destruct (find_index fmt "AO") as [ao|]; [|reflexivity].
    destruct (find_index fmt "DP") as [dp|]; [|reflexivity].
    now apply (rows_loop_update_row_on name).
  - intros ->. apply index_of_Some in P. apply index_of_Some in Q.
    apply N. cbn. rewrite P in Q. injection Q as <-. tauto.
Qed.

Lemma expand_ignores_other_columns_witness :
  (r <- list_item (iterrows (with_cell six_alternates 1 "QUAL" (CFloat NaN))) 1;;
   series_get (snd r) "QUAL") = Ok (CFloat NaN) /\
  expand_multiallelic_variants (with_cell six_alternates 1 "QUAL" (CFloat NaN))
  = expand_multiallelic_variants six_alternates.
Proof.
  split; [reflexivity|].
  apply (expand_ignores_other_columns six_alternates 1 "QUAL" (CFloat NaN)).
  - simpl. intuition discriminate.
  - reflexivity.
Defined.

(** ** The batch annotator: rows that share a label *)

Lemma fold_ann_step_last (df : DataFrame) (info_column : string)
    (rs : list (Z * list cell)) :
  (forall r, In r rs ->
     entry_annotation info_column
       (mkSeries (columns df ++ ann_columns) (snd r ++ cells4 none4))
     = row_annotation df info_column (snd r)) ->
  forall (q : Z -> cell * cell * cell * cell) (l : Z),
    fold_left (ann_step info_column)
      (map (fun r => (fst r, mkSeries (columns df ++ ann_columns)
                               (snd r ++ cells4 none4))) rs) q l
    = match last_annotation df info_column rs l with
      | Some a => ann4 a
      | None => q l
      end.
Proof.
  induction rs as [|r rs IH]; intros H q l; [reflexivity|].
  cbn [map fold_left last_annotation].
  rewrite IH by (intros r' I; apply H; now right).
  destruct (last_annotation df info_column rs l); [reflexivity|].
  unfold ann_step. cbn [fst snd]. rewrite (H r (or_introl eq_refl)).
  destruct (row_annotation df info_column (snd r));
    [|now destruct (fst r =? l)%Z].
  unfold set_label. cbn beta. rewrite (Z.eqb_sym l (fst r)).
  now destruct (fst r =? l)%Z.
Qed.

(** X20. Rows that share a label.  Whatever the row labels, the call
    appends the four columns, and every row ends with the annotation of
    the last row carrying its label that has one (with [None] four times
    when none has): among rows with the same label an annotation is
    written to all of them, and the last one wins. *)
Theorem add_ann_info_shared_labels (df : DataFrame) (info_column : string) :
  annotable_rows df info_column = true ->
  exists df' : DataFrame,
    add_ann_info_to_df df info_column = Ok df' /\
    columns df' = columns df ++ ann_columns /\
    rows df'
    = map (fun r => (fst r,
                     snd r ++ ann_cells
                       (last_annotation df info_column (rows df) (fst r))))
          (rows df).
Proof.
  unfold annotable_rows. intros H.
  apply andb_true_iff in H as [H S]. apply andb_true_iff in H as [R N].
  unfold rectangular in R. rewrite forallb_forall in S.
  assert (OK : forall r, In r (rows df) ->
            exists s, series_get (mkSeries (columns df) (snd r)) info_column
                      = Ok (CStr s)).
  { intros r I. specialize (S r I).
    destruct (series_get _ info_column) as [[s| | |]|]; try discriminate.
    now exists s. }
  assert (SNAP : forall r, In r (rows df) ->
            entry_annotation info_column
              (mkSeries (columns df ++ ann_columns) (snd r ++ cells4 none4))
            = row_annotation df info_column (snd r)).
  { intros r I. destruct (OK r I) as [s G].
    unfold row_annotation, entry_annotation.
    now rewrite (series_get_app _ ann_columns _ (cells4 none4) _ _ G), G. }
  eexists. split; [|split].
  - unfold add_ann_info_to_df. rewrite (new_columns_annotated df N).
    apply ann_loop_annotated; [exact R|exact N|].
    intros it I. unfold iterrows, annotated in I. cbn [rows columns] in I.
    rewrite map_map in I. apply in_map_iff in I as [r [<- I]]. cbn [fst snd].
    destruct (OK r I) as [s G]. exists s. now apply series_get_app.
  - reflexivity.
  - unfold annotated at 1. cbn [rows]. apply map_ext. intros r.
    f_equal. f_equal. unfold iterrows, annotated. cbn [rows columns].
    rewrite map_map. cbn [fst snd].
    rewrite (fold_ann_step_last df info_column (rows df) SNAP).
    now destruct (last_annotation df info_column (rows df) (fst r)).
Qed.

Lemma add_ann_info_shared_labels_witness :
  exists df' : DataFrame,
    add_ann_info_to_df duplicate_labels "INFO" = Ok df' /\
    columns df' = ["INFO"; "variant_type"; "impact"; "gene_id"; "allele"] /\
    rows df'
    = [(0%Z, [CStr "DP=5;ANN=A|missense_variant|MODERATE|geneX";
              CStr "missense_variant"; CStr "MODERATE"; CStr "geneX"; CStr "A"]);
       (0%Z, [CStr "DP=7";
              CStr "missense_variant"; CStr "MODERATE"; CStr "geneX"; CStr "A"])].
Proof.
  apply (add_ann_info_shared_labels duplicate_labels "INFO"). reflexivity.
Defined.
